(** * Appointment scheduling and availability engine of doctym-backend

    A shallow embedding of the booking core of the backend:
    - [app/routers/working_hours.py]  ([create_working_hours], [get_working_hours],
                                       [update_working_hours], [delete_working_hours],
                                       [get_available_slots]),
    - [app/routers/appointments.py]   ([generate_qr_code], [is_time_slot_available],
                                       [create_appointment], [get_appointment],
                                       [get_doctor_appointments],
                                       [get_patient_appointments],
                                       [update_appointment_status],
                                       [check_in_appointment],
                                       [get_appointment_qr_code]),
    - [app/core/scheduler.py]         ([create_appointment_notification],
                                       [check_upcoming_appointments]),
    together with the SQLAlchemy models they read and write.

    The database session is an explicit record of tables; each table is the
    list of its rows in insertion order, [Query.first] is the first matching
    row of that list and [Query.all] the matching rows in order.  Handlers
    that can raise return an [outcome]; handlers that write return the new
    database next to it. *)

From Stdlib Require Import ZArith List Bool String Ascii Lia Sorted.
Import ListNotations.
Open Scope Z_scope.

(** ** Time: [datetime.time], [datetime.date], [datetime.datetime], [timedelta] *)

Module Clock.

(** Python's resolution is one microsecond. *)
Definition MINUTE : Z := 60000000.
Definition HOUR : Z := 3600000000.
Definition DAY : Z := 86400000000.

(** A [time] is the number of microseconds since midnight, a [date] the
    number of days since 0001-01-01 (a Monday), a naive [datetime] the
    number of microseconds since 0001-01-01T00:00:00.  A Python [time] lies
    in [0, DAY): that is [valid_time], stated where a property needs it.
    Datetimes are not bounded above: the [OverflowError] of arithmetic past
    the year 9999 is outside the model. *)
Abbreviation time := Z (only parsing).
Abbreviation date := Z (only parsing).
Abbreviation datetime := Z (only parsing).

Definition valid_time (t : time) : Prop := 0 <= t < DAY.

(** [time.min] and [time.max] *)
Definition time_min : time := 0.
Definition time_max : time := DAY - 1.

(** [datetime.combine(d, t)], [dt.date()], [dt.time()] *)
Definition combine (d : date) (t : time) : datetime := d * DAY + t.
Definition date_of (dt : datetime) : date := dt / DAY.
Definition time_of (dt : datetime) : time := dt mod DAY.

(** [d.weekday()]: 0 is Monday. *)
Definition weekday (d : date) : Z := d mod 7.

(** [timedelta(hours=h)], [timedelta(days=d)] *)
Definition hours (h : Z) : Z := h * HOUR.
Definition days (d : Z) : Z := d * DAY.

(** Clock times written [hm h m] in the examples. *)
Definition hm (h m : Z) : time := h * HOUR + m * MINUTE.

(** [t.strftime("%H:%M")]: two digits, a colon, two digits. *)
Definition digit (d : Z) : ascii := ascii_of_nat (48 + Z.to_nat d).
Definition pad2 (n : Z) : string :=
  String (digit (n / 10)) (String (digit (n mod 10)) EmptyString).
Definition strftime_HM (t : time) : string :=
  (pad2 (t / HOUR) ++ ":" ++ pad2 ((t mod HOUR) / MINUTE))%string.

End Clock.
Import Clock.

(** ** Exceptions and results *)

Inductive exn : Type :=
| HTTPException (status_code : Z) (detail : string)
| TypeError
| AttributeError
| UnboundLocalError.

Inductive outcome (A : Type) : Type :=
| Returns (a : A)
| Raises (e : exn).
Arguments Returns {A} a.
Arguments Raises {A} e.

Definition bind {A B : Type} (m : outcome A) (k : A -> outcome B) : outcome B :=
  match m with
  | Returns a => k a
  | Raises e => Raises e
  end.

Notation "x <- m ;; k" := (bind m (fun x => k))
  (at level 61, m at next level, right associativity).

(** [fastapi.status] *)
Definition HTTP_400_BAD_REQUEST : Z := 400.
Definition HTTP_403_FORBIDDEN : Z := 403.
Definition HTTP_404_NOT_FOUND : Z := 404.

(** ** Models *)

Module User.
Record t : Type := mk
  { id : Z;
    full_name : string;
    is_doctor : bool }.
End User.

Inductive AppointmentStatus : Type :=
| SCHEDULED
| CONFIRMED
| IN_PROGRESS
| COMPLETED
| CANCELLED.

Definition status_eqb (a b : AppointmentStatus) : bool :=
  match a, b with
  | SCHEDULED, SCHEDULED
  | CONFIRMED, CONFIRMED
  | IN_PROGRESS, IN_PROGRESS
  | COMPLETED, COMPLETED
  | CANCELLED, CANCELLED => true
  | _, _ => false
  end.

(** The payload the QR code encodes ([verification_data] in
    [generate_qr_code]); the PNG rendering and base64 step are left out and
    the [qr_code] column holds the payload itself. *)
Record verification_data : Type := mk_verification
  { v_appointment_id : Z;
    v_patient_id : Z;
    v_patient_name : string;
    v_appointment_time : datetime;
    v_status : AppointmentStatus }.

Module Appointment.
Record t : Type := mk
  { id : Z;
    doctor_id : Z;
    patient_id : Z;
    start_time : datetime;
    end_time : datetime;
    status : AppointmentStatus;
    qr_code : option verification_data }.
End Appointment.

Module WorkingHours.
Record t : Type := mk
  { id : Z;
    doctor_id : Z;
    day_of_week : Z;
    start_time : time;
    end_time : time;
    has_break : bool;
    break_start : option time;
    break_end : option time;
    is_available : bool }.
End WorkingHours.

(** The text of a notification: both messages are an f-string over the
    doctor's name and the appointment's start. *)
Inductive message : Type :=
| ReminderMessage (doctor_name : string) (at_time : datetime)
| ConfirmedMessage (doctor_name : string) (at_time : datetime).

Module Notification.
Record t : Type := mk
  { user_id : Z;
    title : string;
    msg : message;
    type : string;
    is_read : bool;
    appointment_id : option Z }.
End Notification.

(** The session: one list of rows per table. *)
Module Db.
Record t : Type := mk
  { users : list User.t;
    appointments : list Appointment.t;
    working_hours : list WorkingHours.t;
    notifications : list Notification.t }.
End Db.
Definition Session : Type := Db.t.

(** [db.query(M).filter(p).first()] *)
Definition first {A : Type} (p : A -> bool) (rows : list A) : option A :=
  find p rows.

(** ** ConflictGuard: [is_time_slot_available] *)

(** Comparison of two possibly-[None] times: Python raises [TypeError] when
    [None] meets a [time]. *)
Definition le_time (a b : option time) : outcome bool :=
  match a, b with
  | Some x, Some y => Returns (x <=? y)
  | _, _ => Raises TypeError
  end.

(** The chained comparison [lo <= t <= hi]: the second test runs only when
    the first holds. *)
Definition between (lo : option time) (t : time) (hi : option time) : outcome bool :=
  b <- le_time lo (Some t) ;;
  if b then le_time (Some t) hi else Returns false.

(** [c1 or c2] *)
Definition or_else (c1 c2 : outcome bool) : outcome bool :=
  b <- c1 ;; if b then Returns true else c2.

(** The three-way disjunction of the overlap query. *)
Definition overlapping (start_time end_time : datetime) (a : Appointment.t) : bool :=
  (Appointment.start_time a <=? start_time) && (start_time <? Appointment.end_time a)
  || (Appointment.start_time a <? end_time) && (end_time <=? Appointment.end_time a)
  || (start_time <=? Appointment.start_time a) && (Appointment.end_time a <=? end_time).

Definition overlapping_appointment (db : Session) (doctor_id : Z)
    (start_time end_time : datetime) : option Appointment.t :=
  first (fun a =>
           (Appointment.doctor_id a =? doctor_id)
           && negb (status_eqb (Appointment.status a) CANCELLED)
           && overlapping start_time end_time a)
        (Db.appointments db).

(** The active entry of a doctor for a weekday; both paths run this query. *)
Definition active_working_hours (db : Session) (doctor_id day_of_week : Z)
    : option WorkingHours.t :=
  first (fun w =>
           (WorkingHours.doctor_id w =? doctor_id)
           && (WorkingHours.day_of_week w =? day_of_week)
           && WorkingHours.is_available w)
        (Db.working_hours db).

Definition is_time_slot_available (db : Session) (doctor_id : Z)
    (start_time end_time : datetime) : outcome bool :=
  match overlapping_appointment db doctor_id start_time end_time with
  | Some _ => Returns false
  | None =>
    let day_of_week := weekday (date_of start_time) in
    match active_working_hours db doctor_id day_of_week with
    | None => Returns false
    | Some working_hours =>
      let appointment_start_time := time_of start_time in
      let appointment_end_time := time_of end_time in
      if (appointment_start_time <? WorkingHours.start_time working_hours)
         || (WorkingHours.end_time working_hours <? appointment_end_time)
      then Returns false
      else if WorkingHours.has_break working_hours then
        in_break <-
          or_else (between (WorkingHours.break_start working_hours)
                           appointment_start_time
                           (WorkingHours.break_end working_hours))
                  (between (WorkingHours.break_start working_hours)
                           appointment_end_time
                           (WorkingHours.break_end working_hours)) ;;
        if in_break then Returns false else Returns true
      else Returns true
    end
  end.

(** ** AvailabilityCalculator: [get_available_slots] *)

(** One element of the returned list: a dict with two ["%H:%M"] strings. *)
Record slot : Type := mk_slot
  { slot_start_time : string;
    slot_end_time : string }.

Definition slot_dict (slot_tuple : time * time) : slot :=
  {| slot_start_time := strftime_HM (fst slot_tuple);
     slot_end_time := strftime_HM (snd slot_tuple) |}.

(** Appointments of the doctor that start on the target date, as
    (start, end) times of day.  No filter on [status]. *)
Definition booked_slots (db : Session) (doctor_id : Z) (target_date : date)
    : list (time * time) :=
  let start_of_day := combine target_date time_min in
  let end_of_day := combine target_date time_max in
  map (fun appt => (time_of (Appointment.start_time appt),
                    time_of (Appointment.end_time appt)))
      (filter (fun appt =>
                 (Appointment.doctor_id appt =? doctor_id)
                 && (start_of_day <=? Appointment.start_time appt)
                 && (Appointment.start_time appt <? end_of_day))
              (Db.appointments db)).

(** [has_break and break_start and break_end] followed by the overlap test
    with the break. *)
Definition in_break (w : WorkingHours.t) (slot_tuple : time * time) : bool :=
  match WorkingHours.has_break w, WorkingHours.break_start w, WorkingHours.break_end w with
  | true, Some break_start, Some break_end =>
    (fst slot_tuple <? break_end) && (break_start <? snd slot_tuple)
  | _, _, _ => false
  end.

(** The inner [for booked in booked_slots] loop. *)
Definition overlap (booked : list (time * time)) (slot_tuple : time * time) : bool :=
  existsb (fun b => (fst slot_tuple <? snd b) && (fst b <? snd slot_tuple)) booked.

(** The [while] loop.  It collects the slot tuples it keeps; the handler
    formats each of them with [slot_dict].  [fuel] bounds the number of
    iterations; [slot_loop_fuel] shows that the bound chosen by
    [slot_tuples] is never the reason the loop stops. *)
Fixpoint slot_loop (w : WorkingHours.t) (booked : list (time * time))
    (slot_end : datetime) (fuel : nat) (slot_start : datetime)
    : list (time * time) :=
  match fuel with
  | O => []
  | S fuel' =>
    if slot_start + hours 1 <=? slot_end then
      let slot_tuple := (time_of slot_start, time_of (slot_start + hours 1)) in
      if in_break w slot_tuple then
        slot_loop w booked slot_end fuel' (slot_start + hours 1)
      else if overlap booked slot_tuple then
        slot_loop w booked slot_end fuel' (slot_start + hours 1)
      else
        slot_tuple :: slot_loop w booked slot_end fuel' (slot_start + hours 1)
    else []
  end.

Definition iterations (slot_start slot_end : datetime) : nat :=
  Z.to_nat ((slot_end - slot_start) / HOUR).

Definition slot_tuples (db : Session) (doctor_id : Z) (target_date : date)
    : list (time * time) :=
  let day_of_week := weekday target_date in
  match active_working_hours db doctor_id day_of_week with
  | None => []
  | Some working_hours =>
    let booked := booked_slots db doctor_id target_date in
    let slot_start := combine target_date (WorkingHours.start_time working_hours) in
    let slot_end := combine target_date (WorkingHours.end_time working_hours) in
    slot_loop working_hours booked slot_end (iterations slot_start slot_end) slot_start
  end.

(** The handler, after [date_str] has been parsed into [target_date]. *)
Definition get_available_slots (db : Session) (doctor_id : Z) (target_date : date)
    : list slot :=
  map slot_dict (slot_tuples db doctor_id target_date).

(** ** Handlers that write: state and exceptions *)

(** A handler step runs on a session and leaves a session: what was
    committed before an exception stays committed. *)
Definition action (A : Type) : Type := Session -> Session * outcome A.

Definition ret {A : Type} (a : A) : action A := fun db => (db, Returns a).
Definition raise {A : Type} (e : exn) : action A := fun db => (db, Raises e).
Definition lift {A : Type} (o : outcome A) : action A := fun db => (db, o).
Definition query {A : Type} (q : Session -> A) : action A := fun db => (db, Returns (q db)).
Definition commit (f : Session -> Session) : action unit := fun db => (f db, Returns tt).

Definition and_then {A B : Type} (m : action A) (k : A -> action B) : action B :=
  fun db =>
    match m db with
    | (db', Returns a) => k a db'
    | (db', Raises e) => (db', Raises e)
    end.

Notation "x <~ m ;; k" := (and_then m (fun x => k))
  (at level 61, m at next level, right associativity).

(** [for x in xs: body(x)] *)
Fixpoint for_each {A : Type} (xs : list A) (body : A -> action unit) : action unit :=
  match xs with
  | [] => ret tt
  | x :: xs' => _ <~ body x ;; for_each xs' body
  end.

(** The integer primary key the store gives to a new row. *)
Definition next_id {A : Type} (id : A -> Z) (rows : list A) : Z :=
  1 + fold_right (fun r m => Z.max (id r) m) 0 rows.

(** An attribute assignment on the row a query returned, then [commit]. *)
Fixpoint update_first {A : Type} (p : A -> bool) (f : A -> A) (rows : list A) : list A :=
  match rows with
  | [] => []
  | r :: rows' => if p r then f r :: rows' else r :: update_first p f rows'
  end.

Definition with_appointments (f : list Appointment.t -> list Appointment.t)
    (db : Session) : Session :=
  {| Db.users := Db.users db;
     Db.appointments := f (Db.appointments db);
     Db.working_hours := Db.working_hours db;
     Db.notifications := Db.notifications db |}.

Definition add_notification (n : Notification.t) (db : Session) : Session :=
  {| Db.users := Db.users db;
     Db.appointments := Db.appointments db;
     Db.working_hours := Db.working_hours db;
     Db.notifications := Db.notifications db ++ [n] |}.

Definition add_working_hours (w : WorkingHours.t) (db : Session) : Session :=
  {| Db.users := Db.users db;
     Db.appointments := Db.appointments db;
     Db.working_hours := Db.working_hours db ++ [w];
     Db.notifications := Db.notifications db |}.

Definition appointment_by_id (appointment_id : Z) (db : Session) : option Appointment.t :=
  first (fun a => Appointment.id a =? appointment_id) (Db.appointments db).

(** The relationships [appointment.doctor] and [appointment.patient]. *)
Definition user_by_id (user_id : Z) (db : Session) : option User.t :=
  first (fun u => User.id u =? user_id) (Db.users db).

(** [obj.full_name] where [obj] may be [None]. *)
Definition full_name_of (u : option User.t) : outcome string :=
  match u with
  | Some u => Returns (User.full_name u)
  | None => Raises AttributeError
  end.

(** ** WorkingHoursCalendar: [create_working_hours] *)

Record WorkingHoursCreate : Type := mk_whc
  { c_day_of_week : Z;
    c_start_time : time;
    c_end_time : time;
    c_has_break : bool;
    c_break_start : option time;
    c_break_end : option time }.

(** [not t] on an optional [time]: only [None] is falsy. *)
Definition is_none {A : Type} (o : option A) : bool :=
  match o with
  | None => true
  | Some _ => false
  end.

(** [a >= b] on the optional break bounds, reached only when both are given. *)
Definition ge_time (a b : option time) : outcome bool :=
  match a, b with
  | Some x, Some y => Returns (y <=? x)
  | _, _ => Raises TypeError
  end.

Definition create_working_hours (doctor_id : Z) (working_hours : WorkingHoursCreate)
    (current_user : User.t) : action WorkingHours.t :=
  if negb (User.id current_user =? doctor_id) || negb (User.is_doctor current_user) then
    raise (HTTPException HTTP_403_FORBIDDEN "Not authorized to set working hours")
  else if c_end_time working_hours <=? c_start_time working_hours then
    raise (HTTPException HTTP_400_BAD_REQUEST "Start time must be before end time")
  else
    _ <~ (if c_has_break working_hours then
            if is_none (c_break_start working_hours) || is_none (c_break_end working_hours) then
              raise (HTTPException HTTP_400_BAD_REQUEST
                       "Break start and end times are required when has_break is True")
            else
              malformed <~ lift (ge_time (c_break_start working_hours)
                                         (c_break_end working_hours)) ;;
              if malformed then
                raise (HTTPException HTTP_400_BAD_REQUEST
                         "Break start time must be before break end time")
              else ret tt
          else ret tt) ;;
    new_id <~ query (fun db => next_id WorkingHours.id (Db.working_hours db)) ;;
    let db_working_hours :=
      WorkingHours.mk new_id doctor_id
        (c_day_of_week working_hours)
        (c_start_time working_hours) (c_end_time working_hours)
        (c_has_break working_hours)
        (c_break_start working_hours) (c_break_end working_hours)
        true in
    _ <~ commit (add_working_hours db_working_hours) ;;
    ret db_working_hours.

(** ** Booking: [generate_qr_code], [create_appointment] *)

Record AppointmentCreate : Type := mk_ac
  { a_doctor_id : Z;
    a_start_time : datetime }.

Definition set_qr_code (qr : verification_data) (a : Appointment.t) : Appointment.t :=
  Appointment.mk (Appointment.id a) (Appointment.doctor_id a) (Appointment.patient_id a)
    (Appointment.start_time a) (Appointment.end_time a) (Appointment.status a) (Some qr).

Definition set_status (s : AppointmentStatus) (a : Appointment.t) : Appointment.t :=
  Appointment.mk (Appointment.id a) (Appointment.doctor_id a) (Appointment.patient_id a)
    (Appointment.start_time a) (Appointment.end_time a) s (Appointment.qr_code a).

Definition generate_qr_code (appointment_id : Z) : action verification_data :=
  found <~ query (appointment_by_id appointment_id) ;;
  match found with
  | None => raise (HTTPException HTTP_404_NOT_FOUND "Appointment not found")
  | Some appointment =>
    patient <~ query (user_by_id (Appointment.patient_id appointment)) ;;
    patient_name <~ lift (full_name_of patient) ;;
    ret {| v_appointment_id := appointment_id;
           v_patient_id := Appointment.patient_id appointment;
           v_patient_name := patient_name;
           v_appointment_time := Appointment.start_time appointment;
           v_status := Appointment.status appointment |}
  end.

Definition create_appointment (appointment : AppointmentCreate) (current_user : User.t)
    : action Appointment.t :=
  if User.is_doctor current_user then
    raise (HTTPException HTTP_403_FORBIDDEN "Doctors cannot create appointments")
  else
    let end_time := a_start_time appointment + hours 1 in
    available <~ (fun db => (db, is_time_slot_available db (a_doctor_id appointment)
                                   (a_start_time appointment) end_time)) ;;
    if negb available then
      raise (HTTPException HTTP_400_BAD_REQUEST "Time slot is not available")
    else
      new_id <~ query (fun db => next_id Appointment.id (Db.appointments db)) ;;
      let db_appointment :=
        Appointment.mk new_id (a_doctor_id appointment) (User.id current_user)
          (a_start_time appointment) end_time SCHEDULED None in
      _ <~ commit (with_appointments (fun rows => rows ++ [db_appointment])) ;;
      qr_code <~ generate_qr_code new_id ;;
      _ <~ commit (with_appointments
                     (update_first (fun a => Appointment.id a =? new_id)
                                   (set_qr_code qr_code))) ;;
      doctor <~ query (user_by_id (a_doctor_id appointment)) ;;
      doctor_name <~ lift (full_name_of doctor) ;;
      _ <~ commit (add_notification
                     {| Notification.user_id := User.id current_user;
                        Notification.title := "Appointment Confirmed";
                        Notification.msg :=
                          ConfirmedMessage doctor_name (a_start_time appointment);
                        Notification.type := "appointment";
                        Notification.is_read := false;
                        Notification.appointment_id := Some new_id |}) ;;
      ret (set_qr_code qr_code db_appointment).

(** ** AppointmentLifecycle: [update_appointment_status] *)

(** The handler's parameter [status] hides the [fastapi.status] module: the
    expressions [status.HTTP_404_NOT_FOUND] and [status.HTTP_403_FORBIDDEN]
    in its two guards look the attribute up on the requested
    [AppointmentStatus] member, which has none. *)
Definition status_attribute (status : AppointmentStatus) (name : string) : outcome Z :=
  Raises AttributeError.

Definition update_appointment_status (appointment_id : Z) (status : AppointmentStatus)
    (current_user : User.t) : action string :=
  found <~ query (appointment_by_id appointment_id) ;;
  match found with
  | None =>
    code <~ lift (status_attribute status "HTTP_404_NOT_FOUND") ;;
    raise (HTTPException code "Appointment not found")
  | Some appointment =>
    if negb (User.id current_user =? Appointment.doctor_id appointment)
       || negb (User.is_doctor current_user)
    then
      code <~ lift (status_attribute status "HTTP_403_FORBIDDEN") ;;
      raise (HTTPException code "Not authorized to update appointment status")
    else
      _ <~ commit (with_appointments
                     (update_first (fun a => Appointment.id a =? appointment_id)
                                   (set_status status))) ;;
      ret "Appointment status updated successfully"%string
  end.

(** ** ReminderScheduler: [create_appointment_notification],
       [check_upcoming_appointments] *)

Definition create_appointment_notification (appointment : Appointment.t)
    (notification_type : string) : action unit :=
  doctor <~ query (user_by_id (Appointment.doctor_id appointment)) ;;
  title_message <~
    (if String.eqb notification_type "reminder" then
       doctor_name <~ lift (full_name_of doctor) ;;
       ret ("Appointment Reminder"%string,
            ReminderMessage doctor_name (Appointment.start_time appointment))
     else if String.eqb notification_type "confirmation" then
       doctor_name <~ lift (full_name_of doctor) ;;
       ret ("Appointment Confirmed"%string,
            ConfirmedMessage doctor_name (Appointment.start_time appointment))
     else raise UnboundLocalError) ;;
  commit (add_notification
            {| Notification.user_id := Appointment.patient_id appointment;
               Notification.title := fst title_message;
               Notification.msg := snd title_message;
               Notification.type := "appointment";
               Notification.is_read := false;
               Notification.appointment_id := Some (Appointment.id appointment) |}).

(** The appointments a tick selects.  The handler reads the clock twice:
    [now_1] when it computes [tomorrow], [now_2] inside the filter. *)
Definition upcoming (now_1 now_2 : datetime) (a : Appointment.t) : bool :=
  let tomorrow := now_1 + days 1 in
  (Appointment.start_time a <=? tomorrow)
  && (now_2 <? Appointment.start_time a)
  && status_eqb (Appointment.status a) SCHEDULED.

Definition check_upcoming_appointments (now_1 now_2 : datetime) : action unit :=
  appointments <~ query (fun db => filter (upcoming now_1 now_2) (Db.appointments db)) ;;
  for_each appointments
    (fun appointment => create_appointment_notification appointment "reminder").

(** ** Working-hours maintenance: [get_working_hours],
       [update_working_hours], [delete_working_hours] *)

Definition with_working_hours (f : list WorkingHours.t -> list WorkingHours.t)
    (db : Session) : Session :=
  {| Db.users := Db.users db;
     Db.appointments := Db.appointments db;
     Db.working_hours := f (Db.working_hours db);
     Db.notifications := Db.notifications db |}.

(** [db.delete(row)] on the row a query returned, then [commit]. *)
Fixpoint remove_first {A : Type} (p : A -> bool) (rows : list A) : list A :=
  match rows with
  | [] => []
  | r :: rows' => if p r then rows' else r :: remove_first p rows'
  end.

(** The filter both maintenance handlers use to find the entry. *)
Definition owned_entry (working_hours_id doctor_id : Z) (w : WorkingHours.t) : bool :=
  (WorkingHours.id w =? working_hours_id) && (WorkingHours.doctor_id w =? doctor_id).

(** [for key, value in working_hours.dict().items(): setattr(row, key, value)] *)
Definition set_fields (req : WorkingHoursCreate) (w : WorkingHours.t) : WorkingHours.t :=
  WorkingHours.mk (WorkingHours.id w) (WorkingHours.doctor_id w)
    (c_day_of_week req) (c_start_time req) (c_end_time req)
    (c_has_break req) (c_break_start req) (c_break_end req)
    (WorkingHours.is_available w).

Definition get_working_hours (doctor_id : Z) : action (list WorkingHours.t) :=
  query (fun db => filter (fun w => WorkingHours.doctor_id w =? doctor_id)
                          (Db.working_hours db)).

Definition update_working_hours (doctor_id working_hours_id : Z)
    (working_hours : WorkingHoursCreate) (current_user : User.t)
    : action WorkingHours.t :=
  if negb (User.id current_user =? doctor_id) || negb (User.is_doctor current_user) then
    raise (HTTPException HTTP_403_FORBIDDEN "Not authorized to update working hours")
  else
    found <~ query (fun db => first (owned_entry working_hours_id doctor_id)
                                    (Db.working_hours db)) ;;
    match found with
    | None => raise (HTTPException HTTP_404_NOT_FOUND "Working hours not found")
    | Some db_working_hours =>
      _ <~ commit (with_working_hours
                     (update_first (owned_entry working_hours_id doctor_id)
                                   (set_fields working_hours))) ;;
      ret (set_fields working_hours db_working_hours)
    end.

Definition delete_working_hours (doctor_id working_hours_id : Z)
    (current_user : User.t) : action string :=
  if negb (User.id current_user =? doctor_id) || negb (User.is_doctor current_user) then
    raise (HTTPException HTTP_403_FORBIDDEN "Not authorized to delete working hours")
  else
    found <~ query (fun db => first (owned_entry working_hours_id doctor_id)
                                    (Db.working_hours db)) ;;
    match found with
    | None => raise (HTTPException HTTP_404_NOT_FOUND "Working hours not found")
    | Some db_working_hours =>
      _ <~ commit (with_working_hours
                     (remove_first (owned_entry working_hours_id doctor_id))) ;;
      ret "Working hours deleted successfully"%string
    end.

(** ** Appointment views and check-in: [get_appointment],
       [get_doctor_appointments], [get_patient_appointments],
       [check_in_appointment], [get_appointment_qr_code] *)

(** [current_user.id not in [appointment.doctor_id, appointment.patient_id]] *)
Definition not_a_party (current_user : User.t) (appointment : Appointment.t) : bool :=
  negb ((User.id current_user =? Appointment.doctor_id appointment)
        || (User.id current_user =? Appointment.patient_id appointment)).

Definition get_appointment (appointment_id : Z) (current_user : User.t)
    : action Appointment.t :=
  found <~ query (appointment_by_id appointment_id) ;;
  match found with
  | None => raise (HTTPException HTTP_404_NOT_FOUND "Appointment not found")
  | Some appointment =>
    if not_a_party current_user appointment then
      raise (HTTPException HTTP_403_FORBIDDEN "Not authorized to view this appointment")
    else ret appointment
  end.

Definition get_doctor_appointments (doctor_id : Z) (current_user : User.t)
    : action (list Appointment.t) :=
  if negb (User.id current_user =? doctor_id) || negb (User.is_doctor current_user) then
    raise (HTTPException HTTP_403_FORBIDDEN "Not authorized to view these appointments")
  else
    query (fun db => filter (fun a => Appointment.doctor_id a =? doctor_id)
                            (Db.appointments db)).

Definition get_patient_appointments (patient_id : Z) (current_user : User.t)
    : action (list Appointment.t) :=
  if negb (User.id current_user =? patient_id) then
    raise (HTTPException HTTP_403_FORBIDDEN "Not authorized to view these appointments")
  else
    query (fun db => filter (fun a => Appointment.patient_id a =? patient_id)
                            (Db.appointments db)).

(** Unlike [update_appointment_status], this handler has no parameter named
    [status]: its guards raise the [HTTPException]s they spell. *)
Definition check_in_appointment (appointment_id : Z) (current_user : User.t)
    : action string :=
  found <~ query (appointment_by_id appointment_id) ;;
  match found with
  | None => raise (HTTPException HTTP_404_NOT_FOUND "Appointment not found")
  | Some appointment =>
    if negb (User.id current_user =? Appointment.doctor_id appointment)
       || negb (User.is_doctor current_user)
    then raise (HTTPException HTTP_403_FORBIDDEN "Not authorized to check in appointments")
    else
      _ <~ commit (with_appointments
                     (update_first (fun a => Appointment.id a =? appointment_id)
                                   (set_status IN_PROGRESS))) ;;
      ret "Appointment checked in successfully"%string
  end.

(** The handler answers with the PNG of the QR code; as for the [qr_code]
    column, the model keeps the payload the image encodes. *)
Definition get_appointment_qr_code (appointment_id : Z) (current_user : User.t)
    : action verification_data :=
  found <~ query (appointment_by_id appointment_id) ;;
  match found with
  | None => raise (HTTPException HTTP_404_NOT_FOUND "Appointment not found")
  | Some appointment =>
    if not_a_party current_user appointment then
      raise (HTTPException HTTP_403_FORBIDDEN "Not authorized to view this QR code")
    else
      patient <~ query (user_by_id (Appointment.patient_id appointment)) ;;
      patient_name <~ lift (full_name_of patient) ;;
      ret {| v_appointment_id := appointment_id;
             v_patient_id := Appointment.patient_id appointment;
             v_patient_name := patient_name;
             v_appointment_time := Appointment.start_time appointment;
             v_status := Appointment.status appointment |}
  end.

(** ** Scenarios *)

Module Scenario.

(** 2024-01-01, a Monday. *)
Definition monday : date := 738885.
Definition at_ (d : date) (h m : Z) : datetime := combine d (hm h m).

Definition dr : User.t := User.mk 1 "Dr. A" true.
Definition pat : User.t := User.mk 2 "P. B" false.

Definition nine_to_five : WorkingHours.t :=
  WorkingHours.mk 1 1 0 (hm 9 0) (hm 17 0) false None None true.
Definition nine_to_five_lunch : WorkingHours.t :=
  WorkingHours.mk 1 1 0 (hm 9 0) (hm 17 0) true (Some (hm 12 0)) (Some (hm 13 0)) true.

Definition db_plain : Session := Db.mk [dr; pat] [] [nine_to_five] [].
Definition db_lunch : Session := Db.mk [dr; pat] [] [nine_to_five_lunch] [].
Definition db_closed : Session := Db.mk [dr; pat] [] [] [].

Definition book (h m : Z) : AppointmentCreate := mk_ac 1 (at_ monday h m).

(** An appointment of [pat] with [dr] on the Monday, as the booking
    handler stores it. *)
Definition appt (id : Z) (h m : Z) (st : AppointmentStatus) : Appointment.t :=
  Appointment.mk id 1 2 (at_ monday h m) (at_ monday h m + hours 1) st
    (Some (mk_verification id 2 "P. B" (at_ monday h m) SCHEDULED)).

(** 09:00-10:00 is taken. *)
Definition db_booked : Session :=
  Db.mk [dr; pat] [appt 1 9 0 SCHEDULED] [nine_to_five_lunch] [].
(** Scenario 5, seen from [tick_time]: appointment 1 starts in 23 hours,
    appointment 2 in 25 hours, appointment 3 in 23 hours and is cancelled. *)
Definition tick_time : datetime := at_ monday 10 0 - hours 23.
Definition db_reminders : Session :=
  Db.mk [dr; pat]
        [appt 1 10 0 SCHEDULED; appt 2 12 0 SCHEDULED; appt 3 10 0 CANCELLED]
        [nine_to_five] [].

(** 09:00-10:00 was taken and then cancelled, 14:00-15:00 is taken. *)
Definition db_mixed : Session :=
  Db.mk [dr; pat] [appt 1 9 0 CANCELLED; appt 2 14 0 SCHEDULED] [nine_to_five_lunch] [].

(** 09:00-10:00 was taken and then cancelled. *)
Definition db_cancelled : Session :=
  Db.mk [dr; pat] [appt 1 9 0 CANCELLED] [nine_to_five] [].

End Scenario.
Import Scenario.

(** ** Vocabulary of the statements *)

(** A slot the loop keeps: neither in the break nor over a booked interval. *)
Definition kept (w : WorkingHours.t) (booked : list (time * time))
    (slot_tuple : time * time) : bool :=
  negb (in_break w slot_tuple) && negb (overlap booked slot_tuple).

(** The loop as [slot_tuples] runs it, started at time [t] of date [d] for a
    window that ends at [t_end]. *)
Definition run (w : WorkingHours.t) (booked : list (time * time)) (d : date)
    (t_end t : time) : list (time * time) :=
  slot_loop w booked (combine d t_end)
    (iterations (combine d t) (combine d t_end)) (combine d t).

(** What every kept slot looks like, seen from the time [t] the loop starts. *)
Definition stepped_from (w : WorkingHours.t) (booked : list (time * time))
    (t_end t : time) (slot_tuple : time * time) : Prop :=
  exists k : Z,
    0 <= k /\ fst slot_tuple = t + k * HOUR
    /\ snd slot_tuple = fst slot_tuple + HOUR
    /\ snd slot_tuple <= t_end
    /\ kept w booked slot_tuple = true.

(** Half-open overlap of two (start, end) pairs. *)
Definition overlaps (p q : time * time) : Prop :=
  fst p < snd q /\ fst q < snd p.

Definition within_one_day (a : Appointment.t) : Prop :=
  Appointment.start_time a < Appointment.end_time a
  /\ date_of (Appointment.end_time a) = date_of (Appointment.start_time a).

(** Admission at booking time, and presence in the list of the read path. *)
Definition admits (db : Session) (doctor_id : Z) (s e : datetime) : Prop :=
  is_time_slot_available db doctor_id s e = Returns true.

Definition listed (db : Session) (doctor_id : Z) (target_date : date)
    (s e : datetime) : Prop :=
  In (slot_dict (time_of s, time_of e)) (get_available_slots db doctor_id target_date).

(** The two break tests agree on an interval: there is no break, or the
    interval neither touches a bound of the break nor has the break
    strictly inside it. *)
Definition break_agrees (w : WorkingHours.t) (ts te : time) : Prop :=
  WorkingHours.has_break w = false
  \/ exists bs be,
       WorkingHours.break_start w = Some bs
       /\ WorkingHours.break_end w = Some be
       /\ ts <> be /\ te <> bs /\ ~ (ts < bs /\ be < te).

(** The session with another list of appointments. *)
Definition replace_appointments (rows : list Appointment.t) (db : Session) : Session :=
  with_appointments (fun _ => rows) db.

(** The transition table of the specification: scheduled, confirmed,
    in_progress, completed in this order, cancelled reachable from the first
    three, completed and cancelled terminal.  The handler has no such
    table; this definition only states what the specification asks. *)
Definition lifecycle_allows (from to : AppointmentStatus) : bool :=
  match from, to with
  | SCHEDULED, CONFIRMED
  | CONFIRMED, IN_PROGRESS
  | IN_PROGRESS, COMPLETED
  | SCHEDULED, CANCELLED
  | CONFIRMED, CANCELLED
  | IN_PROGRESS, CANCELLED => true
  | _, _ => false
  end.

Definition status_of (appointment_id : Z) (db : Session) : option AppointmentStatus :=
  option_map Appointment.status (appointment_by_id appointment_id db).

Definition window_error : exn :=
  HTTPException HTTP_400_BAD_REQUEST "Start time must be before end time".
Definition break_bounds_error : exn :=
  HTTPException HTTP_400_BAD_REQUEST
    "Break start and end times are required when has_break is True".
Definition break_order_error : exn :=
  HTTPException HTTP_400_BAD_REQUEST "Break start time must be before break end time".

Definition slot_unavailable : exn :=
  HTTPException HTTP_400_BAD_REQUEST "Time slot is not available".
Definition doctors_cannot_book : exn :=
  HTTPException HTTP_403_FORBIDDEN "Doctors cannot create appointments".

(** The reasons of the specification's ConflictGuard, in the order it
    gives them.  The code has no such value; this definition only states
    what the specification asks. *)
Inductive rejection : Type :=
| Overlap
| NoAvailability
| OutsideHours
| InsideBreak.

Definition spec_rejection_reason (db : Session) (doctor_id : Z) (s e : datetime)
    : option rejection :=
  if existsb (fun a => (Appointment.doctor_id a =? doctor_id)
                       && negb (status_eqb (Appointment.status a) CANCELLED)
                       && (Appointment.start_time a <? e)
                       && (s <? Appointment.end_time a))
             (Db.appointments db)
  then Some Overlap
  else match active_working_hours db doctor_id (weekday (date_of s)) with
       | None => Some NoAvailability
       | Some w =>
         if (time_of s <? WorkingHours.start_time w)
            || (WorkingHours.end_time w <? time_of e)
         then Some OutsideHours
         else if in_break w (time_of s, time_of e) then Some InsideBreak
         else None
       end.

(** What a created row looks like for a request and a caller. *)
Definition booked_for (req : AppointmentCreate) (current_user : User.t)
    (a : Appointment.t) : Prop :=
  Appointment.doctor_id a = a_doctor_id req
  /\ Appointment.patient_id a = User.id current_user
  /\ Appointment.start_time a = a_start_time req
  /\ Appointment.end_time a = Appointment.start_time a + hours 1
  /\ Appointment.status a = SCHEDULED.

(** The effect of a run on the appointment table: the earlier rows stay,
    at most one row is added, and an added or returned row is [booked_for]
    the request and the caller. *)
Definition adds_at_most_one (req : AppointmentCreate) (current_user : User.t)
    (db : Session) (run : Session * outcome Appointment.t) : Prop :=
  (exists new, Db.appointments (fst run) = Db.appointments db ++ new
               /\ (List.length new <= 1)%nat
               /\ forall a, In a new -> booked_for req current_user a)
  /\ (forall a, snd run = Returns a ->
                In a (Db.appointments (fst run)) /\ booked_for req current_user a).

(** The reminder a tick writes for an appointment; the doctor's name is
    read from the users table. *)
Definition reminder (db : Session) (a : Appointment.t) : Notification.t :=
  {| Notification.user_id := Appointment.patient_id a;
     Notification.title := "Appointment Reminder";
     Notification.msg :=
       ReminderMessage
         (match user_by_id (Appointment.doctor_id a) db with
          | Some u => User.full_name u
          | None => EmptyString
          end)
         (Appointment.start_time a);
     Notification.type := "appointment";
     Notification.is_read := false;
     Notification.appointment_id := Some (Appointment.id a) |}.

Definition add_notifications (ns : list Notification.t) (db : Session) : Session :=
  {| Db.users := Db.users db;
     Db.appointments := Db.appointments db;
     Db.working_hours := Db.working_hours db;
     Db.notifications := Db.notifications db ++ ns |}.

(** A reminder addressed to the patient of [a] about [a]. *)
Definition is_reminder_of (a : Appointment.t) (n : Notification.t) : bool :=
  match Notification.appointment_id n with
  | Some i => i =? Appointment.id a
  | None => false
  end
  && String.eqb (Notification.title n) "Appointment Reminder"
  && (Notification.user_id n =? Appointment.patient_id a).

Definition reminders_sent (a : Appointment.t) (ns : list Notification.t) : nat :=
  List.length (filter (is_reminder_of a) ns).

(** ** Vocabulary of the further properties *)

(** Two appointments of one doctor, neither cancelled, do not overlap. *)
Definition compatible (a b : Appointment.t) : Prop :=
  Appointment.doctor_id a = Appointment.doctor_id b ->
  Appointment.status a <> CANCELLED ->
  Appointment.status b <> CANCELLED ->
  ~ (Appointment.start_time a < Appointment.end_time b
     /\ Appointment.start_time b < Appointment.end_time a).

Definition no_double_booking (rows : list Appointment.t) : Prop :=
  ForallOrdPairs compatible rows.

Definition hour_long (a : Appointment.t) : Prop :=
  Appointment.end_time a = Appointment.start_time a + hours 1.

(** The confirmation [create_appointment] writes. *)
Definition confirmation (req : AppointmentCreate) (current_user : User.t)
    (doctor_name : string) (new_id : Z) : Notification.t :=
  {| Notification.user_id := User.id current_user;
     Notification.title := "Appointment Confirmed";
     Notification.msg := ConfirmedMessage doctor_name (a_start_time req);
     Notification.type := "appointment";
     Notification.is_read := false;
     Notification.appointment_id := Some new_id |}.

(** What a run of [create_appointment] does to the session: it refuses and
    writes nothing, or the interval was admitted and one row with a fresh id
    is stored, with a confirmation exactly when the call returns. *)
Definition booking_effect (req : AppointmentCreate) (current_user : User.t)
    (db : Session) (run : Session * outcome Appointment.t) : Prop :=
  (fst run = db /\ exists e, snd run = Raises e)
  \/ (User.is_doctor current_user = false
      /\ is_time_slot_available db (a_doctor_id req) (a_start_time req)
           (a_start_time req + hours 1) = Returns true
      /\ Db.users (fst run) = Db.users db
      /\ Db.working_hours (fst run) = Db.working_hours db
      /\ exists row,
           booked_for req current_user row
           /\ Appointment.id row = next_id Appointment.id (Db.appointments db)
           /\ Db.appointments (fst run) = Db.appointments db ++ [row]
           /\ ((snd run = Returns row
                /\ exists doctor_name,
                     Db.notifications (fst run)
                     = Db.notifications db
                       ++ [confirmation req current_user doctor_name (Appointment.id row)])
               \/ ((exists e, snd run = Raises e)
                   /\ Db.notifications (fst run) = Db.notifications db))).

(** Ids are a key of the working-hours table, and of the appointment table. *)
Definition entries_keyed (db : Session) : Prop :=
  NoDup (map WorkingHours.id (Db.working_hours db)).

Definition appointments_keyed (db : Session) : Prop :=
  NoDup (map Appointment.id (Db.appointments db)).

Module Scenario2.

(** A window that runs late into the evening. *)
Definition late : WorkingHours.t :=
  WorkingHours.mk 1 1 0 (hm 9 0) (hm 23 30) false None None true.
Definition db_late : Session := Db.mk [dr; pat] [] [late] [].

(** A declared break without bounds, as [update_working_hours] stores it. *)
Definition no_bounds : WorkingHoursCreate :=
  mk_whc 0 (hm 9 0) (hm 17 0) true None None.
Definition db_no_bounds : Session :=
  Db.mk [dr; pat] [] [set_fields no_bounds nine_to_five] [].

(** A cancelled appointment 09:00-10:00 and a later booking of the same hour. *)
Definition db_rebooked : Session :=
  Db.mk [dr; pat] [appt 1 9 0 CANCELLED; appt 2 9 0 SCHEDULED] [nine_to_five] [].

End Scenario2.
Import Scenario2.

(** * Properties *)

(** ** Clock arithmetic *)

Lemma HOUR_pos : 0 < HOUR.
Proof. reflexivity. Qed.

Lemma hours_nonneg (k : Z) : 0 <= k -> 0 <= k * HOUR.
Proof. intros H. apply Z.mul_nonneg_nonneg; [exact H | discriminate]. Qed.

Lemma DAY_pos : 0 < DAY.
Proof. reflexivity. Qed.

Lemma time_of_combine (d : date) (t : time) :
  valid_time t -> time_of (combine d t) = t.
Proof.
  unfold valid_time, time_of, combine. intros H.
  rewrite Z.add_comm, Z.mod_add by (unfold DAY; lia).
  apply Z.mod_small. exact H.
Qed.

Lemma combine_date_time (dt : datetime) :
  dt = combine (date_of dt) (time_of dt).
Proof.
  unfold combine, date_of, time_of.
  rewrite Z.mul_comm. apply Z.div_mod. unfold DAY. lia.
Qed.

Lemma valid_time_of (dt : datetime) : valid_time (time_of dt).
Proof. unfold valid_time, time_of. apply Z.mod_pos_bound. reflexivity. Qed.

Lemma combine_plus_hour (d : date) (t : time) :
  combine d t + hours 1 = combine d (t + HOUR).
Proof. unfold combine, hours. lia. Qed.

(** Datetimes of one date compare like their times of day. *)
Lemma same_date_lt (x y : datetime) :
  date_of x = date_of y -> (x < y <-> time_of x < time_of y).
Proof.
  intros H. rewrite (combine_date_time x) at 1. rewrite (combine_date_time y) at 1.
  rewrite H. unfold combine. lia.
Qed.

(** Datetimes of different dates compare like their dates. *)
Lemma date_lt_datetime_lt (x y : datetime) :
  date_of x < date_of y -> x < y.
Proof.
  intros H. rewrite (combine_date_time x), (combine_date_time y).
  pose proof (valid_time_of x) as Hx. pose proof (valid_time_of y) as Hy.
  unfold combine, valid_time in *. unfold DAY in *. nia.
Qed.

(** ** The slot loop *)

Section SlotLoop.

Variable w : WorkingHours.t.
Variable booked : list (time * time).
Variable d : date.
Variable t_end : time.
Hypothesis t_end_valid : valid_time t_end.

Lemma iterations_zero (t : time) :
  iterations (combine d t) (combine d t_end) = O ->
  (combine d t + hours 1 <=? combine d t_end) = false.
Proof.
  unfold iterations, combine, hours. intros H.
  apply Z.leb_gt.
  destruct (Z.le_gt_cases HOUR (d * DAY + t_end - (d * DAY + t))) as [Hle|Hgt]; [|lia].
  exfalso.
  assert (1 <= (d * DAY + t_end - (d * DAY + t)) / HOUR).
  { apply Z.div_le_lower_bound; [reflexivity | lia]. }
  lia.
Qed.

Lemma iterations_step (t : time) :
  combine d t + hours 1 <= combine d t_end ->
  iterations (combine d t) (combine d t_end)
  = S (iterations (combine d (t + HOUR)) (combine d t_end)).
Proof.
  unfold iterations, combine, hours. intros H.
  replace (d * DAY + t_end - (d * DAY + t))
    with ((d * DAY + t_end - (d * DAY + (t + HOUR))) + 1 * HOUR) by lia.
  rewrite Z.div_add by (unfold HOUR; lia).
  assert (0 <= (d * DAY + t_end - (d * DAY + (t + HOUR))) / HOUR)
    by (apply Z.div_pos; [lia | reflexivity]).
  lia.
Qed.

(** The fuel [slot_tuples] gives the loop is never what stops it: any
    larger amount yields the same list. *)
Lemma slot_loop_fuel (fuel : nat) : forall t : time,
  (iterations (combine d t) (combine d t_end) <= fuel)%nat ->
  slot_loop w booked (combine d t_end) fuel (combine d t)
  = slot_loop w booked (combine d t_end) (iterations (combine d t) (combine d t_end)) (combine d t).
Proof.
  induction fuel as [|fuel IH]; intros t Hle.
  - replace (iterations (combine d t) (combine d t_end)) with O by lia. reflexivity.
  - destruct (combine d t + hours 1 <=? combine d t_end) eqn:Hc.
    + pose proof Hc as Hc'. apply Z.leb_le in Hc'.
      rewrite (iterations_step t Hc') in *.
      cbn [slot_loop]. rewrite Hc.
      rewrite combine_plus_hour.
      rewrite (IH (t + HOUR)) by lia. reflexivity.
    + cbn [slot_loop]. rewrite Hc.
      destruct (iterations (combine d t) (combine d t_end)); cbn [slot_loop]; [reflexivity|].
      rewrite Hc. reflexivity.
Qed.

(** The loop equation of the [while]. *)
Lemma slot_loop_unfold (t : time) :
  run w booked d t_end t =
  if combine d t + hours 1 <=? (combine d t_end) then
    let slot_tuple := (time_of (combine d t), time_of (combine d t + hours 1)) in
    if kept w booked slot_tuple
    then slot_tuple :: run w booked d t_end (t + HOUR)
    else run w booked d t_end (t + HOUR)
  else [].
Proof.
  unfold run.
  destruct (combine d t + hours 1 <=? combine d t_end) eqn:Hc.
  - pose proof Hc as Hc'. apply Z.leb_le in Hc'.
    rewrite (iterations_step t Hc'). cbn [slot_loop]. rewrite Hc.
    rewrite combine_plus_hour. unfold kept. cbv zeta.
    destruct (in_break w _); cbn [negb andb]; [reflexivity|].
    destruct (overlap booked _); reflexivity.
  - destruct (iterations (combine d t) (combine d t_end)); cbn [slot_loop]; [reflexivity|].
    rewrite Hc. reflexivity.
Qed.

(** With times of day: the test of the [while] and the slot tuple. *)
Lemma run_step (t : time) :
  0 <= t ->
  run w booked d t_end t =
  if t + HOUR <=? t_end then
    if kept w booked (t, t + HOUR)
    then (t, t + HOUR) :: run w booked d t_end (t + HOUR)
    else run w booked d t_end (t + HOUR)
  else [].
Proof.
  intros Ht. rewrite slot_loop_unfold.
  assert (Hc : (combine d t + hours 1 <=? combine d t_end) = (t + HOUR <=? t_end)).
  { unfold combine, hours.
    destruct (t + HOUR <=? t_end) eqn:E; [apply Z.leb_le in E; apply Z.leb_le
                                         | apply Z.leb_gt in E; apply Z.leb_gt]; lia. }
  rewrite Hc. destruct (t + HOUR <=? t_end) eqn:E; [|reflexivity].
  apply Z.leb_le in E. cbv zeta.
  rewrite combine_plus_hour.
  rewrite !time_of_combine
    by (unfold valid_time in *; pose proof HOUR_pos; lia).
  reflexivity.
Qed.

(** Induction along the loop: a property that holds when the loop stops
    and is carried by one more turn holds of every run w booked d t_end. *)
Lemma run_induction (P : time -> list (time * time) -> Prop) :
  (forall t, 0 <= t -> t_end < t + HOUR -> P t []) ->
  (forall t, 0 <= t -> t + HOUR <= t_end -> P (t + HOUR) (run w booked d t_end (t + HOUR)) ->
             P t (if kept w booked (t, t + HOUR)
                  then (t, t + HOUR) :: run w booked d t_end (t + HOUR)
                  else run w booked d t_end (t + HOUR))) ->
  forall t, 0 <= t -> P t (run w booked d t_end t).
Proof.
  intros Hstop Hturn t.
  remember (iterations (combine d t) (combine d t_end)) as n eqn:Hn.
  revert t Hn. induction n as [|n IH]; intros t Hn Ht; rewrite run_step by exact Ht.
  - symmetry in Hn. apply iterations_zero in Hn.
    unfold combine, hours in Hn. apply Z.leb_gt in Hn.
    destruct (t + HOUR <=? t_end) eqn:E; [apply Z.leb_le in E; lia|].
    apply Hstop; [exact Ht | apply Z.leb_gt in E; exact E].
  - destruct (t + HOUR <=? t_end) eqn:E.
    + apply Z.leb_le in E. apply Hturn; try assumption.
      apply IH; [|pose proof HOUR_pos; lia].
      assert (Hc : combine d t + hours 1 <= (combine d t_end))
        by (unfold combine, hours; lia).
      rewrite (iterations_step t Hc) in Hn. congruence.
    + apply Hstop; [exact Ht | apply Z.leb_gt in E; exact E].
Qed.

Lemma stepped_from_later (t : time) (p : time * time) :
  stepped_from w booked t_end (t + HOUR) p -> stepped_from w booked t_end t p.
Proof.
  intros (k & Hk & Hf & Hs & He & Hkept).
  exists (k + 1). repeat split; try assumption; lia.
Qed.

Lemma run_sound (t : time) :
  0 <= t -> Forall (stepped_from w booked t_end t) (run w booked d t_end t).
Proof.
  revert t. apply (run_induction (fun t l => Forall (stepped_from w booked t_end t) l)).
  - intros; constructor.
  - intros t Ht Hle IH.
    assert (Htail : Forall (stepped_from w booked t_end t) (run w booked d t_end (t + HOUR))).
    { eapply Forall_impl; [|exact IH]. apply stepped_from_later. }
    destruct (kept w booked (t, t + HOUR)) eqn:Hk; [|exact Htail].
    constructor; [|exact Htail].
    exists 0. cbn [fst snd]. repeat split; try assumption; lia.
Qed.

Lemma run_complete (k : Z) : forall t : time,
  0 <= k -> 0 <= t ->
  t + k * HOUR + HOUR <= t_end ->
  kept w booked (t + k * HOUR, t + k * HOUR + HOUR) = true ->
  In (t + k * HOUR, t + k * HOUR + HOUR) (run w booked d t_end t).
Proof.
  intros t Hk. revert t.
  pattern k. apply Zlt_0_ind; [|exact Hk]. clear k Hk.
  intros k IH Hk t Ht Hfit Hkept.
  pose proof HOUR_pos as HH.
  rewrite run_step by exact Ht.
  assert (Hc : t + HOUR <= t_end) by nia.
  apply Z.leb_le in Hc. rewrite Hc.
  destruct (Z.eq_dec k 0) as [->|Hne].
  - replace (t + 0 * HOUR) with t in * by lia.
    rewrite Hkept. left. reflexivity.
  - assert (Hin : In (t + k * HOUR, t + k * HOUR + HOUR) (run w booked d t_end (t + HOUR))).
    { replace (t + k * HOUR) with ((t + HOUR) + (k - 1) * HOUR) in * by lia.
      apply IH; try lia; assumption. }
    destruct (kept w booked (t, t + HOUR)); [right|]; exact Hin.
Qed.

(** Ascending and disjoint at once: each slot ends no later than every
    later slot starts. *)
Lemma run_sorted (t : time) :
  0 <= t -> StronglySorted (fun p q => snd p <= fst q) (run w booked d t_end t).
Proof.
  revert t.
  apply (run_induction (fun _ l => StronglySorted (fun p q => snd p <= fst q) l)).
  - intros; constructor.
  - intros t Ht Hle IH.
    destruct (kept w booked (t, t + HOUR)); [|exact IH].
    constructor; [exact IH|].
    eapply Forall_impl; [|apply run_sound; pose proof HOUR_pos; lia].
    intros p (k & Hk & Hf & _). cbn [fst snd]. rewrite Hf.
    pose proof (hours_nonneg k Hk). lia.
Qed.

End SlotLoop.

(** ** Queries *)

Lemma first_none {A : Type} (p : A -> bool) (rows : list A) :
  (forall r, In r rows -> p r = false) -> first p rows = None.
Proof.
  induction rows as [|r rows IH]; intros H; [reflexivity|].
  cbn. rewrite (H r (or_introl eq_refl)). apply IH.
  intros r' Hin. apply H. right. exact Hin.
Qed.

Lemma first_some {A : Type} (p : A -> bool) (rows : list A) (r : A) :
  first p rows = Some r -> In r rows /\ p r = true.
Proof. apply find_some. Qed.

(** ** Slots of a date *)

Lemma StronglySorted_weaken {A : Type} (R R' : A -> A -> Prop) (P : A -> Prop)
    (l : list A) :
  (forall x y, P x -> P y -> R x y -> R' x y) ->
  Forall P l -> StronglySorted R l -> StronglySorted R' l.
Proof.
  intros Himp HP HS. induction HS as [|x l HS IH Hx]; [constructor|].
  inversion HP as [|? ? Px Pl]; subst.
  constructor; [apply IH; exact Pl|].
  rewrite Forall_forall in *. intros y Hy. apply Himp; auto.
Qed.

Section SlotsOfADate.

Variable db : Session.
Variable doctor_id : Z.
Variable target_date : date.
Variable w : WorkingHours.t.

Hypothesis active :
  active_working_hours db doctor_id (weekday target_date) = Some w.
Hypothesis start_valid : valid_time (WorkingHours.start_time w).
Hypothesis end_valid : valid_time (WorkingHours.end_time w).

Let booked := booked_slots db doctor_id target_date.

Lemma slot_tuples_run :
  slot_tuples db doctor_id target_date
  = run w booked target_date (WorkingHours.end_time w) (WorkingHours.start_time w).
Proof. unfold slot_tuples. rewrite active. reflexivity. Qed.

Lemma slot_tuples_stepped :
  Forall (stepped_from w booked (WorkingHours.end_time w) (WorkingHours.start_time w))
         (slot_tuples db doctor_id target_date).
Proof. rewrite slot_tuples_run. apply run_sound; [exact end_valid | apply start_valid]. Qed.

(** Membership in the slot list. *)
Lemma slot_tuples_In (p : time * time) :
  In p (slot_tuples db doctor_id target_date) <->
  stepped_from w booked (WorkingHours.end_time w) (WorkingHours.start_time w) p.
Proof.
  split.
  - intros Hin. pose proof slot_tuples_stepped as H.
    rewrite Forall_forall in H. apply H. exact Hin.
  - intros (k & Hk & Hf & Hs & He & Hkept).
    destruct p as [ps pe]. cbn [fst snd] in *. subst ps pe.
    rewrite slot_tuples_run.
    apply run_complete; try assumption; try apply start_valid; lia.
Qed.

End SlotsOfADate.

Lemma overlap_false (booked : list (time * time)) (p : time * time) :
  overlap booked p = false <-> (forall b, In b booked -> ~ overlaps p b).
Proof.
  unfold overlap, overlaps. split.
  - intros H b Hin [H1 H2].
    assert (Ht : existsb (fun b => (fst p <? snd b) && (fst b <? snd p)) booked = true).
    { apply existsb_exists. exists b. split; [exact Hin|].
      apply andb_true_iff. split; apply Z.ltb_lt; assumption. }
    congruence.
  - intros H.
    destruct (existsb _ booked) eqn:E; [|reflexivity].
    apply existsb_exists in E. destruct E as (b & Hin & Hb).
    apply andb_true_iff in Hb. destruct Hb as [H1 H2].
    apply Z.ltb_lt in H1, H2. exfalso. apply (H b Hin). split; assumption.
Qed.

Lemma booked_slots_In (db : Session) (doctor_id : Z) (target_date : date)
    (b : time * time) :
  In b (booked_slots db doctor_id target_date) <->
  exists a, In a (Db.appointments db)
            /\ Appointment.doctor_id a = doctor_id
            /\ combine target_date time_min <= Appointment.start_time a
            /\ Appointment.start_time a < combine target_date time_max
            /\ b = (time_of (Appointment.start_time a), time_of (Appointment.end_time a)).
Proof.
  unfold booked_slots. rewrite in_map_iff. split.
  - intros (a & Hb & Hin). apply filter_In in Hin. destruct Hin as [Hin Hp].
    rewrite !andb_true_iff, Z.eqb_eq, Z.leb_le, Z.ltb_lt in Hp.
    exists a. intuition auto.
  - intros (a & Hin & Hd & Hlo & Hhi & Hb). exists a. split; [auto|].
    apply filter_In. split; [exact Hin|].
    rewrite !andb_true_iff, Z.eqb_eq, Z.leb_le, Z.ltb_lt. auto.
Qed.

Lemma in_break_false (w : WorkingHours.t) (p : time * time) :
  in_break w p = false <->
  (forall bs be, WorkingHours.has_break w = true ->
                 WorkingHours.break_start w = Some bs ->
                 WorkingHours.break_end w = Some be ->
                 ~ overlaps p (bs, be)).
Proof.
  unfold in_break, overlaps. cbn [fst snd].
  destruct (WorkingHours.has_break w), (WorkingHours.break_start w) as [bs|],
    (WorkingHours.break_end w) as [be|]; split; intros H; try reflexivity;
    try (intros ? ? ? ? ?; discriminate).
  - intros bs' be' _ Hs He [H1 H2]. inversion Hs; inversion He; subst.
    apply andb_false_iff in H. rewrite !Z.ltb_ge in H. lia.
  - apply andb_false_iff.
    destruct (fst p <? be) eqn:E1; [|left; reflexivity].
    destruct (bs <? snd p) eqn:E2; [|right; reflexivity].
    apply Z.ltb_lt in E1, E2. exfalso. apply (H bs be); auto.
Qed.

(** The two strings of a slot that starts at [t]: hour and minute of the
    start, and the next hour with the same minute. *)
Lemma slot_dict_printed (t : time) :
  slot_dict (t, t + HOUR)
  = {| slot_start_time := (pad2 (t / HOUR) ++ ":" ++ pad2 (t mod HOUR / MINUTE))%string;
       slot_end_time := (pad2 (t / HOUR + 1) ++ ":" ++ pad2 (t mod HOUR / MINUTE))%string |}.
Proof.
  unfold slot_dict, strftime_HM. cbn [fst snd].
  replace (t + HOUR) with (t + 1 * HOUR) by lia.
  rewrite Z.div_add, Z.mod_add by discriminate. reflexivity.
Qed.

(** C6. For every provider and date, [get_available_slots] returns one
    dict per slot the loop keeps, in the loop's order, printed as the hour
    and minute of the slot's start and, for its end, the next hour with the
    same minute.  The kept slots are ascending by start time, pairwise
    non-overlapping, each exactly one hour long, a whole number of hours
    after the window start and ending no later than the window end; and
    every such hour that ends by the window end, overlaps no break declared
    with both bounds and overlaps no appointment of the provider starting on
    the date is among them.  When the provider has no entry for the weekday
    with [is_available] set, the result is the empty list (the function
    returns a list in every case). *)
Theorem get_available_slots_ordered_hourly (db : Session) (doctor_id : Z)
    (target_date : date) :
  (forall w, active_working_hours db doctor_id (weekday target_date) = Some w ->
             valid_time (WorkingHours.start_time w)
             /\ valid_time (WorkingHours.end_time w)) ->
  let tuples := slot_tuples db doctor_id target_date in
  get_available_slots db doctor_id target_date
  = map (fun p =>
           {| slot_start_time :=
                (pad2 (fst p / HOUR) ++ ":" ++ pad2 (fst p mod HOUR / MINUTE))%string;
              slot_end_time :=
                (pad2 (fst p / HOUR + 1) ++ ":" ++ pad2 (fst p mod HOUR / MINUTE))%string |})
        tuples
  /\ StronglySorted (fun p q => fst p < fst q) tuples
  /\ StronglySorted (fun p q => ~ overlaps p q) tuples
  /\ (forall p, In p tuples ->
        snd p = fst p + hours 1
        /\ exists w k,
             active_working_hours db doctor_id (weekday target_date) = Some w
             /\ 0 <= k
             /\ fst p = WorkingHours.start_time w + k * HOUR
             /\ snd p <= WorkingHours.end_time w)
  /\ (forall w k,
        active_working_hours db doctor_id (weekday target_date) = Some w ->
        0 <= k ->
        let t := WorkingHours.start_time w + k * HOUR in
        t + HOUR <= WorkingHours.end_time w ->
        (forall bs be, WorkingHours.has_break w = true ->
                       WorkingHours.break_start w = Some bs ->
                       WorkingHours.break_end w = Some be ->
                       ~ overlaps (t, t + HOUR) (bs, be)) ->
        (forall a, In a (Db.appointments db) ->
                   Appointment.doctor_id a = doctor_id ->
                   combine target_date time_min <= Appointment.start_time a ->
                   Appointment.start_time a < combine target_date time_max ->
                   ~ overlaps (t, t + HOUR)
                       (time_of (Appointment.start_time a),
                        time_of (Appointment.end_time a))) ->
        In (t, t + HOUR) tuples)
  /\ ((forall w, In w (Db.working_hours db) ->
                 WorkingHours.doctor_id w = doctor_id ->
                 WorkingHours.day_of_week w = weekday target_date ->
                 WorkingHours.is_available w = false) ->
      get_available_slots db doctor_id target_date = []).
Proof.
  intros Hvalid tuples.
  destruct (active_working_hours db doctor_id (weekday target_date)) as [w|] eqn:Hw.
  - destruct (Hvalid w eq_refl) as [Hs He].
    pose proof (slot_tuples_stepped db doctor_id target_date w Hw Hs He) as Hstep.
    fold tuples in Hstep.
    assert (Hsorted : StronglySorted (fun p q => snd p <= fst q) tuples).
    { unfold tuples. rewrite (slot_tuples_run db doctor_id target_date w Hw).
      apply run_sorted; [exact He | apply Hs]. }
    split; [|split; [|split; [|split; [|split]]]].
    + unfold get_available_slots. fold tuples. apply map_ext_in.
      intros p Hin. rewrite Forall_forall in Hstep.
      destruct (Hstep p Hin) as (k & _ & _ & Hx & _).
      destruct p as [p1 p2]. cbn [fst snd] in *. subst p2.
      apply slot_dict_printed.
    + eapply StronglySorted_weaken; [|exact Hstep|exact Hsorted].
      intros x y (k & _ & _ & Hx & _) _ Hxy. cbv beta in *. pose proof HOUR_pos. lia.
    + eapply StronglySorted_weaken; [|exact Hstep|exact Hsorted].
      intros x y _ _ Hxy [_ Hov]. cbv beta in *. lia.
    + intros p Hin. rewrite Forall_forall in Hstep.
      destruct (Hstep p Hin) as (k & Hk & Hf & Hx & Hle & _).
      split; [unfold hours; lia|]. exists w, k. auto.
    + intros w' k Hw' Hk t Hfit Hbreak Hfree. inversion Hw'; subst w'.
      apply (slot_tuples_In db doctor_id target_date w Hw Hs He).
      exists k. cbn [fst snd]. split; [exact Hk|]. split; [reflexivity|].
      split; [reflexivity|]. split; [exact Hfit|].
      unfold kept. apply andb_true_iff. rewrite !negb_true_iff.
      split; [apply in_break_false; exact Hbreak|].
      apply overlap_false. intros b Hb. apply booked_slots_In in Hb.
      destruct Hb as (a & Hin & Hd & Hlo & Hhi & ->). apply Hfree; assumption.
    + intros Hoff. apply first_some in Hw. destruct Hw as [Hin Hp].
      apply andb_prop in Hp. destruct Hp as [Hp Hav].
      apply andb_prop in Hp. destruct Hp as [Hd Hday].
      apply Z.eqb_eq in Hd, Hday.
      rewrite (Hoff w Hin Hd Hday) in Hav. discriminate.
  - assert (Hnil : tuples = []) by (unfold tuples, slot_tuples; rewrite Hw; reflexivity).
    rewrite Hnil. split; [unfold get_available_slots; fold tuples; rewrite Hnil; reflexivity|].
    split; [constructor|]. split; [constructor|].
    split; [intros p []|]. split; [intros w' k Hw'; discriminate|].
    intros _. unfold get_available_slots. fold tuples. rewrite Hnil. reflexivity.
Qed.

(** Scenario 2 on the read path: the seven slots around the lunch break,
    as printed. *)
Lemma get_available_slots_ordered_hourly_witness :
  (forall w, active_working_hours db_lunch 1 (weekday monday) = Some w ->
             valid_time (WorkingHours.start_time w)
             /\ valid_time (WorkingHours.end_time w))
  /\ StronglySorted (fun p q => fst p < fst q) (slot_tuples db_lunch 1 monday)
  /\ In (hm 16 0, hm 17 0) (slot_tuples db_lunch 1 monday)
  /\ get_available_slots db_lunch 1 monday
     = [mk_slot "09:00" "10:00"; mk_slot "10:00" "11:00"; mk_slot "11:00" "12:00";
        mk_slot "13:00" "14:00"; mk_slot "14:00" "15:00"; mk_slot "15:00" "16:00";
        mk_slot "16:00" "17:00"].
Proof.
  assert (H : forall w, active_working_hours db_lunch 1 (weekday monday) = Some w ->
             valid_time (WorkingHours.start_time w)
             /\ valid_time (WorkingHours.end_time w)).
  { intros w Hw. vm_compute in Hw. inversion Hw; subst w.
    unfold valid_time. split; split; vm_compute; congruence. }
  destruct (get_available_slots_ordered_hourly db_lunch 1 monday H)
    as (Hprint & Hasc & _ & _ & Hall & _).
  split; [exact H|]. split; [exact Hasc|]. split.
  - apply (Hall nine_to_five_lunch 7 eq_refl); [lia | vm_compute; congruence | |].
    + intros bs be _ Hbs Hbe [H1 _]. inversion Hbs; inversion Hbe; subst.
      vm_compute in H1. discriminate.
    + intros a [].
  - rewrite Hprint. reflexivity.
Defined.

(** ** Formatting *)

Lemma digit_inj (a b : Z) :
  0 <= a < 10 -> 0 <= b < 10 -> digit a = digit b -> a = b.
Proof.
  unfold digit. intros Ha Hb H.
  apply (f_equal nat_of_ascii) in H.
  rewrite !nat_ascii_embedding in H by lia. lia.
Qed.

Lemma pad2_inj (n m : Z) :
  0 <= n < 100 -> 0 <= m < 100 -> pad2 n = pad2 m -> n = m.
Proof.
  unfold pad2. intros Hn Hm H. injection H as H1 H0.
  apply digit_inj in H1, H0;
    try (apply Z.mod_pos_bound; lia);
    try (split; [apply Z.div_pos; lia | apply Z.div_lt_upper_bound; lia]).
  rewrite (Z.div_mod n 10), (Z.div_mod m 10) by lia. congruence.
Qed.

(** Two times of day printed alike lie in the same hour. *)
Lemma strftime_HM_hour (t1 t2 : time) :
  valid_time t1 -> valid_time t2 ->
  strftime_HM t1 = strftime_HM t2 -> t1 / HOUR = t2 / HOUR.
Proof.
  unfold valid_time, strftime_HM. intros H1 H2 H.
  assert (Hb : forall t, 0 <= t < DAY -> 0 <= t / HOUR < 100).
  { intros t Ht. split; [apply Z.div_pos; [lia | reflexivity]|].
    apply Z.div_lt_upper_bound; [reflexivity | unfold DAY, HOUR in *; lia]. }
  apply pad2_inj; [apply Hb; exact H1 | apply Hb; exact H2 |].
  unfold pad2 in *. cbn [String.append] in H. injection H as Ha Hb' _.
  congruence.
Qed.

(** Slots stepped from one start and printed alike are the same slot. *)
Lemma stepped_slot_dict_inj (t0 : time) (k1 k2 : Z) :
  valid_time (t0 + k1 * HOUR) -> valid_time (t0 + k2 * HOUR) ->
  strftime_HM (t0 + k1 * HOUR) = strftime_HM (t0 + k2 * HOUR) -> k1 = k2.
Proof.
  intros H1 H2 H. apply strftime_HM_hour in H; try assumption.
  rewrite !Z.div_add in H by discriminate. lia.
Qed.

(** ** Overlap with existing appointments *)

(** On non-empty intervals the three-way disjunction of the query is the
    half-open overlap test. *)
Lemma overlapping_half_open (s e : datetime) (a : Appointment.t) :
  s < e -> Appointment.start_time a < Appointment.end_time a ->
  (overlapping s e a = true <->
   Appointment.start_time a < e /\ s < Appointment.end_time a).
Proof.
  intros Hse Ha. unfold overlapping.
  rewrite !orb_true_iff, !andb_true_iff, !Z.leb_le, !Z.ltb_lt. lia.
Qed.

Lemma overlapping_appointment_none (db : Session) (doctor_id : Z) (s e : datetime) :
  overlapping_appointment db doctor_id s e = None <->
  (forall a, In a (Db.appointments db) ->
             Appointment.doctor_id a = doctor_id ->
             Appointment.status a <> CANCELLED ->
             overlapping s e a = false).
Proof.
  unfold overlapping_appointment. split.
  - intros H a Hin Hd Hs.
    pose proof (find_none _ _ H a Hin) as Hf. cbv beta in Hf.
    apply Z.eqb_eq in Hd. rewrite Hd in Hf.
    destruct (Appointment.status a); try congruence; exact Hf.
  - intros H. apply first_none. intros a Hin.
    destruct (Appointment.doctor_id a =? doctor_id) eqn:Hd; [|reflexivity].
    apply Z.eqb_eq in Hd.
    destruct (status_eqb (Appointment.status a) CANCELLED) eqn:Hs; [reflexivity|].
    cbn [negb andb]. apply H; try assumption.
    intros Hc. rewrite Hc in Hs. discriminate.
Qed.



Lemma date_of_range (x : datetime) (d : date) :
  date_of x = d <-> d * DAY <= x < d * DAY + DAY.
Proof.
  unfold date_of. pose proof (Z.div_mod x DAY) as H.
  pose proof (Z.mod_pos_bound x DAY DAY_pos) as Hm.
  unfold DAY in *. split; intros; nia.
Qed.

(** ** The two paths compared *)

(** The appointment test of the two paths agrees on an interval when the
    provider's non-cancelled appointments are non-empty and lie within one
    day, and no cancelled appointment of the provider that starts on the
    date overlaps the interval by its times of day. *)
Lemma overlap_paths_agree (db : Session) (doctor_id : Z) (target_date : date)
    (s e : datetime) :
  s < e -> date_of s = target_date -> date_of e = target_date ->
  (forall a, In a (Db.appointments db) ->
             Appointment.doctor_id a = doctor_id ->
             Appointment.status a <> CANCELLED ->
             within_one_day a) ->
  (forall a, In a (Db.appointments db) ->
             Appointment.doctor_id a = doctor_id ->
             Appointment.status a = CANCELLED ->
             combine target_date time_min <= Appointment.start_time a ->
             Appointment.start_time a < combine target_date time_max ->
             ~ overlaps (time_of s, time_of e)
                 (time_of (Appointment.start_time a),
                  time_of (Appointment.end_time a))) ->
  (overlapping_appointment db doctor_id s e = None <->
   overlap (booked_slots db doctor_id target_date) (time_of s, time_of e) = false).
Proof.
  intros Hse Hs He Hwf Hcan.
  rewrite overlapping_appointment_none, overlap_false. split.
  - intros H b Hb. apply booked_slots_In in Hb.
    destruct Hb as (a & Hin & Hd & Hlo & Hhi & ->).
    destruct (status_eqb (Appointment.status a) CANCELLED) eqn:Hst.
    + apply Hcan; try assumption.
      destruct (Appointment.status a); try discriminate; reflexivity.
    + assert (Hnc : Appointment.status a <> CANCELLED)
        by (intros Hc; rewrite Hc in Hst; discriminate).
      intros [H1 H2]. cbn [fst snd] in H1, H2.
      destruct (Hwf a Hin Hd Hnc) as [Hne Hday].
      assert (Hda : date_of (Appointment.start_time a) = target_date).
      { apply date_of_range. unfold combine, time_min, time_max in *. lia. }
      specialize (H a Hin Hd Hnc).
      assert (Ht : overlapping s e a = true).
      { apply overlapping_half_open; try assumption. split.
        - apply (proj2 (same_date_lt (Appointment.start_time a) e ltac:(congruence))).
          exact H2.
        - apply (proj2 (same_date_lt s (Appointment.end_time a) ltac:(congruence))).
          exact H1. }
      congruence.
  - intros H a Hin Hd Hnc.
    destruct (overlapping s e a) eqn:E; [|reflexivity]. exfalso.
    destruct (Hwf a Hin Hd Hnc) as [Hne Hday].
    apply overlapping_half_open in E; try assumption. destruct E as [E1 E2].
    destruct (Z.lt_total (date_of (Appointment.start_time a)) target_date)
      as [Hlt | [Heq | Hgt]].
    + assert (Appointment.end_time a < s)
        by (apply date_lt_datetime_lt; congruence). lia.
    + apply (H (time_of (Appointment.start_time a), time_of (Appointment.end_time a))).
      * apply booked_slots_In. exists a.
        assert (Hr1 := proj1 (date_of_range _ _) Heq).
        assert (Hr2 := proj1 (date_of_range (Appointment.end_time a) target_date)
                             (eq_trans Hday Heq)).
        unfold combine, time_min, time_max. repeat split; try assumption; lia.
      * split; cbn [fst snd].
        -- apply (proj1 (same_date_lt s (Appointment.end_time a) ltac:(congruence))).
           exact E2.
        -- apply (proj1 (same_date_lt (Appointment.start_time a) e ltac:(congruence))).
           exact E1.
    + assert (e < Appointment.start_time a)
        by (apply date_lt_datetime_lt; congruence). lia.
Qed.

(** In the list as printed, a slot aligned to the window start is there
    exactly when its tuple is. *)
Lemma listed_aligned (db : Session) (doctor_id : Z) (target_date : date)
    (w : WorkingHours.t) (ts : time) (k : Z) :
  active_working_hours db doctor_id (weekday target_date) = Some w ->
  valid_time (WorkingHours.start_time w) ->
  valid_time (WorkingHours.end_time w) ->
  valid_time ts -> ts = WorkingHours.start_time w + k * HOUR ->
  (In (slot_dict (ts, ts + HOUR)) (get_available_slots db doctor_id target_date)
   <-> In (ts, ts + HOUR) (slot_tuples db doctor_id target_date)).
Proof.
  intros Hact Hsv Hev Hts Hal. unfold get_available_slots. rewrite in_map_iff. split.
  - intros (p & Hp & Hin). pose proof Hin as Hin'.
    apply (slot_tuples_In db doctor_id target_date w Hact Hsv Hev) in Hin'.
    destruct Hin' as (k' & Hk' & Hf & Hsn & Hle & _).
    apply (f_equal slot_start_time) in Hp. cbn [slot_dict slot_start_time fst] in Hp.
    assert (k' = k).
    { apply (stepped_slot_dict_inj (WorkingHours.start_time w)).
      - rewrite <- Hf. unfold valid_time in *. pose proof HOUR_pos.
        pose proof (hours_nonneg k' Hk'). lia.
      - rewrite <- Hal. exact Hts.
      - rewrite <- Hf, <- Hal. exact Hp. }
    subst k'. destruct p as [p1 p2]. cbn [fst snd] in *.
    replace (ts, ts + HOUR) with (p1, p2) by (f_equal; lia). exact Hin.
  - intros Hin. exists (ts, ts + HOUR). split; [reflexivity | exact Hin].
Qed.

(** An hour-long interval within one date ends an hour later on the clock. *)
Lemma time_of_plus_hour (s : datetime) :
  date_of (s + hours 1) = date_of s -> time_of (s + hours 1) = time_of s + HOUR.
Proof.
  intros H. pose proof (combine_date_time s) as Hs.
  pose proof (combine_date_time (s + hours 1)) as He.
  rewrite H in He. unfold combine, hours in *. lia.
Qed.

(** The closed test of the booking path on a break with both bounds. *)
Lemma break_test_closed (bs be ts te : time) :
  or_else (between (Some bs) ts (Some be)) (between (Some bs) te (Some be))
  = Returns ((bs <=? ts) && (ts <=? be) || (bs <=? te) && (te <=? be)).
Proof.
  unfold or_else, between, le_time, bind.
  destruct (bs <=? ts), (ts <=? be), (bs <=? te), (te <=? be); reflexivity.
Qed.

(** C1, as the code has it.  For an hour-long interval lying within the
    target date whose start is a whole number of hours after the start of
    the provider's active window, and on which the two break tests agree,
    when the provider's non-cancelled appointments are non-empty intervals
    within one day and no cancelled appointment of the provider that starts
    on the date overlaps the interval by its times of day: the booking-time
    check admits the interval if and only if the interval is in the list
    [get_available_slots] returns for the date. *)
Theorem admission_iff_listed_when_aligned (db : Session) (doctor_id : Z)
    (target_date : date) (s : datetime) :
  date_of s = target_date ->
  date_of (s + hours 1) = target_date ->
  (forall w, active_working_hours db doctor_id (weekday target_date) = Some w ->
             valid_time (WorkingHours.start_time w)
             /\ valid_time (WorkingHours.end_time w)
             /\ (exists k, 0 <= k /\ time_of s = WorkingHours.start_time w + k * HOUR)
             /\ break_agrees w (time_of s) (time_of (s + hours 1))) ->
  (forall a, In a (Db.appointments db) ->
             Appointment.doctor_id a = doctor_id ->
             Appointment.status a <> CANCELLED ->
             within_one_day a) ->
  (forall a, In a (Db.appointments db) ->
             Appointment.doctor_id a = doctor_id ->
             Appointment.status a = CANCELLED ->
             combine target_date time_min <= Appointment.start_time a ->
             Appointment.start_time a < combine target_date time_max ->
             ~ overlaps (time_of s, time_of (s + hours 1))
                 (time_of (Appointment.start_time a),
                  time_of (Appointment.end_time a))) ->
  (admits db doctor_id s (s + hours 1)
   <-> listed db doctor_id target_date s (s + hours 1)).
Proof.
  intros Hs He Hw Happ Hcan.
  assert (Hse : s < s + hours 1) by (unfold hours; pose proof HOUR_pos; lia).
  pose proof (overlap_paths_agree db doctor_id target_date s (s + hours 1)
                Hse Hs He Happ Hcan) as Hov.
  assert (Hte : time_of (s + hours 1) = time_of s + HOUR)
    by (apply time_of_plus_hour; congruence).
  unfold admits, listed, is_time_slot_available. rewrite Hs, Hte in *.
  destruct (active_working_hours db doctor_id (weekday target_date)) as [w|] eqn:Hact.
  - destruct (Hw w eq_refl) as (Hsv & Hev & (k & Hk & Hal) & Hbr).
    rewrite (listed_aligned db doctor_id target_date w (time_of s) k
               Hact Hsv Hev (valid_time_of s) Hal).
    rewrite (slot_tuples_In db doctor_id target_date w Hact Hsv Hev).
    pose proof (hours_nonneg k Hk) as Hkh.
    split.
    + (* admitted, hence listed *)
      intros Hadm.
      destruct (overlapping_appointment db doctor_id s (s + hours 1)) eqn:Hoa;
        [discriminate|].
      destruct ((time_of s <? WorkingHours.start_time w)
                || (WorkingHours.end_time w <? time_of s + HOUR)) eqn:Hwin;
        [discriminate|].
      apply orb_false_iff in Hwin. destruct Hwin as [_ Hwe]. apply Z.ltb_ge in Hwe.
      exists k. cbn [fst snd]. repeat split; try assumption.
      unfold kept. rewrite (proj1 Hov eq_refl). cbn [negb]. rewrite andb_true_r.
      unfold in_break. cbn [fst snd].
      destruct Hbr as [Hnb | (bs & be & Hbs & Hbe & H1 & H2 & H3)].
      * rewrite Hnb. reflexivity.
      * rewrite Hbs, Hbe in *.
        destruct (WorkingHours.has_break w); [|reflexivity].
        rewrite break_test_closed in Hadm. cbn [bind] in Hadm.
        destruct ((bs <=? time_of s) && (time_of s <=? be)
                  || (bs <=? time_of s + HOUR) && (time_of s + HOUR <=? be)) eqn:Hc;
          [discriminate|].
        cbn [negb]. apply negb_true_iff. apply andb_false_iff.
        apply orb_false_iff in Hc. destruct Hc as [Hc1 Hc2].
        apply andb_false_iff in Hc1, Hc2.
        rewrite !Z.leb_gt in Hc1, Hc2. rewrite !Z.ltb_ge.
        pose proof HOUR_pos. lia.
    + (* listed, hence admitted *)
      intros (k' & _ & _ & _ & Hle & Hkept). cbn [fst snd] in Hle.
      unfold kept in Hkept. apply andb_true_iff in Hkept.
      destruct Hkept as [Hkb Hko]. apply negb_true_iff in Hkb, Hko.
      rewrite (proj2 Hov Hko).
      assert (Hwin : (time_of s <? WorkingHours.start_time w)
                     || (WorkingHours.end_time w <? time_of s + HOUR) = false).
      { apply orb_false_iff. split; [apply Z.ltb_ge | apply Z.ltb_ge]; lia. }
      rewrite Hwin.
      unfold in_break in Hkb. cbn [fst snd] in Hkb.
      destruct Hbr as [Hnb | (bs & be & Hbs & Hbe & H1 & H2 & H3)].
      * rewrite Hnb. reflexivity.
      * rewrite Hbs, Hbe in *.
        destruct (WorkingHours.has_break w); [|reflexivity].
        rewrite break_test_closed. cbn [bind].
        apply andb_false_iff in Hkb. rewrite !Z.ltb_ge in Hkb.
        assert (Hc : (bs <=? time_of s) && (time_of s <=? be)
                     || (bs <=? time_of s + HOUR) && (time_of s + HOUR <=? be) = false).
        { apply orb_false_iff. split; apply andb_false_iff; rewrite !Z.leb_gt;
            pose proof HOUR_pos; lia. }
        rewrite Hc. reflexivity.
  - split.
    + destruct (overlapping_appointment db doctor_id s (s + hours 1)); discriminate.
    + unfold get_available_slots, slot_tuples. rewrite Hact. intros [].
Qed.

(** C1 as stated fails: with working hours 09:00-17:00, no break and no
    appointment, the hour 09:30-10:30 is admitted at booking time and is not
    in the list of the read path. *)
Lemma admission_not_slot_membership :
  let s := at_ monday 9 30 in
  date_of s = monday /\ date_of (s + hours 1) = monday
  /\ admits db_plain 1 s (s + hours 1)
  /\ ~ listed db_plain 1 monday s (s + hours 1).
Proof.
  cbv zeta. split; [reflexivity|]. split; [reflexivity|]. split; [reflexivity|].
  unfold listed. vm_compute. intuition discriminate.
Qed.

(** A date with a cancelled appointment (09:00-10:00) and a booked one
    (14:00-15:00): the hour 10:00-11:00 is admitted and listed. *)
Lemma admission_iff_listed_when_aligned_witness :
  let s := at_ monday 10 0 in
  admits db_mixed 1 s (s + hours 1) /\ listed db_mixed 1 monday s (s + hours 1).
Proof.
  cbv zeta.
  assert (H : admits db_mixed 1 (at_ monday 10 0) (at_ monday 10 0 + hours 1)
              <-> listed db_mixed 1 monday (at_ monday 10 0) (at_ monday 10 0 + hours 1)).
  { apply (admission_iff_listed_when_aligned db_mixed 1 monday (at_ monday 10 0)).
    - reflexivity.
    - reflexivity.
    - intros w Hw. vm_compute in Hw. inversion Hw; subst w.
      split; [split; vm_compute; congruence|].
      split; [split; vm_compute; congruence|].
      split; [exists 1; split; [lia | reflexivity]|].
      right. exists (hm 12 0), (hm 13 0).
      split; [reflexivity|]. split; [reflexivity|].
      vm_compute. intuition congruence.
    - intros a [<- | [<- | []]] _ Hst.
      + exfalso. apply Hst. reflexivity.
      + split; reflexivity.
    - intros a [<- | [<- | []]] _ Hst _ _ [H1 H2].
      + vm_compute in H2. discriminate.
      + discriminate. }
  split; [reflexivity | apply H; reflexivity].
Defined.

(** C2.  The code at the three bookings of scenario 2 (working hours
    09:00-17:00, break 12:00-13:00): 12:00-13:00 and 11:30-12:30 are
    rejected, and so is 11:00-12:00, which only abuts the break and which
    the read path lists as open. *)
Theorem break_abutting_booking_rejected :
  is_time_slot_available db_lunch 1 (at_ monday 12 0) (at_ monday 13 0) = Returns false
  /\ is_time_slot_available db_lunch 1 (at_ monday 11 30) (at_ monday 12 30) = Returns false
  /\ is_time_slot_available db_lunch 1 (at_ monday 11 0) (at_ monday 12 0) = Returns false
  /\ listed db_lunch 1 monday (at_ monday 11 0) (at_ monday 12 0).
Proof.
  repeat split; try reflexivity.
  unfold listed. vm_compute. intuition.
Qed.

(** C8.  The code where the only appointment of the date is cancelled
    (09:00-10:00, working hours 09:00-17:00, no break): the read path
    leaves 09:00-10:00 out of its list, while the booking path admits it. *)
Theorem cancelled_appointment_blocks_slot :
  get_available_slots db_cancelled 1 monday
  = map slot_dict [(hm 10 0, hm 11 0); (hm 11 0, hm 12 0); (hm 12 0, hm 13 0);
                   (hm 13 0, hm 14 0); (hm 14 0, hm 15 0); (hm 15 0, hm 16 0);
                   (hm 16 0, hm 17 0)]
  /\ ~ listed db_cancelled 1 monday (at_ monday 9 0) (at_ monday 10 0)
  /\ admits db_cancelled 1 (at_ monday 9 0) (at_ monday 10 0).
Proof.
  split; [reflexivity|]. split; [|reflexivity].
  unfold listed. vm_compute. intuition discriminate.
Qed.

(** ** Appointment against appointment *)

Lemma first_skip {A : Type} (p : A -> bool) (pre post : list A) (r : A) :
  p r = false -> first p (pre ++ r :: post) = first p (pre ++ post).
Proof.
  intros Hr. induction pre as [|x pre IH]; cbn.
  - rewrite Hr. reflexivity.
  - destruct (p x); [reflexivity | exact IH].
Qed.

(** C3.  Against a non-cancelled appointment of the provider with a
    non-empty interval, the overlap query of the booking path is the
    half-open test; an appointment the proposal abuts does not count (the
    decision is the one taken without it), and a proposal equal to the
    appointment's interval is rejected. *)
Theorem appointment_conflict_half_open (db : Session) (doctor_id : Z)
    (s e : datetime) (a : Appointment.t) (pre post : list Appointment.t) :
  s < e ->
  Db.appointments db = pre ++ a :: post ->
  Appointment.doctor_id a = doctor_id ->
  Appointment.status a <> CANCELLED ->
  Appointment.start_time a < Appointment.end_time a ->
  (overlapping s e a = true
   <-> Appointment.start_time a < e /\ s < Appointment.end_time a)
  /\ (e = Appointment.start_time a \/ s = Appointment.end_time a ->
      is_time_slot_available db doctor_id s e
      = is_time_slot_available (replace_appointments (pre ++ post) db) doctor_id s e)
  /\ (s = Appointment.start_time a /\ e = Appointment.end_time a ->
      is_time_slot_available db doctor_id s e = Returns false).
Proof.
  intros Hse Hrows Hd Hst Ha.
  pose proof (overlapping_half_open s e a Hse Ha) as Hiff.
  split; [exact Hiff|]. split.
  - intros Habut.
    assert (Hno : overlapping s e a = false).
    { apply not_true_is_false. intros E. apply Hiff in E. lia. }
    unfold is_time_slot_available, overlapping_appointment.
    rewrite Hrows. rewrite first_skip by (rewrite Hno; apply andb_false_r).
    reflexivity.
  - intros [-> ->].
    assert (Hyes : overlapping (Appointment.start_time a) (Appointment.end_time a) a = true)
      by (apply Hiff; lia).
    unfold is_time_slot_available.
    destruct (overlapping_appointment db doctor_id _ _) eqn:E; [reflexivity|].
    rewrite overlapping_appointment_none in E.
    rewrite E in Hyes; try assumption; [discriminate|].
    rewrite Hrows. apply in_elt.
Qed.

(** Scenario 1 after the first booking: the hour 10:00-11:00 abuts the
    appointment 09:00-10:00 and is admitted; 09:00-10:00 again is rejected. *)
Lemma appointment_conflict_half_open_witness :
  is_time_slot_available db_booked 1 (at_ monday 10 0) (at_ monday 11 0) = Returns true
  /\ is_time_slot_available db_booked 1 (at_ monday 9 0) (at_ monday 10 0) = Returns false.
Proof.
  assert (Hrows : Db.appointments db_booked = [] ++ appt 1 9 0 SCHEDULED :: [])
    by reflexivity.
  assert (Hst : Appointment.status (appt 1 9 0 SCHEDULED) <> CANCELLED)
    by discriminate.
  split.
  - destruct (appointment_conflict_half_open db_booked 1
                (at_ monday 10 0) (at_ monday 11 0) (appt 1 9 0 SCHEDULED) [] []
                eq_refl Hrows eq_refl Hst eq_refl) as (_ & Habut & _).
    rewrite Habut; [reflexivity | right; reflexivity].
  - destruct (appointment_conflict_half_open db_booked 1
                (at_ monday 9 0) (at_ monday 10 0) (appt 1 9 0 SCHEDULED) [] []
                eq_refl Hrows eq_refl Hst eq_refl) as (_ & _ & Hsame).
    apply Hsame. split; reflexivity.
Defined.

(** ** Lifecycle *)

Lemma first_update_first (appointment_id : Z) (f : Appointment.t -> Appointment.t)
    (rows : list Appointment.t) :
  (forall a, Appointment.id (f a) = Appointment.id a) ->
  first (fun a => Appointment.id a =? appointment_id)
        (update_first (fun a => Appointment.id a =? appointment_id) f rows)
  = option_map f (first (fun a => Appointment.id a =? appointment_id) rows).
Proof.
  intros Hid. induction rows as [|r rows IH]; [reflexivity|].
  cbn. destruct (Appointment.id r =? appointment_id) eqn:E.
  - cbn. rewrite Hid, E. reflexivity.
  - cbn. rewrite E. exact IH.
Qed.

(** C4, as the code has it.  The handler keeps no transition table: for
    every appointment and every target status, a request by the
    appointment's doctor succeeds and sets the status to the target,
    whatever the current status; and whenever the handler raises, the
    session is unchanged. *)
Theorem update_appointment_status_sets_any_status (db : Session)
    (appointment_id : Z) (target : AppointmentStatus) (current_user : User.t)
    (a : Appointment.t) :
  appointment_by_id appointment_id db = Some a ->
  User.id current_user = Appointment.doctor_id a ->
  User.is_doctor current_user = true ->
  snd (update_appointment_status appointment_id target current_user db)
  = Returns "Appointment status updated successfully"%string
  /\ status_of appointment_id
       (fst (update_appointment_status appointment_id target current_user db))
     = Some target
  /\ (forall (id' : Z) (target' : AppointmentStatus) (other : User.t) (e : exn),
        snd (update_appointment_status id' target' other db) = Raises e ->
        fst (update_appointment_status id' target' other db) = db).
Proof.
  intros Hfound Hdoc Hrole.
  unfold update_appointment_status, and_then, query, commit, ret, lift, raise.
  split; [|split].
  - rewrite Hfound. rewrite Hdoc, Z.eqb_refl, Hrole. reflexivity.
  - rewrite Hfound. rewrite Hdoc, Z.eqb_refl, Hrole. cbn [negb orb fst snd].
    unfold status_of, appointment_by_id, with_appointments. cbn [Db.appointments].
    rewrite first_update_first by reflexivity.
    unfold appointment_by_id in Hfound. rewrite Hfound. reflexivity.
  - intros id' target' other e.
    destruct (appointment_by_id id' db) as [a'|]; [|reflexivity].
    destruct (negb (User.id other =? Appointment.doctor_id a')
              || negb (User.is_doctor other)); cbn [fst snd status_attribute];
      [reflexivity | discriminate].
Qed.

(** Scenario 4 on the code: the chain scheduled, confirmed, in_progress,
    completed succeeds step by step. *)
Lemma update_appointment_status_sets_any_status_witness :
  let step id st db := fst (update_appointment_status id st dr db) in
  status_of 1 (step 1 CONFIRMED db_booked) = Some CONFIRMED
  /\ status_of 1 (step 1 IN_PROGRESS (step 1 CONFIRMED db_booked)) = Some IN_PROGRESS
  /\ status_of 1 (step 1 COMPLETED (step 1 IN_PROGRESS (step 1 CONFIRMED db_booked)))
     = Some COMPLETED.
Proof.
  cbv zeta.
  split; [|split].
  - apply (update_appointment_status_sets_any_status db_booked 1 CONFIRMED dr
             (appt 1 9 0 SCHEDULED)); reflexivity.
  - apply (update_appointment_status_sets_any_status _ 1 IN_PROGRESS dr
             (appt 1 9 0 CONFIRMED)); reflexivity.
  - apply (update_appointment_status_sets_any_status _ 1 COMPLETED dr
             (appt 1 9 0 IN_PROGRESS)); reflexivity.
Defined.

(** C4 as stated fails: the table has no step from scheduled to completed,
    and the handler performs it. *)
Lemma unmodeled_transition_succeeds :
  status_of 1 db_booked = Some SCHEDULED
  /\ lifecycle_allows SCHEDULED COMPLETED = false
  /\ snd (update_appointment_status 1 COMPLETED dr db_booked)
     = Returns "Appointment status updated successfully"%string
  /\ status_of 1 (fst (update_appointment_status 1 COMPLETED dr db_booked))
     = Some COMPLETED.
Proof. repeat split. Qed.

(** ** Working-hours validation *)

(** C5, as the code has it.  For the provider setting their own hours,
    the handler fails with the window error whenever start >= end, and with
    a break error whenever a break is declared with a bound missing or with
    break-start >= break-end; whenever it fails, no entry is persisted.  A
    break with both bounds in order is accepted wherever it lies with
    respect to the window. *)
Theorem create_working_hours_validation (db : Session) (doctor_id : Z)
    (req : WorkingHoursCreate) (current_user : User.t) :
  User.id current_user = doctor_id ->
  User.is_doctor current_user = true ->
  let run := create_working_hours doctor_id req current_user db in
  (c_end_time req <= c_start_time req -> run = (db, Raises window_error))
  /\ (c_start_time req < c_end_time req -> c_has_break req = true ->
      c_break_start req = None \/ c_break_end req = None ->
      run = (db, Raises break_bounds_error))
  /\ (forall bs be,
        c_start_time req < c_end_time req -> c_has_break req = true ->
        c_break_start req = Some bs -> c_break_end req = Some be -> be <= bs ->
        run = (db, Raises break_order_error))
  /\ (forall bs be,
        c_start_time req < c_end_time req -> c_has_break req = true ->
        c_break_start req = Some bs -> c_break_end req = Some be -> bs < be ->
        exists row, run = (add_working_hours row db, Returns row)
                    /\ WorkingHours.break_start row = Some bs
                    /\ WorkingHours.break_end row = Some be)
  /\ (forall e, snd run = Raises e -> fst run = db).
Proof.
  intros Hid Hrole run. unfold run, create_working_hours.
  rewrite Hid, Z.eqb_refl, Hrole. cbn [negb orb].
  destruct (c_end_time req <=? c_start_time req) eqn:Hwin.
  - apply Z.leb_le in Hwin.
    split; [reflexivity|]. split; [intros; lia|]. split; [intros; lia|].
    split; [intros; lia|]. reflexivity.
  - apply Z.leb_gt in Hwin.
    split; [intros; lia|].
    unfold and_then, raise, ret, lift, query, commit.
    destruct (c_has_break req) eqn:Hb.
    + destruct (c_break_start req) as [bs|] eqn:Hbs, (c_break_end req) as [be|] eqn:Hbe;
        cbn [is_none orb ge_time].
      * destruct (be <=? bs) eqn:Hord;
          [apply Z.leb_le in Hord | apply Z.leb_gt in Hord].
        -- split; [intros _ _ [?|?]; discriminate|].
           split; [reflexivity|].
           split; [intros ? ? _ _ H1 H2; inversion H1; inversion H2; subst; lia|].
           reflexivity.
        -- split; [intros _ _ [?|?]; discriminate|].
           split; [intros ? ? _ _ H1 H2; inversion H1; inversion H2; subst; lia|].
           split; [|cbn [fst snd]; discriminate].
           intros ? ? _ _ H1 H2 _. inversion H1; inversion H2; subst.
           eexists. split; [reflexivity|]. split; reflexivity.
      * split; [reflexivity|]. split; [discriminate|]. split; [discriminate|]. reflexivity.
      * split; [reflexivity|]. split; [discriminate|]. split; [discriminate|]. reflexivity.
      * split; [reflexivity|]. split; [discriminate|]. split; [discriminate|]. reflexivity.
    + split; [discriminate|]. split; [discriminate|]. split; [discriminate|].
      cbn [fst snd]. discriminate.
Qed.

Lemma create_working_hours_validation_witness :
  let req := mk_whc 0 (hm 17 0) (hm 9 0) false None None in
  create_working_hours 1 req dr db_closed = (db_closed, Raises window_error).
Proof.
  cbv zeta.
  apply (create_working_hours_validation db_closed 1
           (mk_whc 0 (hm 17 0) (hm 9 0) false None None) dr eq_refl eq_refl).
  discriminate.
Defined.

(** C5 as stated fails: a break 18:00-19:00 declared for the window
    09:00-17:00 lies outside the window, and the entry is persisted. *)
Lemma break_outside_window_accepted :
  let req := mk_whc 0 (hm 9 0) (hm 17 0) true (Some (hm 18 0)) (Some (hm 19 0)) in
  ~ (c_start_time req < hm 18 0 /\ hm 19 0 < c_end_time req)
  /\ exists row,
       create_working_hours 1 req dr db_closed = (add_working_hours row db_closed, Returns row)
       /\ Db.working_hours (add_working_hours row db_closed) = [row]
       /\ WorkingHours.has_break row = true
       /\ WorkingHours.break_start row = Some (hm 18 0)
       /\ WorkingHours.break_end row = Some (hm 19 0).
Proof.
  cbv zeta. split.
  - intros [_ H]. vm_compute in H. discriminate.
  - exists (WorkingHours.mk 1 1 0 (hm 9 0) (hm 17 0) true
              (Some (hm 18 0)) (Some (hm 19 0)) true).
    repeat split.
Qed.

(** ** Booking *)

(** C9, as the code has it.  Every rejection by the booking check reaches
    the caller as the same 400 error with the one detail "Time slot is not
    available", whatever caused it, and nothing is written; in particular a
    booking on a weekday for which the provider has no active entry is
    rejected with that error. *)
Theorem rejection_is_one_error (db : Session) (req : AppointmentCreate)
    (current_user : User.t) :
  User.is_doctor current_user = false ->
  is_time_slot_available db (a_doctor_id req) (a_start_time req)
    (a_start_time req + hours 1) = Returns false
  \/ active_working_hours db (a_doctor_id req) (weekday (date_of (a_start_time req)))
     = None ->
  create_appointment req current_user db = (db, Raises slot_unavailable).
Proof.
  intros Hrole Hrej.
  assert (H : is_time_slot_available db (a_doctor_id req) (a_start_time req)
                (a_start_time req + hours 1) = Returns false).
  { destruct Hrej as [H|H]; [exact H|].
    unfold is_time_slot_available. rewrite H.
    destruct (overlapping_appointment _ _ _ _); reflexivity. }
  unfold create_appointment, and_then, raise. rewrite Hrole, H. reflexivity.
Qed.

(** Scenario 3: no entry for the weekday. *)
Lemma rejection_is_one_error_witness :
  get_available_slots db_closed 1 monday = []
  /\ create_appointment (book 9 0) pat db_closed = (db_closed, Raises slot_unavailable).
Proof.
  split; [reflexivity|].
  apply (rejection_is_one_error db_closed (book 9 0) pat eq_refl).
  right. reflexivity.
Defined.

(** C9 as stated fails: a booking that overlaps an appointment, one outside
    the working hours, one inside the break and one on a day without entry
    have four different reasons in the specification, and the handler
    raises one and the same error for all four. *)
Lemma rejections_share_one_error :
  spec_rejection_reason db_booked 1 (at_ monday 9 0) (at_ monday 10 0) = Some Overlap
  /\ spec_rejection_reason db_booked 1 (at_ monday 7 0) (at_ monday 8 0) = Some OutsideHours
  /\ spec_rejection_reason db_booked 1 (at_ monday 12 0) (at_ monday 13 0) = Some InsideBreak
  /\ spec_rejection_reason db_closed 1 (at_ monday 9 0) (at_ monday 10 0) = Some NoAvailability
  /\ snd (create_appointment (book 9 0) pat db_booked) = Raises slot_unavailable
  /\ snd (create_appointment (book 7 0) pat db_booked) = Raises slot_unavailable
  /\ snd (create_appointment (book 12 0) pat db_booked) = Raises slot_unavailable
  /\ snd (create_appointment (book 9 0) pat db_closed) = Raises slot_unavailable.
Proof. repeat split. Qed.

Lemma next_id_fresh {A : Type} (id : A -> Z) (rows : list A) (r : A) :
  In r rows -> id r < next_id id rows.
Proof.
  unfold next_id. induction rows as [|x rows IH]; intros Hin; [destruct Hin|].
  cbn [fold_right]. destruct Hin as [->|Hin]; [lia|].
  specialize (IH Hin). lia.
Qed.

Lemma update_first_last {A : Type} (p : A -> bool) (f : A -> A) (rows : list A) (x : A) :
  (forall y, In y rows -> p y = false) -> p x = true ->
  update_first p f (rows ++ [x]) = rows ++ [f x].
Proof.
  intros Hrows Hx. induction rows as [|y rows IH]; cbn.
  - rewrite Hx. reflexivity.
  - rewrite (Hrows y (or_introl eq_refl)). f_equal. apply IH.
    intros z Hz. apply Hrows. right. exact Hz.
Qed.

Lemma adds_none (req : AppointmentCreate) (current_user : User.t) (db : Session)
    (e : exn) :
  adds_at_most_one req current_user db (db, Raises e).
Proof.
  split; [|discriminate]. exists []. cbn [fst]. rewrite app_nil_r.
  split; [reflexivity|]. split; [cbn; lia | intros a []].
Qed.

Lemma adds_one (req : AppointmentCreate) (current_user : User.t) (db db' : Session)
    (row : Appointment.t) (r : outcome Appointment.t) :
  Db.appointments db' = Db.appointments db ++ [row] ->
  booked_for req current_user row ->
  r = Returns row \/ (exists e, r = Raises e) ->
  adds_at_most_one req current_user db (db', r).
Proof.
  intros Hrows Hrow Hr. split; cbn [fst snd].
  - exists [row]. split; [exact Hrows|]. split; [cbn; lia|].
    intros a [<-|[]]. exact Hrow.
  - intros a Ha. destruct Hr as [->|[e ->]]; [|discriminate].
    inversion Ha; subst a. split; [|exact Hrow].
    rewrite Hrows. apply in_or_app. right. left. reflexivity.
Qed.

(** [generate_qr_code] only reads. *)
Lemma generate_qr_code_reads (appointment_id : Z) (db : Session) :
  fst (generate_qr_code appointment_id db) = db.
Proof.
  unfold generate_qr_code, and_then, query, lift, ret, raise.
  destruct (appointment_by_id appointment_id db) as [a|]; [|reflexivity].
  destruct (full_name_of (user_by_id (Appointment.patient_id a) db)); reflexivity.
Qed.

Lemma create_appointment_adds (db : Session) (req : AppointmentCreate)
    (current_user : User.t) :
  adds_at_most_one req current_user db (create_appointment req current_user db).
Proof.
  unfold create_appointment.
  destruct (User.is_doctor current_user); [apply adds_none|].
  unfold and_then at 1.
  destruct (is_time_slot_available db (a_doctor_id req) (a_start_time req)
              (a_start_time req + hours 1)) as [[|]|e]; cbn [negb];
    [|apply adds_none|apply adds_none].
  set (new_id := next_id Appointment.id (Db.appointments db)).
  set (row := Appointment.mk new_id (a_doctor_id req) (User.id current_user)
                (a_start_time req) (a_start_time req + hours 1) SCHEDULED None).
  assert (Hrow : forall qr, booked_for req current_user (set_qr_code qr row))
    by (intros qr; repeat split).
  assert (Hrow0 : booked_for req current_user row) by (repeat split).
  assert (Hupd : forall qr,
             update_first (fun a => Appointment.id a =? new_id) (set_qr_code qr)
               (Db.appointments db ++ [row])
             = Db.appointments db ++ [set_qr_code qr row]).
  { intros qr. apply update_first_last.
    - intros y Hy. apply Z.eqb_neq.
      pose proof (next_id_fresh Appointment.id _ y Hy) as Hlt. fold new_id in Hlt. lia.
    - apply Z.eqb_refl. }
  unfold and_then, query, commit, ret, lift, raise.
  fold new_id. fold row. cbn [fst snd].
  pose proof (generate_qr_code_reads new_id
                (with_appointments (fun rows => rows ++ [row]) db)) as Hq.
  destruct (generate_qr_code new_id _) as [db1 [qr|e]]; cbn [fst] in Hq; subst db1;
    [|apply adds_one with (row := row); [reflexivity | exact Hrow0 | right; eauto]].
  destruct (full_name_of (user_by_id (a_doctor_id req) _)) as [dname|e];
    (apply adds_one with (row := set_qr_code qr row);
     [unfold with_appointments, add_notification; cbn [Db.appointments]; apply Hupd
     | apply Hrow | ]);
    [left; reflexivity | right; eauto].
Qed.

(** C10.  A caller with [is_doctor] set gets the 403 error whatever the
    session holds (the availability check is not consulted) and the session
    is unchanged.  For every caller, the handler leaves the earlier
    appointment rows as they were and adds at most one row; a row it adds
    has the caller's id as [patient_id], status scheduled and an end one
    hour after its start, and so has the row it returns. *)
Theorem create_appointment_rows (db : Session) (req : AppointmentCreate)
    (current_user : User.t) :
  let run := create_appointment req current_user db in
  (User.is_doctor current_user = true -> run = (db, Raises doctors_cannot_book))
  /\ (exists new, Db.appointments (fst run) = Db.appointments db ++ new
                  /\ (List.length new <= 1)%nat
                  /\ forall a, In a new -> booked_for req current_user a)
  /\ (forall a, snd run = Returns a ->
                In a (Db.appointments (fst run)) /\ booked_for req current_user a).
Proof.
  intros run. split.
  - intros Hrole. unfold run, create_appointment. rewrite Hrole. reflexivity.
  - exact (create_appointment_adds db req current_user).
Qed.

Lemma create_appointment_rows_witness :
  create_appointment (book 9 0) dr db_plain = (db_plain, Raises doctors_cannot_book).
Proof.
  apply (create_appointment_rows db_plain (book 9 0) dr). reflexivity.
Defined.

(** ** Reminder tick *)

Lemma upcoming_spec (now_1 now_2 : datetime) (a : Appointment.t) :
  upcoming now_1 now_2 a = true <->
  Appointment.status a = SCHEDULED
  /\ now_2 < Appointment.start_time a
  /\ Appointment.start_time a <= now_1 + days 1.
Proof.
  unfold upcoming. rewrite !andb_true_iff, Z.leb_le, Z.ltb_lt.
  destruct (Appointment.status a); cbn [status_eqb]; intuition congruence.
Qed.

Lemma remind_one (db db0 : Session) (a : Appointment.t) :
  Db.users db0 = Db.users db ->
  user_by_id (Appointment.doctor_id a) db <> None ->
  create_appointment_notification a "reminder" db0
  = (add_notification (reminder db a) db0, Returns tt).
Proof.
  intros Hu Hdoc.
  unfold create_appointment_notification, and_then, query, lift, ret, commit, reminder.
  cbn [String.eqb Ascii.eqb Bool.eqb].
  unfold user_by_id in *. rewrite Hu.
  destruct (first _ (Db.users db)) as [u|]; [reflexivity | congruence].
Qed.

Lemma for_each_reminders (db : Session) (l : list Appointment.t) : forall db0,
  Db.users db0 = Db.users db ->
  (forall a, In a l -> user_by_id (Appointment.doctor_id a) db <> None) ->
  for_each l (fun a => create_appointment_notification a "reminder") db0
  = (add_notifications (map (reminder db) l) db0, Returns tt).
Proof.
  induction l as [|a l IH]; intros db0 Hu Hdoc.
  - cbn. unfold ret, add_notifications. rewrite app_nil_r. destruct db0; reflexivity.
  - cbn [for_each map]. unfold and_then.
    rewrite (remind_one db db0 a Hu) by (apply Hdoc; left; reflexivity).
    rewrite IH.
    + unfold add_notifications, add_notification. cbn [Db.users Db.appointments
        Db.working_hours Db.notifications]. rewrite <- app_assoc. reflexivity.
    + exact Hu.
    + intros x Hx. apply Hdoc. right. exact Hx.
Qed.

Lemma is_reminder_of_reminder (db : Session) (a x : Appointment.t) :
  is_reminder_of a (reminder db x)
  = (Appointment.id x =? Appointment.id a)
    && (Appointment.patient_id x =? Appointment.patient_id a).
Proof. unfold is_reminder_of, reminder. cbn. rewrite andb_true_r. reflexivity. Qed.

Lemma reminders_sent_others (db : Session) (g : Appointment.t -> bool)
    (a : Appointment.t) (l : list Appointment.t) :
  ~ In (Appointment.id a) (map Appointment.id l) ->
  reminders_sent a (map (reminder db) (filter g l)) = O.
Proof.
  unfold reminders_sent. induction l as [|x l IH]; intros Hnot; [reflexivity|].
  cbn [map In] in Hnot. cbn [filter].
  assert (Hx : is_reminder_of a (reminder db x) = false).
  { rewrite is_reminder_of_reminder.
    destruct (Appointment.id x =? Appointment.id a) eqn:E; [|reflexivity].
    apply Z.eqb_eq in E. exfalso. apply Hnot. left. exact E. }
  destruct (g x); cbn [map filter]; [rewrite Hx|]; apply IH; tauto.
Qed.

(** With a primary key, the reminders of one appointment among those of a
    selection: one if it is selected, none otherwise. *)
Lemma reminders_sent_selected (db : Session) (g : Appointment.t -> bool)
    (a : Appointment.t) (l : list Appointment.t) :
  NoDup (map Appointment.id l) -> In a l ->
  reminders_sent a (map (reminder db) (filter g l)) = if g a then 1%nat else O.
Proof.
  induction l as [|x l IH]; intros Hnd Hin; [destruct Hin|].
  cbn [map] in Hnd. inversion Hnd as [|? ? Hfresh Hnd']; subst.
  destruct Hin as [->|Hin].
  - pose proof (reminders_sent_others db g a l Hfresh) as Hrest.
    unfold reminders_sent in *. cbn [filter].
    destruct (g a); [|exact Hrest].
    cbn [map filter]. rewrite is_reminder_of_reminder, !Z.eqb_refl.
    cbn [andb List.length]. rewrite Hrest. reflexivity.
  - assert (Hx : is_reminder_of a (reminder db x) = false).
    { rewrite is_reminder_of_reminder.
      destruct (Appointment.id x =? Appointment.id a) eqn:E; [|reflexivity].
      apply Z.eqb_eq in E. exfalso. apply Hfresh. rewrite E.
      apply in_map. exact Hin. }
    specialize (IH Hnd' Hin). unfold reminders_sent in *. cbn [filter].
    destruct (g x); cbn [map filter]; [rewrite Hx|]; exact IH.
Qed.

(** C7.  A tick selects exactly the appointments with status scheduled
    that start strictly after the clock reading of the filter and at most
    24 hours after the clock reading that gives [tomorrow]; when the doctor
    of each selected appointment is in the users table and appointment ids
    are a key, the tick returns, every appointment in the store gets one
    reminder if it is selected and none otherwise, and the appointment rows
    (hence every status) are unchanged. *)
Theorem check_upcoming_appointments_reminders (db : Session) (now_1 now_2 : datetime) :
  (forall a, In a (Db.appointments db) -> upcoming now_1 now_2 a = true ->
             user_by_id (Appointment.doctor_id a) db <> None) ->
  NoDup (map Appointment.id (Db.appointments db)) ->
  let run := check_upcoming_appointments now_1 now_2 db in
  snd run = Returns tt
  /\ Db.appointments (fst run) = Db.appointments db
  /\ (exists new,
        Db.notifications (fst run) = Db.notifications db ++ new
        /\ forall a, In a (Db.appointments db) ->
             reminders_sent a new = if upcoming now_1 now_2 a then 1%nat else O)
  /\ (forall a, upcoming now_1 now_2 a = true <->
                Appointment.status a = SCHEDULED
                /\ now_2 < Appointment.start_time a
                /\ Appointment.start_time a <= now_1 + days 1).
Proof.
  intros Hdoc Hkey run.
  assert (Hrun : run = (add_notifications
                          (map (reminder db)
                               (filter (upcoming now_1 now_2) (Db.appointments db))) db,
                        Returns tt)).
  { unfold run, check_upcoming_appointments, and_then, query.
    apply for_each_reminders; [reflexivity|].
    intros a Ha. apply filter_In in Ha. destruct Ha as [Hin Hup].
    apply Hdoc; assumption. }
  rewrite Hrun. cbn [fst snd add_notifications Db.appointments Db.notifications].
  split; [reflexivity|]. split; [reflexivity|]. split.
  - eexists. split; [reflexivity|].
    intros a Hin. apply reminders_sent_selected; assumption.
  - intros a. apply upcoming_spec.
Qed.

(** Scenario 5 on the code. *)
Lemma check_upcoming_appointments_reminders_witness :
  let run := check_upcoming_appointments tick_time tick_time db_reminders in
  snd run = Returns tt
  /\ Db.appointments (fst run) = Db.appointments db_reminders
  /\ reminders_sent (appt 1 10 0 SCHEDULED) (Db.notifications (fst run)) = 1%nat
  /\ reminders_sent (appt 2 12 0 SCHEDULED) (Db.notifications (fst run)) = O
  /\ reminders_sent (appt 3 10 0 CANCELLED) (Db.notifications (fst run)) = O.
Proof.
  cbv zeta.
  assert (Hdoc : forall a, In a (Db.appointments db_reminders) ->
                   upcoming tick_time tick_time a = true ->
                   user_by_id (Appointment.doctor_id a) db_reminders <> None).
  { intros a [<-|[<-|[<-|[]]]] _; discriminate. }
  assert (Hkey : NoDup (map Appointment.id (Db.appointments db_reminders))).
  { cbn. repeat constructor; cbn; intuition discriminate. }
  destruct (check_upcoming_appointments_reminders db_reminders tick_time tick_time
              Hdoc Hkey) as (Hret & Hrows & _ & _).
  split; [exact Hret|]. split; [exact Hrows|].
  repeat split.
Defined.

(** * Further properties *)

(** ** The slot list and the booking check, each on its own *)


(** X1.  With an active entry holding valid times, a pair of times is in
    the slot list of a date exactly when it starts a whole number of hours
    after the window start, lasts one hour, ends within the window, does
    not overlap the break (when one is declared with both bounds) and does
    not overlap the times of day of any appointment of the doctor that
    starts on that date, whatever its status. *)
Theorem slot_list_characterised (db : Session) (doctor_id : Z) (target_date : date)
    (w : WorkingHours.t) (p : time * time) :
  active_working_hours db doctor_id (weekday target_date) = Some w ->
  valid_time (WorkingHours.start_time w) ->
  valid_time (WorkingHours.end_time w) ->
  (In p (slot_tuples db doctor_id target_date) <->
   (exists k, 0 <= k /\ fst p = WorkingHours.start_time w + k * HOUR)
   /\ snd p = fst p + HOUR
   /\ snd p <= WorkingHours.end_time w
   /\ (forall bs be, WorkingHours.has_break w = true ->
                     WorkingHours.break_start w = Some bs ->
                     WorkingHours.break_end w = Some be ->
                     ~ overlaps p (bs, be))
   /\ (forall a, In a (Db.appointments db) ->
                 Appointment.doctor_id a = doctor_id ->
                 combine target_date time_min <= Appointment.start_time a ->
                 Appointment.start_time a < combine target_date time_max ->
                 ~ overlaps p (time_of (Appointment.start_time a),
                               time_of (Appointment.end_time a)))).
Proof.
  intros Hact Hs He.
  rewrite (slot_tuples_In db doctor_id target_date w Hact Hs He).
  unfold stepped_from, kept.
  split.
  - intros (k & Hk & Hf & Hsn & Hle & Hkept).
    apply andb_true_iff in Hkept. rewrite !negb_true_iff in Hkept.
    destruct Hkept as [Hb Ho].
    split; [eauto|]. split; [exact Hsn|]. split; [exact Hle|].
    split; [apply in_break_false; exact Hb|].
    intros a Hin Hd Hlo Hhi.
    apply (proj1 (overlap_false _ _) Ho). apply booked_slots_In. exists a. auto.
  - intros ((k & Hk & Hf) & Hsn & Hle & Hb & Ho).
    exists k. split; [exact Hk|]. split; [exact Hf|]. split; [exact Hsn|].
    split; [exact Hle|].
    apply andb_true_iff. rewrite !negb_true_iff.
    split; [apply in_break_false; exact Hb|].
    apply overlap_false. intros b Hin. apply booked_slots_In in Hin.
    destruct Hin as (a & Hin & Hd & Hlo & Hhi & ->). apply Ho; assumption.
Qed.

Lemma slot_list_characterised_witness :
  In (hm 10 0, hm 11 0) (slot_tuples db_booked 1 monday).
Proof.
  apply (slot_list_characterised db_booked 1 monday nine_to_five_lunch
           (hm 10 0, hm 11 0) eq_refl).
  - split; vm_compute; congruence.
  - split; vm_compute; congruence.
  - split; [exists 1; split; [lia | reflexivity]|].
    split; [reflexivity|]. split; [vm_compute; congruence|]. split.
    + intros bs be _ Hbs Hbe [H1 H2]. inversion Hbs; inversion Hbe; subst.
      vm_compute in H2. discriminate.
    + intros a [<-|[]] _ _ _ [H1 H2]. vm_compute in H2. discriminate.
Defined.

(** X2.  An interval the booking check admits lies, by its times of day,
    within the window of an active entry for the weekday of its start,
    has neither end inside a break declared with both bounds, and overlaps
    no non-cancelled appointment of the doctor with a non-empty interval. *)
Theorem admitted_interval_is_free (db : Session) (doctor_id : Z) (s e : datetime) :
  s < e ->
  is_time_slot_available db doctor_id s e = Returns true ->
  (exists w,
     active_working_hours db doctor_id (weekday (date_of s)) = Some w
     /\ WorkingHours.start_time w <= time_of s
     /\ time_of e <= WorkingHours.end_time w
     /\ (forall bs be, WorkingHours.has_break w = true ->
                       WorkingHours.break_start w = Some bs ->
                       WorkingHours.break_end w = Some be ->
                       ~ (bs <= time_of s <= be) /\ ~ (bs <= time_of e <= be)))
  /\ (forall a, In a (Db.appointments db) ->
                Appointment.doctor_id a = doctor_id ->
                Appointment.status a <> CANCELLED ->
                Appointment.start_time a < Appointment.end_time a ->
                ~ (Appointment.start_time a < e /\ s < Appointment.end_time a)).
Proof.
  intros Hse. unfold is_time_slot_available.
  destruct (overlapping_appointment db doctor_id s e) eqn:Hoa; [discriminate|].
  destruct (active_working_hours db doctor_id (weekday (date_of s))) as [w|];
    [|discriminate].
  destruct ((time_of s <? WorkingHours.start_time w)
            || (WorkingHours.end_time w <? time_of e)) eqn:Hwin; [discriminate|].
  apply orb_false_iff in Hwin. destruct Hwin as [H1 H2]. apply Z.ltb_ge in H1, H2.
  intros Hadm. split.
  - exists w. split; [reflexivity|]. split; [exact H1|]. split; [exact H2|].
    intros bs be Hb Hbs Hbe. rewrite Hb, Hbs, Hbe in Hadm.
    rewrite break_test_closed in Hadm. cbn [bind] in Hadm.
    destruct ((bs <=? time_of s) && (time_of s <=? be)
              || (bs <=? time_of e) && (time_of e <=? be)) eqn:Hc; [discriminate|].
    apply orb_false_iff in Hc. destruct Hc as [Hc1 Hc2].
    apply andb_false_iff in Hc1, Hc2. rewrite !Z.leb_gt in Hc1, Hc2. lia.
  - intros a Hin Hd Hst Ha Hov.
    rewrite overlapping_appointment_none in Hoa.
    specialize (Hoa a Hin Hd Hst).
    apply (overlapping_half_open s e a Hse Ha) in Hov. congruence.
Qed.

Lemma admitted_interval_is_free_witness :
  exists w,
    active_working_hours db_booked 1 (weekday (date_of (at_ monday 10 0))) = Some w
    /\ WorkingHours.start_time w <= time_of (at_ monday 10 0)
    /\ time_of (at_ monday 11 0) <= WorkingHours.end_time w.
Proof.
  destruct (admitted_interval_is_free db_booked 1 (at_ monday 10 0) (at_ monday 11 0)
              eq_refl eq_refl) as [(w & Hact & Hlo & Hhi & _) _].
  exists w. split; [exact Hact|]. split; [exact Hlo | exact Hhi].
Defined.

(** An hour that starts in the last hour of a day ends on the next day. *)
Lemma last_hour_wraps (s : datetime) :
  DAY - HOUR <= time_of s ->
  date_of (s + hours 1) = date_of s + 1
  /\ time_of (s + hours 1) = time_of s + HOUR - DAY.
Proof.
  intros H. pose proof (combine_date_time s) as Hs.
  pose proof (valid_time_of s) as Hv. unfold valid_time in Hv.
  assert (Hd : date_of (s + hours 1) = date_of s + 1).
  { apply date_of_range. unfold combine, hours in *. unfold DAY, HOUR in *. lia. }
  split; [exact Hd|].
  pose proof (combine_date_time (s + hours 1)) as He. rewrite Hd in He.
  unfold combine, hours in *. lia.
Qed.

(** X3.  The window test compares times of day only.  An hour that starts
    in the last hour of a day, at or after the window start, with no
    overlapping appointment and no break declared, is admitted as soon as
    the window ends at 01:00 or later, although the hour ends on the next
    day, after the window has closed. *)
Theorem booking_across_midnight_admitted (db : Session) (doctor_id : Z)
    (s : datetime) (w : WorkingHours.t) :
  overlapping_appointment db doctor_id s (s + hours 1) = None ->
  active_working_hours db doctor_id (weekday (date_of s)) = Some w ->
  valid_time (WorkingHours.end_time w) ->
  WorkingHours.has_break w = false ->
  WorkingHours.start_time w <= time_of s ->
  DAY - HOUR <= time_of s ->
  HOUR <= WorkingHours.end_time w ->
  is_time_slot_available db doctor_id s (s + hours 1) = Returns true
  /\ date_of (s + hours 1) = date_of s + 1
  /\ combine (date_of s) (WorkingHours.end_time w) < s + hours 1.
Proof.
  intros Hoa Hact Hev Hnb Hstart Hlast Hend.
  destruct (last_hour_wraps s Hlast) as [Hd Ht].
  pose proof (valid_time_of s) as Hv. unfold valid_time in *.
  split; [|split; [exact Hd|]].
  - unfold is_time_slot_available. rewrite Hoa, Hact, Ht, Hnb.
    assert (Hwin : (time_of s <? WorkingHours.start_time w)
                   || (WorkingHours.end_time w <? time_of s + HOUR - DAY) = false).
    { apply orb_false_iff. split; apply Z.ltb_ge; lia. }
    rewrite Hwin. reflexivity.
  - rewrite (combine_date_time s) at 2. unfold combine, hours. lia.
Qed.

Lemma booking_across_midnight_admitted_witness :
  is_time_slot_available db_late 1 (at_ monday 23 15) (at_ monday 23 15 + hours 1)
  = Returns true
  /\ date_of (at_ monday 23 15 + hours 1) = monday + 1.
Proof.
  destruct (booking_across_midnight_admitted db_late 1 (at_ monday 23 15) late)
    as (H1 & H2 & _); try reflexivity.
  - split; vm_compute; congruence.
  - vm_compute; congruence.
  - vm_compute; congruence.
  - vm_compute; congruence.
  - split; [exact H1 | exact H2].
Defined.

(** X4.  An active entry that declares a break without a start bound makes
    the booking check raise [TypeError] for every interval that passes the
    appointment and window tests, and a booking by a patient then fails
    with that error and writes nothing; the read path skips the break test
    for such an entry. *)
Theorem break_without_bounds_raises (db : Session) (req : AppointmentCreate)
    (current_user : User.t) (w : WorkingHours.t) :
  let s := a_start_time req in
  let e := a_start_time req + hours 1 in
  User.is_doctor current_user = false ->
  overlapping_appointment db (a_doctor_id req) s e = None ->
  active_working_hours db (a_doctor_id req) (weekday (date_of s)) = Some w ->
  WorkingHours.start_time w <= time_of s ->
  time_of e <= WorkingHours.end_time w ->
  WorkingHours.has_break w = true ->
  WorkingHours.break_start w = None ->
  is_time_slot_available db (a_doctor_id req) s e = Raises TypeError
  /\ create_appointment req current_user db = (db, Raises TypeError)
  /\ (forall p, in_break w p = false).
Proof.
  intros s e Hrole Hoa Hact Hlo Hhi Hb Hbs.
  assert (Hav : is_time_slot_available db (a_doctor_id req) s e = Raises TypeError).
  { unfold is_time_slot_available. rewrite Hoa, Hact, Hb, Hbs.
    assert (Hwin : (time_of s <? WorkingHours.start_time w)
                   || (WorkingHours.end_time w <? time_of e) = false)
      by (apply orb_false_iff; split; apply Z.ltb_ge; lia).
    rewrite Hwin. reflexivity. }
  split; [exact Hav|]. split.
  - unfold s, e in Hav. unfold create_appointment, and_then. rewrite Hrole.
    cbv zeta. rewrite Hav. reflexivity.
  - intros p. unfold in_break. rewrite Hb, Hbs. reflexivity.
Qed.

Lemma break_without_bounds_raises_witness :
  create_appointment (book 9 0) pat db_no_bounds = (db_no_bounds, Raises TypeError)
  /\ get_available_slots db_no_bounds 1 monday = get_available_slots db_plain 1 monday.
Proof.
  split; [|reflexivity].
  apply (break_without_bounds_raises db_no_bounds (book 9 0) pat
           (set_fields no_bounds nine_to_five));
    try reflexivity; vm_compute; congruence.
Defined.

(** X5.  A cancelled appointment has no part in the booking check: the
    decision is the one taken on the table without it. *)
Theorem cancelled_appointment_ignored (db : Session) (doctor_id : Z) (s e : datetime)
    (a : Appointment.t) (pre post : list Appointment.t) :
  Db.appointments db = pre ++ a :: post ->
  Appointment.status a = CANCELLED ->
  is_time_slot_available db doctor_id s e
  = is_time_slot_available (replace_appointments (pre ++ post) db) doctor_id s e.
Proof.
  intros Hrows Hst.
  unfold is_time_slot_available, overlapping_appointment. rewrite Hrows.
  rewrite first_skip; [reflexivity|].
  rewrite Hst. cbn [status_eqb negb]. rewrite andb_false_r. reflexivity.
Qed.

Lemma cancelled_appointment_ignored_witness :
  is_time_slot_available db_cancelled 1 (at_ monday 9 0) (at_ monday 10 0)
  = is_time_slot_available db_plain 1 (at_ monday 9 0) (at_ monday 10 0).
Proof.
  apply (cancelled_appointment_ignored db_cancelled 1 (at_ monday 9 0) (at_ monday 10 0)
           (appt 1 9 0 CANCELLED) [] []); reflexivity.
Defined.

(** ** Booking and what it leaves behind *)

Lemma create_appointment_effect (db : Session) (req : AppointmentCreate)
    (current_user : User.t) :
  booking_effect req current_user db (create_appointment req current_user db).
Proof.
  unfold create_appointment.
  destruct (User.is_doctor current_user) eqn:Hrole;
    [left; split; [reflexivity | eexists; reflexivity]|].
  unfold and_then at 1.
  destruct (is_time_slot_available db (a_doctor_id req) (a_start_time req)
              (a_start_time req + hours 1)) as [[|]|e] eqn:Hav; cbn [negb];
    [| left; split; [reflexivity | eexists; reflexivity]
     | left; split; [reflexivity | eexists; reflexivity]].
  right. split; [exact Hrole|]. split; [exact Hav|]. clear Hav.
  set (new_id := next_id Appointment.id (Db.appointments db)).
  set (row := Appointment.mk new_id (a_doctor_id req) (User.id current_user)
                (a_start_time req) (a_start_time req + hours 1) SCHEDULED None).
  assert (Hupd : forall qr,
             update_first (fun a => Appointment.id a =? new_id) (set_qr_code qr)
               (Db.appointments db ++ [row])
             = Db.appointments db ++ [set_qr_code qr row]).
  { intros qr. apply update_first_last.
    - intros y Hy. apply Z.eqb_neq.
      pose proof (next_id_fresh Appointment.id _ y Hy) as Hlt. fold new_id in Hlt. lia.
    - apply Z.eqb_refl. }
  unfold and_then, query, commit, ret, lift, raise.
  fold new_id. fold row. cbn [fst snd].
  pose proof (generate_qr_code_reads new_id
                (with_appointments (fun rows => rows ++ [row]) db)) as Hq.
  destruct (generate_qr_code new_id _) as [db1 [qr|e]]; cbn [fst] in Hq; subst db1.
  - destruct (full_name_of (user_by_id (a_doctor_id req) _)) as [dname|e];
      cbn [fst snd]; unfold with_appointments, add_notification;
      cbn [Db.users Db.working_hours Db.appointments Db.notifications];
      (split; [reflexivity|]); (split; [reflexivity|]);
      exists (set_qr_code qr row); rewrite Hupd;
      (split; [repeat split|]); (split; [reflexivity|]); (split; [reflexivity|]).
    + left. split; [reflexivity|]. exists dname. reflexivity.
    + right. split; [eexists; reflexivity | reflexivity].
  - cbn [fst snd]. split; [reflexivity|]. split; [reflexivity|].
    exists row. split; [repeat split|]. split; [reflexivity|]. split; [reflexivity|].
    right. split; [eexists; reflexivity | reflexivity].
Qed.

Lemma ForallOrdPairs_snoc {A : Type} (R : A -> A -> Prop) (l : list A) (x : A) :
  ForallOrdPairs R l -> Forall (fun a => R a x) l -> ForallOrdPairs R (l ++ [x]).
Proof.
  intros Hl Hx. induction Hl as [|a l Ha Hl IH]; cbn.
  - constructor; constructor.
  - inversion Hx as [|? ? Hax Hlx]; subst.
    constructor; [|apply IH; exact Hlx].
    apply Forall_app. split; [exact Ha | constructor; [exact Hax | constructor]].
Qed.

(** X6.  Once [create_appointment] has returned an appointment, the same
    request is rejected with the 400 error for every caller who is not a
    doctor, and that second call writes nothing. *)
Theorem booked_hour_cannot_be_booked_again (db : Session) (req : AppointmentCreate)
    (current_user other : User.t) (a : Appointment.t) :
  snd (create_appointment req current_user db) = Returns a ->
  User.is_doctor other = false ->
  create_appointment req other (fst (create_appointment req current_user db))
  = (fst (create_appointment req current_user db), Raises slot_unavailable).
Proof.
  intros Hret Hrole.
  destruct (create_appointment_effect db req current_user)
    as [[_ [e He]] | (_ & _ & _ & _ & row & Hrow & _ & Hrows & _)];
    [congruence|].
  set (db' := fst (create_appointment req current_user db)) in *.
  destruct Hrow as (Hd & _ & Hs & He & Hst).
  assert (Hav : is_time_slot_available db' (a_doctor_id req) (a_start_time req)
                  (a_start_time req + hours 1) = Returns false).
  { unfold is_time_slot_available.
    destruct (overlapping_appointment db' _ _ _) eqn:Hoa; [reflexivity|].
    exfalso. rewrite overlapping_appointment_none in Hoa.
    assert (Hno : overlapping (a_start_time req) (a_start_time req + hours 1) row = false).
    { apply Hoa; [rewrite Hrows; apply in_or_app; right; left; reflexivity
                 | exact Hd | rewrite Hst; discriminate]. }
    unfold overlapping in Hno. rewrite He, Hs in Hno.
    rewrite !Z.leb_refl, andb_true_r in Hno.
    assert (Hlt : (a_start_time req <? a_start_time req + hours 1) = true)
      by (apply Z.ltb_lt; unfold hours; pose proof HOUR_pos; lia).
    rewrite Hlt in Hno. discriminate. }
  unfold create_appointment, and_then. rewrite Hrole. cbv zeta. rewrite Hav.
  reflexivity.
Qed.

Lemma booked_hour_cannot_be_booked_again_witness :
  create_appointment (book 9 0) pat (fst (create_appointment (book 9 0) pat db_plain))
  = (fst (create_appointment (book 9 0) pat db_plain), Raises slot_unavailable).
Proof.
  apply (booked_hour_cannot_be_booked_again db_plain (book 9 0) pat pat
           (set_qr_code (mk_verification 1 2 "P. B" (at_ monday 9 0) SCHEDULED)
              (Appointment.mk 1 1 2 (at_ monday 9 0) (at_ monday 9 0 + hours 1)
                 SCHEDULED None)));
    reflexivity.
Defined.

(** X7.  Booking keeps the store free of double bookings: if every stored
    appointment lasts one hour and no two non-cancelled appointments of one
    doctor overlap, the same holds after any run of [create_appointment]. *)
Theorem create_appointment_keeps_no_double_booking (db : Session)
    (req : AppointmentCreate) (current_user : User.t) :
  Forall hour_long (Db.appointments db) ->
  no_double_booking (Db.appointments db) ->
  Forall hour_long (Db.appointments (fst (create_appointment req current_user db)))
  /\ no_double_booking (Db.appointments (fst (create_appointment req current_user db))).
Proof.
  intros Hlong Hfree.
  destruct (create_appointment_effect db req current_user)
    as [[-> _] | (_ & Hav & _ & _ & row & Hrow & _ & -> & _)];
    [split; assumption|].
  destruct Hrow as (Hd & _ & Hs & He & Hst).
  split.
  - apply Forall_app. split; [exact Hlong|]. constructor; [exact He | constructor].
  - apply ForallOrdPairs_snoc; [exact Hfree|].
    rewrite Forall_forall in *. intros a Hin Hda Hsa _.
    unfold is_time_slot_available in Hav.
    destruct (overlapping_appointment db _ _ _) eqn:Hoa; [discriminate|].
    rewrite overlapping_appointment_none in Hoa.
    assert (Hne : Appointment.start_time a < Appointment.end_time a).
    { rewrite (Hlong a Hin). unfold hours. pose proof HOUR_pos. lia. }
    assert (Hse : a_start_time req < a_start_time req + hours 1)
      by (unfold hours; pose proof HOUR_pos; lia).
    specialize (Hoa a Hin (eq_trans Hda Hd) Hsa).
    intros Hov. rewrite He, Hs in Hov.
    apply (overlapping_half_open _ _ a Hse Hne) in Hov. congruence.
Qed.

Lemma create_appointment_keeps_no_double_booking_witness :
  no_double_booking (Db.appointments (fst (create_appointment (book 10 0) pat db_booked))).
Proof.
  apply (create_appointment_keeps_no_double_booking db_booked (book 10 0) pat).
  - repeat constructor.
  - repeat constructor.
Defined.

Lemma first_last_fresh {A : Type} (p : A -> bool) (rows : list A) (x : A) :
  (forall y, In y rows -> p y = false) -> p x = true ->
  first p (rows ++ [x]) = Some x.
Proof.
  intros Hrows Hx. induction rows as [|y rows IH]; cbn.
  - rewrite Hx. reflexivity.
  - rewrite (Hrows y (or_introl eq_refl)). apply IH.
    intros z Hz. apply Hrows. right. exact Hz.
Qed.

Lemma fresh_id_unused (rows : list Appointment.t) (y : Appointment.t) :
  In y rows -> (Appointment.id y =? next_id Appointment.id rows) = false.
Proof.
  intros Hy. apply Z.eqb_neq.
  pose proof (next_id_fresh Appointment.id rows y Hy). lia.
Qed.

Lemma generate_qr_code_found (appointment_id : Z) (db : Session)
    (a : Appointment.t) (patient : User.t) :
  appointment_by_id appointment_id db = Some a ->
  user_by_id (Appointment.patient_id a) db = Some patient ->
  generate_qr_code appointment_id db
  = (db, Returns (mk_verification appointment_id (Appointment.patient_id a)
                    (User.full_name patient) (Appointment.start_time a)
                    (Appointment.status a))).
Proof.
  intros Ha Hp. unfold generate_qr_code, and_then, query, lift, ret.
  rewrite Ha, Hp. reflexivity.
Qed.

(** X8.  A booking by a caller who is not a doctor, for an admitted hour,
    with the caller and the doctor present in the users table, returns the
    new row; the store then holds that one row more, carrying the next id,
    status scheduled and the QR payload of the booking, and one
    confirmation more, addressed to the caller and naming the doctor. *)
Theorem create_appointment_succeeds (db : Session) (req : AppointmentCreate)
    (current_user patient doctor : User.t) :
  User.is_doctor current_user = false ->
  is_time_slot_available db (a_doctor_id req) (a_start_time req)
    (a_start_time req + hours 1) = Returns true ->
  user_by_id (User.id current_user) db = Some patient ->
  user_by_id (a_doctor_id req) db = Some doctor ->
  let new_id := next_id Appointment.id (Db.appointments db) in
  let row :=
    Appointment.mk new_id (a_doctor_id req) (User.id current_user)
      (a_start_time req) (a_start_time req + hours 1) SCHEDULED
      (Some (mk_verification new_id (User.id current_user) (User.full_name patient)
               (a_start_time req) SCHEDULED)) in
  let run := create_appointment req current_user db in
  snd run = Returns row
  /\ Db.appointments (fst run) = Db.appointments db ++ [row]
  /\ Db.notifications (fst run)
     = Db.notifications db
       ++ [confirmation req current_user (User.full_name doctor) new_id]
  /\ Db.users (fst run) = Db.users db
  /\ Db.working_hours (fst run) = Db.working_hours db.
Proof.
  intros Hrole Hav Hpat Hdoc new_id row run. unfold run. clear run.
  set (row0 := Appointment.mk new_id (a_doctor_id req) (User.id current_user)
                 (a_start_time req) (a_start_time req + hours 1) SCHEDULED None).
  assert (Hfound : appointment_by_id new_id
                     (with_appointments (fun rows => rows ++ [row0]) db) = Some row0).
  { unfold appointment_by_id, with_appointments. cbn [Db.appointments].
    apply first_last_fresh; [intros y Hy; apply fresh_id_unused; exact Hy
                            | apply Z.eqb_refl]. }
  assert (Hupd : forall qr,
             update_first (fun a => Appointment.id a =? new_id) (set_qr_code qr)
               (Db.appointments db ++ [row0])
             = Db.appointments db ++ [set_qr_code qr row0]).
  { intros qr. apply update_first_last;
      [intros y Hy; apply fresh_id_unused; exact Hy | apply Z.eqb_refl]. }
  destruct (create_appointment req current_user db) as [db' r] eqn:Hrun.
  unfold create_appointment in Hrun. rewrite Hrole in Hrun.
  unfold and_then at 1 in Hrun. rewrite Hav in Hrun. cbn [negb] in Hrun.
  unfold and_then, query, commit, ret, lift, raise in Hrun.
  fold new_id in Hrun. fold row0 in Hrun. cbn [fst snd] in Hrun.
  rewrite (generate_qr_code_found new_id _ row0 patient Hfound Hpat) in Hrun.
  unfold user_by_id in Hdoc, Hrun. cbn [with_appointments Db.users] in Hrun.
  rewrite Hdoc in Hrun. cbn [full_name_of] in Hrun.
  inversion Hrun; subst db' r. clear Hrun.
  unfold add_notification, with_appointments, confirmation.
  cbn [fst snd Db.users Db.appointments Db.working_hours Db.notifications].
  rewrite Hupd. repeat split.
Qed.

Lemma create_appointment_succeeds_witness :
  Db.notifications (fst (create_appointment (book 10 0) pat db_booked))
  = [confirmation (book 10 0) pat "Dr. A" 2].
Proof.
  apply (create_appointment_succeeds db_booked (book 10 0) pat pat dr);
    reflexivity.
Defined.

(** X9.  An appointment [create_appointment] has returned can be read back:
    [get_appointment] with its id returns the same row to the caller who
    booked and to the doctor booked, and it is the last row
    [get_patient_appointments] lists for the caller. *)
Theorem booked_appointment_is_visible (db : Session) (req : AppointmentCreate)
    (current_user : User.t) (a : Appointment.t) :
  snd (create_appointment req current_user db) = Returns a ->
  let db' := fst (create_appointment req current_user db) in
  get_appointment (Appointment.id a) current_user db' = (db', Returns a)
  /\ (forall doctor, User.id doctor = a_doctor_id req ->
                     get_appointment (Appointment.id a) doctor db' = (db', Returns a))
  /\ get_patient_appointments (User.id current_user) current_user db'
     = (db', Returns (filter (fun x => Appointment.patient_id x =? User.id current_user)
                             (Db.appointments db) ++ [a])).
Proof.
  intros Hret db'.
  destruct (create_appointment_effect db req current_user)
    as [[_ [e He]] | (_ & _ & _ & _ & row & Hrow & Hid & Hrows & Hout)];
    [congruence|].
  fold db' in Hrows.
  assert (a = row) as ->.
  { destruct Hout as [[Hr _] | [[e He] _]]; congruence. }
  destruct Hrow as (Hd & Hp & _).
  assert (Hfound : appointment_by_id (Appointment.id row) db' = Some row).
  { unfold appointment_by_id. rewrite Hrows. apply first_last_fresh.
    - intros y Hy. rewrite Hid. apply fresh_id_unused. exact Hy.
    - apply Z.eqb_refl. }
  split; [|split].
  - unfold get_appointment, and_then, query, ret. rewrite Hfound.
    unfold not_a_party. rewrite Hp, Z.eqb_refl, orb_true_r. reflexivity.
  - intros doctor Hdoc. unfold get_appointment, and_then, query, ret. rewrite Hfound.
    unfold not_a_party. rewrite Hd, Hdoc, Z.eqb_refl. reflexivity.
  - unfold get_patient_appointments, query. rewrite Z.eqb_refl. cbn [negb].
    rewrite Hrows, filter_app. cbn [filter]. rewrite Hp, Z.eqb_refl. reflexivity.
Qed.

Lemma booked_appointment_is_visible_witness :
  let run := create_appointment (book 10 0) pat db_booked in
  exists a, snd run = Returns a
            /\ get_appointment (Appointment.id a) pat (fst run) = (fst run, Returns a).
Proof.
  cbv zeta. exists (appt 2 10 0 SCHEDULED). split; [reflexivity|].
  destruct (booked_appointment_is_visible db_booked (book 10 0) pat
              (appt 2 10 0 SCHEDULED) eq_refl) as (H & _).
  exact H.
Defined.

Lemma party_of (current_user : User.t) (a : Appointment.t) :
  not_a_party current_user a = false ->
  User.id current_user = Appointment.doctor_id a
  \/ User.id current_user = Appointment.patient_id a.
Proof.
  unfold not_a_party. intros H. apply negb_false_iff in H.
  apply orb_true_iff in H. rewrite !Z.eqb_eq in H. exact H.
Qed.

Lemma get_appointment_returns (db : Session) (key : Z) (current_user : User.t)
    (a : Appointment.t) :
  snd (get_appointment key current_user db) = Returns a ->
  In a (Db.appointments db) /\ Appointment.id a = key
  /\ (User.id current_user = Appointment.doctor_id a
      \/ User.id current_user = Appointment.patient_id a).
Proof.
  unfold get_appointment, and_then, query, ret, raise.
  destruct (appointment_by_id key db) as [x|] eqn:Hfound; [|discriminate].
  destruct (not_a_party current_user x) eqn:Hp; [discriminate|].
  cbn [snd]. intros H. inversion H; subst x.
  apply first_some in Hfound. destruct Hfound as [Hin Hid]. apply Z.eqb_eq in Hid.
  split; [exact Hin|]. split; [exact Hid|]. apply party_of. exact Hp.
Qed.

Lemma get_appointment_qr_code_returns (db : Session) (key : Z) (current_user : User.t)
    (q : verification_data) :
  snd (get_appointment_qr_code key current_user db) = Returns q ->
  exists a, In a (Db.appointments db) /\ Appointment.id a = key
            /\ (User.id current_user = Appointment.doctor_id a
                \/ User.id current_user = Appointment.patient_id a)
            /\ v_appointment_id q = key
            /\ v_patient_id q = Appointment.patient_id a
            /\ v_status q = Appointment.status a.
Proof.
  unfold get_appointment_qr_code, and_then, query, ret, raise, lift.
  destruct (appointment_by_id key db) as [x|] eqn:Hfound; [|discriminate].
  destruct (not_a_party current_user x) eqn:Hp; [discriminate|].
  destruct (full_name_of (user_by_id (Appointment.patient_id x) db)); [|discriminate].
  cbn [snd]. intros H. inversion H; subst q. cbn.
  apply first_some in Hfound. destruct Hfound as [Hin Hid]. apply Z.eqb_eq in Hid.
  exists x. split; [exact Hin|]. split; [exact Hid|].
  split; [apply party_of; exact Hp|]. repeat split.
Qed.

Lemma get_doctor_appointments_returns (db : Session) (key : Z) (current_user : User.t)
    (rows : list Appointment.t) :
  snd (get_doctor_appointments key current_user db) = Returns rows ->
  User.id current_user = key /\ User.is_doctor current_user = true
  /\ forall a, In a rows ->
               In a (Db.appointments db)
               /\ Appointment.doctor_id a = User.id current_user.
Proof.
  unfold get_doctor_appointments, query, raise.
  destruct (User.id current_user =? key) eqn:Hk; [|discriminate].
  destruct (User.is_doctor current_user); [|discriminate].
  cbn [negb orb snd]. intros H. inversion H; subst rows.
  apply Z.eqb_eq in Hk. split; [exact Hk|]. split; [reflexivity|].
  intros a Ha. apply filter_In in Ha. destruct Ha as [Hin Hd].
  apply Z.eqb_eq in Hd. split; [exact Hin | congruence].
Qed.

Lemma get_patient_appointments_returns (db : Session) (key : Z) (current_user : User.t)
    (rows : list Appointment.t) :
  snd (get_patient_appointments key current_user db) = Returns rows ->
  User.id current_user = key
  /\ forall a, In a rows ->
               In a (Db.appointments db)
               /\ Appointment.patient_id a = User.id current_user.
Proof.
  unfold get_patient_appointments, query, raise.
  destruct (User.id current_user =? key) eqn:Hk; [|discriminate].
  cbn [negb snd]. intros H. inversion H; subst rows.
  apply Z.eqb_eq in Hk. split; [exact Hk|].
  intros a Ha. apply filter_In in Ha. destruct Ha as [Hin Hd].
  apply Z.eqb_eq in Hd. split; [exact Hin | congruence].
Qed.

Lemma views_read_only (db : Session) (key : Z) (current_user : User.t) :
  fst (get_appointment key current_user db) = db
  /\ fst (get_appointment_qr_code key current_user db) = db
  /\ fst (get_doctor_appointments key current_user db) = db
  /\ fst (get_patient_appointments key current_user db) = db.
Proof.
  unfold get_appointment, get_appointment_qr_code, get_doctor_appointments,
    get_patient_appointments, and_then, query, ret, raise, lift.
  split; [|split; [|split]].
  - destruct (appointment_by_id key db) as [x|]; [|reflexivity].
    destruct (not_a_party current_user x); reflexivity.
  - destruct (appointment_by_id key db) as [x|]; [|reflexivity].
    destruct (not_a_party current_user x); [reflexivity|].
    destruct (full_name_of (user_by_id (Appointment.patient_id x) db)); reflexivity.
  - destruct (negb (User.id current_user =? key) || negb (User.is_doctor current_user));
      reflexivity.
  - destruct (negb (User.id current_user =? key)); reflexivity.
Qed.

(** X10.  The appointment views show an appointment only to its parties
    and write nothing: [get_appointment] and [get_appointment_qr_code]
    return only a stored row with the requested id whose doctor or patient
    is the caller; [get_doctor_appointments] returns only to the doctor
    asked for, and only that doctor's rows; [get_patient_appointments]
    returns only to the patient asked for, and only that patient's rows. *)
Theorem views_only_for_parties (db : Session) (key : Z) (current_user : User.t) :
  (forall a, snd (get_appointment key current_user db) = Returns a ->
             In a (Db.appointments db) /\ Appointment.id a = key
             /\ (User.id current_user = Appointment.doctor_id a
                 \/ User.id current_user = Appointment.patient_id a))
  /\ (forall q, snd (get_appointment_qr_code key current_user db) = Returns q ->
                exists a, In a (Db.appointments db) /\ Appointment.id a = key
                          /\ (User.id current_user = Appointment.doctor_id a
                              \/ User.id current_user = Appointment.patient_id a)
                          /\ v_appointment_id q = key
                          /\ v_patient_id q = Appointment.patient_id a
                          /\ v_status q = Appointment.status a)
  /\ (forall rows, snd (get_doctor_appointments key current_user db) = Returns rows ->
                   User.id current_user = key /\ User.is_doctor current_user = true
                   /\ forall a, In a rows ->
                                In a (Db.appointments db)
                                /\ Appointment.doctor_id a = User.id current_user)
  /\ (forall rows, snd (get_patient_appointments key current_user db) = Returns rows ->
                   User.id current_user = key
                   /\ forall a, In a rows ->
                                In a (Db.appointments db)
                                /\ Appointment.patient_id a = User.id current_user)
  /\ fst (get_appointment key current_user db) = db
  /\ fst (get_appointment_qr_code key current_user db) = db
  /\ fst (get_doctor_appointments key current_user db) = db
  /\ fst (get_patient_appointments key current_user db) = db.
Proof.
  split; [intros a; apply get_appointment_returns|].
  split; [intros q; apply get_appointment_qr_code_returns|].
  split; [intros rows; apply get_doctor_appointments_returns|].
  split; [intros rows; apply get_patient_appointments_returns|].
  apply views_read_only.
Qed.

(** ** Status changes *)

Lemma map_id_update_first (p : Appointment.t -> bool) (f : Appointment.t -> Appointment.t)
    (rows : list Appointment.t) :
  (forall a, Appointment.id (f a) = Appointment.id a) ->
  map Appointment.id (update_first p f rows) = map Appointment.id rows.
Proof.
  intros Hid. induction rows as [|r rows IH]; [reflexivity|].
  cbn. destruct (p r); cbn; [rewrite Hid | rewrite IH]; reflexivity.
Qed.

Lemma update_first_split {A : Type} (p : A -> bool) (f : A -> A) (rows : list A) (a : A) :
  first p rows = Some a ->
  exists pre post,
    rows = pre ++ a :: post
    /\ (forall x, In x pre -> p x = false)
    /\ update_first p f rows = pre ++ f a :: post.
Proof.
  induction rows as [|r rows IH]; [discriminate|].
  cbn. destruct (p r) eqn:Hr.
  - intros H. inversion H; subst r. exists [], rows. repeat split. intros x [].
  - intros H. destruct (IH H) as (pre & post & -> & Hpre & Hupd).
    exists (r :: pre), post. split; [reflexivity|]. split.
    + intros x [<-|Hx]; [exact Hr | apply Hpre; exact Hx].
    + cbn. rewrite Hupd. reflexivity.
Qed.

(** X11.  [check_in_appointment] leaves the session that
    [update_appointment_status] leaves for the target in_progress, for every
    id and caller, and returns exactly when the other returns; where they
    refuse, check-in raises the 404 or 403 error it spells, while the
    status handler raises [AttributeError]. *)
Theorem check_in_is_status_update (db : Session) (appointment_id : Z)
    (current_user : User.t) :
  let check_in := check_in_appointment appointment_id current_user db in
  let update := update_appointment_status appointment_id IN_PROGRESS current_user db in
  fst check_in = fst update
  /\ ((exists m, snd check_in = Returns m) <-> (exists m, snd update = Returns m))
  /\ (appointment_by_id appointment_id db = None ->
      snd check_in = Raises (HTTPException 404 "Appointment not found")
      /\ snd update = Raises AttributeError)
  /\ (forall a, appointment_by_id appointment_id db = Some a ->
        User.id current_user <> Appointment.doctor_id a
        \/ User.is_doctor current_user = false ->
        snd check_in
        = Raises (HTTPException 403 "Not authorized to check in appointments")
        /\ snd update = Raises AttributeError).
Proof.
  unfold check_in_appointment, update_appointment_status, and_then, query, commit,
    ret, raise, lift, status_attribute.
  destruct (appointment_by_id appointment_id db) as [a|].
  - destruct (User.id current_user =? Appointment.doctor_id a) eqn:Hid;
      destruct (User.is_doctor current_user) eqn:Hr; cbn [negb orb fst snd].
    + split; [reflexivity|]. split; [split; intros _; eexists; reflexivity|].
      split; [discriminate|]. intros a' Ha' [Hne|Hne]; [|discriminate].
      inversion Ha'; subst a'. apply Z.eqb_eq in Hid. contradiction.
    + split; [reflexivity|]. split; [split; intros [m Hm]; discriminate|].
      split; [discriminate|]. intros; split; reflexivity.
    + split; [reflexivity|]. split; [split; intros [m Hm]; discriminate|].
      split; [discriminate|]. intros; split; reflexivity.
    + split; [reflexivity|]. split; [split; intros [m Hm]; discriminate|].
      split; [discriminate|]. intros; split; reflexivity.
  - cbn [fst snd]. split; [reflexivity|].
    split; [split; intros [m Hm]; discriminate|].
    split; [intros _; split; reflexivity | discriminate].
Qed.

(** X12.  A status change by the appointment's doctor rewrites one row
    only: the first row with the id gets the target status and keeps its
    id, doctor, patient, times and QR payload; the rows before and after
    it, and the other three tables, are left as they were. *)
Theorem status_update_is_local (db : Session) (appointment_id : Z)
    (target : AppointmentStatus) (current_user : User.t) (a : Appointment.t) :
  appointment_by_id appointment_id db = Some a ->
  User.id current_user = Appointment.doctor_id a ->
  User.is_doctor current_user = true ->
  let db' := fst (update_appointment_status appointment_id target current_user db) in
  (exists pre post,
     Db.appointments db = pre ++ a :: post
     /\ (forall x, In x pre -> Appointment.id x <> appointment_id)
     /\ Db.appointments db' = pre ++ set_status target a :: post)
  /\ Appointment.qr_code (set_status target a) = Appointment.qr_code a
  /\ Appointment.start_time (set_status target a) = Appointment.start_time a
  /\ Appointment.end_time (set_status target a) = Appointment.end_time a
  /\ Db.users db' = Db.users db
  /\ Db.working_hours db' = Db.working_hours db
  /\ Db.notifications db' = Db.notifications db.
Proof.
  intros Hfound Hdoc Hrole db'. unfold db', update_appointment_status, and_then,
    query, commit, ret.
  rewrite Hfound, Hdoc, Z.eqb_refl, Hrole. cbn [negb orb fst snd].
  unfold with_appointments.
  cbn [Db.users Db.appointments Db.working_hours Db.notifications].
  split; [|repeat split].
  unfold appointment_by_id in Hfound.
  destruct (update_first_split _ (set_status target) _ a Hfound)
    as (pre & post & Hrows & Hpre & Hupd).
  exists pre, post. split; [exact Hrows|]. split; [|exact Hupd].
  intros x Hx. apply Z.eqb_neq. apply Hpre. exact Hx.
Qed.

Lemma status_update_is_local_witness :
  Db.notifications (fst (update_appointment_status 1 CANCELLED dr db_booked))
  = Db.notifications db_booked.
Proof.
  apply (status_update_is_local db_booked 1 CANCELLED dr (appt 1 9 0 SCHEDULED));
    reflexivity.
Defined.

Lemma check_in_state (db : Session) (appointment_id : Z) (current_user : User.t) :
  fst (check_in_appointment appointment_id current_user db)
  = fst (update_appointment_status appointment_id IN_PROGRESS current_user db).
Proof.
  unfold check_in_appointment, update_appointment_status, and_then, query, commit,
    ret, raise, lift, status_attribute.
  destruct (appointment_by_id appointment_id db) as [a|]; [|reflexivity].
  destruct (negb (User.id current_user =? Appointment.doctor_id a)
            || negb (User.is_doctor current_user)); reflexivity.
Qed.

Lemma keyed_snoc (rows : list Appointment.t) (row : Appointment.t) :
  NoDup (map Appointment.id rows) ->
  Appointment.id row = next_id Appointment.id rows ->
  NoDup (map Appointment.id (rows ++ [row])).
Proof.
  intros Hnd Hid. rewrite map_app. cbn [map].
  apply NoDup_app; [exact Hnd | repeat constructor; intros [] |].
  intros i Hi [<-|[]]. apply in_map_iff in Hi. destruct Hi as (y & Hy & Hin).
  pose proof (next_id_fresh Appointment.id rows y Hin). lia.
Qed.

(** X13.  Appointment ids stay a key: if no two stored appointments share
    an id, none do after [create_appointment], [update_appointment_status]
    or [check_in_appointment], whatever the arguments and the outcome. *)
Theorem appointment_ids_stay_a_key (db : Session) :
  appointments_keyed db ->
  (forall req current_user,
     appointments_keyed (fst (create_appointment req current_user db)))
  /\ (forall appointment_id target current_user,
        appointments_keyed
          (fst (update_appointment_status appointment_id target current_user db)))
  /\ (forall appointment_id current_user,
        appointments_keyed (fst (check_in_appointment appointment_id current_user db))).
Proof.
  unfold appointments_keyed. intros Hkey.
  assert (Hupd : forall appointment_id target current_user,
            NoDup (map Appointment.id (Db.appointments
              (fst (update_appointment_status appointment_id target current_user db))))).
  { intros appointment_id target current_user.
    unfold update_appointment_status, and_then, query, commit, ret, raise, lift,
      status_attribute.
    destruct (appointment_by_id appointment_id db) as [a|]; [|exact Hkey].
    destruct (negb (User.id current_user =? Appointment.doctor_id a)
              || negb (User.is_doctor current_user)); cbn [fst]; [exact Hkey|].
    unfold with_appointments. cbn [Db.appointments].
    rewrite map_id_update_first by reflexivity. exact Hkey. }
  split; [|split; [exact Hupd|]].
  - intros req current_user.
    destruct (create_appointment_effect db req current_user)
      as [[-> _] | (_ & _ & _ & _ & row & _ & Hid & -> & _)]; [exact Hkey|].
    apply keyed_snoc; assumption.
  - intros appointment_id current_user.
    rewrite check_in_state. apply Hupd.
Qed.

Lemma appointment_ids_stay_a_key_witness :
  appointments_keyed (fst (create_appointment (book 10 0) pat db_booked)).
Proof.
  apply (appointment_ids_stay_a_key db_booked).
  unfold appointments_keyed. cbn. repeat constructor. intros [].
Defined.

Lemma first_by_key (rows : list Appointment.t) (a : Appointment.t) :
  NoDup (map Appointment.id rows) -> In a rows ->
  first (fun x => Appointment.id x =? Appointment.id a) rows = Some a.
Proof.
  induction rows as [|r rows IH]; intros Hnd Hin; [destruct Hin|].
  cbn [map] in Hnd. inversion Hnd as [|? ? Hfresh Hnd']; subst.
  cbn. destruct Hin as [->|Hin].
  - rewrite Z.eqb_refl. reflexivity.
  - destruct (Appointment.id r =? Appointment.id a) eqn:E; [|apply IH; assumption].
    apply Z.eqb_eq in E. exfalso. apply Hfresh. rewrite E. apply in_map. exact Hin.
Qed.

(** X14.  The status handler can re-open a cancelled appointment over a
    taken interval: when a cancelled appointment overlaps a non-cancelled
    one of the same doctor, setting it to any status other than cancelled
    succeeds and leaves two overlapping non-cancelled appointments of that
    doctor in the store. *)
Theorem reopening_cancelled_double_books (db : Session) (a b : Appointment.t)
    (target : AppointmentStatus) (current_user : User.t) :
  appointments_keyed db ->
  In a (Db.appointments db) -> In b (Db.appointments db) ->
  Appointment.id a <> Appointment.id b ->
  Appointment.doctor_id a = Appointment.doctor_id b ->
  Appointment.status a = CANCELLED ->
  Appointment.status b <> CANCELLED ->
  Appointment.start_time a < Appointment.end_time b ->
  Appointment.start_time b < Appointment.end_time a ->
  User.id current_user = Appointment.doctor_id a ->
  User.is_doctor current_user = true ->
  target <> CANCELLED ->
  let run := update_appointment_status (Appointment.id a) target current_user db in
  snd run = Returns "Appointment status updated successfully"%string
  /\ ~ no_double_booking (Db.appointments (fst run)).
Proof.
  intros Hkey Ha Hb Hids Hdoc Hsa Hsb Hab Hba Huser Hrole Htarget run.
  pose proof (first_by_key _ a Hkey Ha) as Hfound.
  unfold run, update_appointment_status, and_then, query, commit, ret.
  unfold appointment_by_id. rewrite Hfound, Huser, Z.eqb_refl, Hrole.
  cbn [negb orb fst snd]. split; [reflexivity|].
  unfold with_appointments. cbn [Db.appointments].
  destruct (update_first_split _ (set_status target) _ a Hfound)
    as (pre & post & Hrows & _ & Hupd).
  rewrite Hupd. intros Hfree.
  assert (Hb' : In b (pre ++ set_status target a :: post)).
  { rewrite Hrows in Hb. apply in_app_or in Hb. apply in_or_app.
    destruct Hb as [Hb | [Hb | Hb]]; [left; exact Hb | congruence
                                     | right; right; exact Hb]. }
  assert (Ha' : In (set_status target a) (pre ++ set_status target a :: post))
    by (apply in_elt).
  destruct (ForallOrdPairs_In Hfree _ _ Ha' Hb') as [Heq | [Hc | Hc]].
  - apply Hids. rewrite <- Heq. reflexivity.
  - apply Hc; cbn; auto.
  - apply Hc; cbn; auto.
Qed.

Lemma reopening_cancelled_double_books_witness :
  ~ no_double_booking
      (Db.appointments (fst (update_appointment_status 1 SCHEDULED dr db_rebooked))).
Proof.
  apply (reopening_cancelled_double_books db_rebooked
           (appt 1 9 0 CANCELLED) (appt 2 9 0 SCHEDULED) SCHEDULED dr);
    try reflexivity; try discriminate.
  - unfold appointments_keyed. cbn. repeat constructor; cbn; intuition discriminate.
  - left. reflexivity.
  - right. left. reflexivity.
Defined.

(** X15.  The QR payload stored at booking is never refreshed: after a
    status change by the appointment's doctor the stored payload is the one
    the row had before, while [get_appointment_qr_code], asked by a party
    of the appointment whose patient is in the users table, answers with a
    payload that carries the new status. *)
Theorem stored_qr_payload_goes_stale (db : Session) (appointment_id : Z)
    (target : AppointmentStatus) (current_user party patient : User.t)
    (a : Appointment.t) :
  appointment_by_id appointment_id db = Some a ->
  User.id current_user = Appointment.doctor_id a ->
  User.is_doctor current_user = true ->
  not_a_party party a = false ->
  user_by_id (Appointment.patient_id a) db = Some patient ->
  let db' := fst (update_appointment_status appointment_id target current_user db) in
  option_map Appointment.qr_code (appointment_by_id appointment_id db')
  = Some (Appointment.qr_code a)
  /\ get_appointment_qr_code appointment_id party db'
     = (db', Returns (mk_verification appointment_id (Appointment.patient_id a)
                        (User.full_name patient) (Appointment.start_time a) target)).
Proof.
  intros Hfound Hdoc Hrole Hparty Hpat db'.
  assert (Hfound' : appointment_by_id appointment_id db' = Some (set_status target a)).
  { unfold db', update_appointment_status, and_then, query, commit, ret.
    rewrite Hfound, Hdoc, Z.eqb_refl, Hrole. cbn [negb orb fst].
    unfold appointment_by_id, with_appointments. cbn [Db.appointments].
    rewrite first_update_first by reflexivity.
    unfold appointment_by_id in Hfound. rewrite Hfound. reflexivity. }
  assert (Husers : Db.users db' = Db.users db).
  { unfold db', update_appointment_status, and_then, query, commit, ret.
    rewrite Hfound, Hdoc, Z.eqb_refl, Hrole. reflexivity. }
  split; [rewrite Hfound'; reflexivity|].
  unfold get_appointment_qr_code, and_then, query, ret, lift. rewrite Hfound'.
  assert (Hp : not_a_party party (set_status target a) = false) by exact Hparty.
  rewrite Hp. cbn [Appointment.patient_id set_status fst snd].
  unfold user_by_id in *. rewrite Husers, Hpat. reflexivity.
Qed.

Lemma stored_qr_payload_goes_stale_witness :
  let db' := fst (update_appointment_status 1 COMPLETED dr db_booked) in
  option_map Appointment.qr_code (appointment_by_id 1 db')
  = Some (Some (mk_verification 1 2 "P. B" (at_ monday 9 0) SCHEDULED))
  /\ snd (get_appointment_qr_code 1 pat db')
     = Returns (mk_verification 1 2 "P. B" (at_ monday 9 0) COMPLETED).
Proof.
  cbv zeta.
  destruct (stored_qr_payload_goes_stale db_booked 1 COMPLETED dr pat pat
              (appt 1 9 0 SCHEDULED) eq_refl eq_refl eq_refl eq_refl eq_refl)
    as [H1 H2].
  split; [exact H1 | rewrite H2; reflexivity].
Defined.

(** ** Working-hours maintenance *)

Lemma session_eta (db : Session) :
  {| Db.users := Db.users db;
     Db.appointments := Db.appointments db;
     Db.working_hours := Db.working_hours db;
     Db.notifications := Db.notifications db |} = db.
Proof. destruct db; reflexivity. Qed.

Lemma first_app_last {A : Type} (p : A -> bool) (rows : list A) (x : A) :
  first p (rows ++ [x])
  = match first p rows with
    | Some y => Some y
    | None => if p x then Some x else None
    end.
Proof.
  induction rows as [|r rows IH]; cbn; [reflexivity|].
  destruct (p r); [reflexivity | exact IH].
Qed.

Lemma remove_first_last {A : Type} (p : A -> bool) (rows : list A) (x : A) :
  (forall y, In y rows -> p y = false) -> p x = true ->
  remove_first p (rows ++ [x]) = rows.
Proof.
  intros Hrows Hx. induction rows as [|y rows IH]; cbn.
  - rewrite Hx. reflexivity.
  - rewrite (Hrows y (or_introl eq_refl)). f_equal. apply IH.
    intros z Hz. apply Hrows. right. exact Hz.
Qed.

Lemma remove_first_split {A : Type} (p : A -> bool) (rows : list A) (a : A) :
  first p rows = Some a ->
  exists pre post,
    rows = pre ++ a :: post
    /\ (forall x, In x pre -> p x = false)
    /\ remove_first p rows = pre ++ post.
Proof.
  induction rows as [|r rows IH]; [discriminate|].
  cbn. destruct (p r) eqn:Hr.
  - intros H. inversion H; subst r. exists [], rows. repeat split. intros x [].
  - intros H. destruct (IH H) as (pre & post & -> & Hpre & Hrem).
    exists (r :: pre), post. split; [reflexivity|]. split.
    + intros x [<-|Hx]; [exact Hr | apply Hpre; exact Hx].
    + cbn. rewrite Hrem. reflexivity.
Qed.

Lemma first_update_first_same {A : Type} (p : A -> bool) (f : A -> A) (rows : list A) :
  (forall a, p (f a) = p a) ->
  first p (update_first p f rows) = option_map f (first p rows).
Proof.
  intros Hp. induction rows as [|r rows IH]; [reflexivity|].
  cbn. destruct (p r) eqn:E; cbn.
  - rewrite Hp, E. reflexivity.
  - rewrite E. exact IH.
Qed.

(** What a returning [create_working_hours] has done. *)
Lemma create_working_hours_returns (db db1 : Session) (doctor_id : Z)
    (req : WorkingHoursCreate) (current_user : User.t) (row : WorkingHours.t) :
  create_working_hours doctor_id req current_user db = (db1, Returns row) ->
  User.id current_user = doctor_id
  /\ User.is_doctor current_user = true
  /\ c_start_time req < c_end_time req
  /\ row = WorkingHours.mk (next_id WorkingHours.id (Db.working_hours db)) doctor_id
             (c_day_of_week req) (c_start_time req) (c_end_time req)
             (c_has_break req) (c_break_start req) (c_break_end req) true
  /\ db1 = add_working_hours row db.
Proof.
  unfold create_working_hours.
  destruct (User.id current_user =? doctor_id) eqn:Hid;
    [|cbn [negb orb]; unfold raise; intros H; discriminate].
  destruct (User.is_doctor current_user) eqn:Hr;
    [|cbn [negb orb]; unfold raise; intros H; discriminate].
  cbn [negb orb].
  destruct (c_end_time req <=? c_start_time req) eqn:Hwin;
    [unfold raise; intros H; discriminate|].
  apply Z.eqb_eq in Hid. apply Z.leb_gt in Hwin.
  unfold and_then, raise, ret, lift, query, commit.
  destruct (c_has_break req).
  - destruct (c_break_start req) as [bs|], (c_break_end req) as [be|];
      cbn [is_none orb ge_time]; try (intros H; discriminate).
    destruct (be <=? bs); [intros H; discriminate|].
    intros H. inversion H. repeat split; assumption.
  - intros H. inversion H. repeat split; assumption.
Qed.

(** X16.  An entry [create_working_hours] has returned is the last one
    [get_working_hours] lists for the doctor, and deleting it by its id
    gives back the session as it was before the entry was created. *)
Theorem create_then_delete_restores (db db1 : Session) (doctor_id : Z)
    (req : WorkingHoursCreate) (current_user : User.t) (row : WorkingHours.t) :
  create_working_hours doctor_id req current_user db = (db1, Returns row) ->
  get_working_hours doctor_id db1
  = (db1, Returns (filter (fun w => WorkingHours.doctor_id w =? doctor_id)
                          (Db.working_hours db) ++ [row]))
  /\ delete_working_hours doctor_id (WorkingHours.id row) current_user db1
     = (db, Returns "Working hours deleted successfully"%string).
Proof.
  intros Hrun.
  destruct (create_working_hours_returns _ _ _ _ _ _ Hrun)
    as (Hid & Hrole & _ & Hrow & ->).
  assert (Hown : owned_entry (WorkingHours.id row) doctor_id row = true).
  { unfold owned_entry. rewrite Hrow. cbn. rewrite !Z.eqb_refl. reflexivity. }
  assert (Hfresh : forall y, In y (Db.working_hours db) ->
                     owned_entry (WorkingHours.id row) doctor_id y = false).
  { intros y Hy. unfold owned_entry. apply andb_false_iff. left. apply Z.eqb_neq.
    pose proof (next_id_fresh WorkingHours.id _ y Hy) as Hlt.
    rewrite Hrow. cbn [WorkingHours.id]. lia. }
  split.
  - unfold get_working_hours, query, add_working_hours. cbn [Db.working_hours].
    rewrite filter_app. cbn [filter].
    replace (WorkingHours.doctor_id row =? doctor_id) with true
      by (rewrite Hrow; cbn; symmetry; apply Z.eqb_refl).
    reflexivity.
  - unfold delete_working_hours, and_then, query, commit, ret.
    rewrite Hid, Z.eqb_refl, Hrole. cbn [negb orb].
    unfold add_working_hours at 1. cbn [Db.working_hours].
    rewrite (first_last_fresh _ _ row Hfresh Hown). cbn [fst snd].
    unfold with_working_hours, add_working_hours.
    cbn [Db.users Db.appointments Db.working_hours Db.notifications].
    rewrite (remove_first_last _ _ row Hfresh Hown).
    rewrite session_eta. reflexivity.
Qed.

Lemma create_then_delete_restores_witness :
  delete_working_hours 1 1 dr
    (fst (create_working_hours 1 (mk_whc 0 (hm 9 0) (hm 17 0) false None None) dr
            db_closed))
  = (db_closed, Returns "Working hours deleted successfully"%string).
Proof.
  apply (create_then_delete_restores db_closed _ 1
           (mk_whc 0 (hm 9 0) (hm 17 0) false None None) dr nine_to_five).
  reflexivity.
Defined.

(** X17.  [update_working_hours] checks nothing that [create_working_hours]
    checks: for the doctor's own entry it returns an entry that is then the
    one read back under the same id, whose day, window and break fields are
    those of the request, whatever they are, and whose id, doctor and
    availability are those the entry had; the appointments are untouched.
    This also holds for a request that [create_working_hours] fails with
    the window error or with the error for missing break bounds. *)
Theorem update_working_hours_skips_validation (db : Session)
    (doctor_id working_hours_id : Z) (req : WorkingHoursCreate)
    (current_user : User.t) (w : WorkingHours.t) :
  User.id current_user = doctor_id ->
  User.is_doctor current_user = true ->
  first (owned_entry working_hours_id doctor_id) (Db.working_hours db) = Some w ->
  let run := update_working_hours doctor_id working_hours_id req current_user db in
  (exists w',
     snd run = Returns w'
     /\ first (owned_entry working_hours_id doctor_id) (Db.working_hours (fst run))
        = Some w'
     /\ WorkingHours.day_of_week w' = c_day_of_week req
     /\ WorkingHours.start_time w' = c_start_time req
     /\ WorkingHours.end_time w' = c_end_time req
     /\ WorkingHours.has_break w' = c_has_break req
     /\ WorkingHours.break_start w' = c_break_start req
     /\ WorkingHours.break_end w' = c_break_end req
     /\ WorkingHours.id w' = WorkingHours.id w
     /\ WorkingHours.doctor_id w' = WorkingHours.doctor_id w
     /\ WorkingHours.is_available w' = WorkingHours.is_available w)
  /\ Db.appointments (fst run) = Db.appointments db
  /\ (c_end_time req <= c_start_time req ->
      create_working_hours doctor_id req current_user db = (db, Raises window_error))
  /\ (c_start_time req < c_end_time req -> c_has_break req = true ->
      c_break_start req = None ->
      create_working_hours doctor_id req current_user db
      = (db, Raises break_bounds_error)).
Proof.
  intros Hid Hrole Hfound run.
  unfold run, update_working_hours, and_then, query, commit, ret.
  rewrite Hid, Z.eqb_refl, Hrole. cbn [negb orb]. rewrite Hfound. cbn [fst snd].
  split; [|split; [reflexivity|]].
  - exists (set_fields req w). split; [reflexivity|]. split; [|repeat split].
    unfold with_working_hours. cbn [Db.working_hours].
    rewrite first_update_first_same by reflexivity. rewrite Hfound. reflexivity.
  - unfold create_working_hours. rewrite Hid, Z.eqb_refl, Hrole. cbn [negb orb].
    split.
    + intros Hwin. apply Z.leb_le in Hwin. rewrite Hwin. reflexivity.
    + intros Hwin Hb Hbs. apply Z.leb_gt in Hwin. rewrite Hwin, Hb, Hbs.
      reflexivity.
Qed.

(** The entry 09:00-17:00 without break, updated to declare a break without
    bounds: the entry read back declares the break and has no bound, and
    the same request is refused by [create_working_hours]. *)
Lemma update_working_hours_skips_validation_witness :
  (exists w',
     first (owned_entry 1 1)
           (Db.working_hours (fst (update_working_hours 1 1 no_bounds dr db_plain)))
     = Some w'
     /\ WorkingHours.has_break w' = true
     /\ WorkingHours.break_start w' = None
     /\ WorkingHours.start_time w' = hm 9 0
     /\ WorkingHours.end_time w' = hm 17 0)
  /\ create_working_hours 1 no_bounds dr db_plain = (db_plain, Raises break_bounds_error).
Proof.
  destruct (update_working_hours_skips_validation db_plain 1 1 no_bounds dr
              nine_to_five eq_refl eq_refl eq_refl)
    as ((w' & _ & Hread & _ & Hst & Hen & Hb & Hbs & _) & _ & _ & H2).
  split; [|apply H2; reflexivity].
  exists w'. split; [exact Hread|]. split; [exact Hb|]. split; [exact Hbs|].
  split; [exact Hst | exact Hen].
Defined.

Lemma weekday_range (d : date) : 0 <= weekday d <= 6.
Proof. unfold weekday. pose proof (Z.mod_pos_bound d 7). lia. Qed.

(** Both paths read the working hours through [active_working_hours] and
    nothing else. *)
Lemma paths_depend_on_active (db db1 : Session) :
  Db.appointments db1 = Db.appointments db ->
  (forall doctor_id d, active_working_hours db1 doctor_id (weekday d)
                       = active_working_hours db doctor_id (weekday d)) ->
  forall doctor_id target_date s e,
    get_available_slots db1 doctor_id target_date
    = get_available_slots db doctor_id target_date
    /\ is_time_slot_available db1 doctor_id s e
       = is_time_slot_available db doctor_id s e.
Proof.
  intros Happ Hact doctor_id target_date s e. split.
  - unfold get_available_slots, slot_tuples, booked_slots. rewrite Happ, Hact.
    reflexivity.
  - unfold is_time_slot_available, overlapping_appointment. rewrite Happ, Hact.
    reflexivity.
Qed.

(** X18.  An entry that [create_working_hours] accepts is dead on arrival,
    for the read path and for the booking check alike and for every doctor,
    date and interval, when its [day_of_week] lies outside 0..6 or when the
    doctor already has an active entry for that day. *)
Theorem redundant_entry_changes_nothing (db db1 : Session) (doctor_id : Z)
    (req : WorkingHoursCreate) (current_user : User.t) (row : WorkingHours.t) :
  create_working_hours doctor_id req current_user db = (db1, Returns row) ->
  ~ (0 <= c_day_of_week req <= 6)
  \/ (exists w, active_working_hours db doctor_id (c_day_of_week req) = Some w) ->
  forall d target_date s e,
    get_available_slots db1 d target_date = get_available_slots db d target_date
    /\ is_time_slot_available db1 d s e = is_time_slot_available db d s e.
Proof.
  intros Hrun Hdead.
  destruct (create_working_hours_returns _ _ _ _ _ _ Hrun) as (_ & _ & _ & Hrow & ->).
  apply paths_depend_on_active; [reflexivity|].
  intros d x. unfold active_working_hours, add_working_hours. cbn [Db.working_hours].
  rewrite first_app_last.
  destruct (first _ (Db.working_hours db)) as [y|] eqn:Hfirst; [reflexivity|].
  rewrite Hrow. cbn [WorkingHours.doctor_id WorkingHours.day_of_week
                     WorkingHours.is_available].
  destruct (doctor_id =? d) eqn:Hd; [|reflexivity].
  destruct (c_day_of_week req =? weekday x) eqn:Hday; [|reflexivity].
  apply Z.eqb_eq in Hd, Hday. exfalso.
  destruct Hdead as [Hout | [w Hw]].
  - apply Hout. rewrite Hday. apply weekday_range.
  - unfold active_working_hours in Hw. rewrite Hd, Hday in Hw. congruence.
Qed.

Lemma redundant_entry_changes_nothing_witness :
  let req := mk_whc 0 (hm 6 0) (hm 22 0) false None None in
  get_available_slots (fst (create_working_hours 1 req dr db_lunch)) 1 monday
  = get_available_slots db_lunch 1 monday.
Proof.
  cbv zeta.
  assert (Hdup : ~ (0 <= 0 <= 6)
                 \/ (exists w, active_working_hours db_lunch 1 0 = Some w))
    by (right; exists nine_to_five_lunch; reflexivity).
  destruct (redundant_entry_changes_nothing db_lunch _ 1
              (mk_whc 0 (hm 6 0) (hm 22 0) false None None) dr
              (WorkingHours.mk 2 1 0 (hm 6 0) (hm 22 0) false None None true)
              eq_refl Hdup 1 monday (at_ monday 9 0) (at_ monday 10 0)) as [H _].
  exact H.
Defined.

Lemma keyed_rest (rows pre post : list WorkingHours.t) (a x : WorkingHours.t) :
  NoDup (map WorkingHours.id rows) -> rows = pre ++ a :: post ->
  In x (pre ++ post) -> WorkingHours.id x <> WorkingHours.id a.
Proof.
  intros Hnd -> Hx Heq. rewrite map_app in Hnd. cbn [map] in Hnd.
  apply NoDup_remove_2 in Hnd. apply Hnd. rewrite <- Heq, <- map_app.
  apply in_map. exact Hx.
Qed.

(** X19.  With ids a key, an entry [delete_working_hours] has deleted is
    gone: deleting it again or updating it fails with the 404 error and
    writes nothing, every other entry is still there, and the appointments
    are untouched. *)
Theorem deleted_entry_is_gone (db : Session) (doctor_id working_hours_id : Z)
    (current_user : User.t) (m : string) :
  entries_keyed db ->
  snd (delete_working_hours doctor_id working_hours_id current_user db) = Returns m ->
  let db1 := fst (delete_working_hours doctor_id working_hours_id current_user db) in
  delete_working_hours doctor_id working_hours_id current_user db1
  = (db1, Raises (HTTPException 404 "Working hours not found"))
  /\ (forall req, update_working_hours doctor_id working_hours_id req current_user db1
                  = (db1, Raises (HTTPException 404 "Working hours not found")))
  /\ (forall w, In w (Db.working_hours db) -> WorkingHours.id w <> working_hours_id ->
                In w (Db.working_hours db1))
  /\ Db.appointments db1 = Db.appointments db.
Proof.
  intros Hkey Hret db1. unfold entries_keyed in Hkey.
  assert (Hrun : exists a,
            negb (User.id current_user =? doctor_id)
            || negb (User.is_doctor current_user) = false
            /\ first (owned_entry working_hours_id doctor_id) (Db.working_hours db)
               = Some a
            /\ db1 = with_working_hours
                       (remove_first (owned_entry working_hours_id doctor_id)) db).
  { unfold db1. clear db1. revert Hret. unfold delete_working_hours.
    destruct (negb (User.id current_user =? doctor_id)
              || negb (User.is_doctor current_user));
      [unfold raise; discriminate|].
    unfold and_then, query, commit, ret, raise.
    destruct (first (owned_entry working_hours_id doctor_id) (Db.working_hours db))
      as [a|]; [|discriminate].
    intros _. exists a. repeat split. }
  destruct Hrun as (a & Hauth & Hfound & Hdb1). clearbody db1. subst db1.
  destruct (remove_first_split _ _ a Hfound) as (pre & post & Hrows & Hpre & Hrem).
  assert (Hida : WorkingHours.id a = working_hours_id).
  { apply first_some in Hfound. destruct Hfound as [_ Hp]. unfold owned_entry in Hp.
    apply andb_true_iff in Hp. destruct Hp as [Hp _]. apply Z.eqb_eq. exact Hp. }
  assert (Hgone : first (owned_entry working_hours_id doctor_id)
                        (Db.working_hours
                           (with_working_hours
                              (remove_first (owned_entry working_hours_id doctor_id)) db))
                  = None).
  { unfold with_working_hours. cbn [Db.working_hours]. rewrite Hrem.
    apply first_none. intros x Hx. unfold owned_entry. apply andb_false_iff. left.
    apply Z.eqb_neq. rewrite <- Hida. eapply keyed_rest; eassumption. }
  split; [|split; [|split]].
  - unfold delete_working_hours, and_then, query, raise. rewrite Hauth, Hgone.
    reflexivity.
  - intros req. unfold update_working_hours, and_then, query, raise.
    rewrite Hauth, Hgone. reflexivity.
  - intros w Hw Hne. unfold with_working_hours. cbn [Db.working_hours].
    rewrite Hrem. rewrite Hrows in Hw. apply in_app_or in Hw. apply in_or_app.
    destruct Hw as [Hw | [Hw | Hw]]; [left; exact Hw | congruence | right; exact Hw].
  - reflexivity.
Qed.

Lemma deleted_entry_is_gone_witness :
  let db1 := fst (delete_working_hours 1 1 dr db_plain) in
  delete_working_hours 1 1 dr db1
  = (db1, Raises (HTTPException 404 "Working hours not found")).
Proof.
  cbv zeta.
  apply (deleted_entry_is_gone db_plain 1 1 dr
           "Working hours deleted successfully"%string).
  - unfold entries_keyed. cbn. repeat constructor. intros [].
  - reflexivity.
Defined.

Lemma map_id_update_first_entries (p : WorkingHours.t -> bool)
    (f : WorkingHours.t -> WorkingHours.t) (rows : list WorkingHours.t) :
  (forall w, WorkingHours.id (f w) = WorkingHours.id w) ->
  map WorkingHours.id (update_first p f rows) = map WorkingHours.id rows.
Proof.
  intros Hid. induction rows as [|r rows IH]; [reflexivity|].
  cbn. destruct (p r); cbn; [rewrite Hid | rewrite IH]; reflexivity.
Qed.

Lemma NoDup_remove_first {A B : Type} (key : A -> B) (p : A -> bool) (rows : list A) :
  NoDup (map key rows) -> NoDup (map key (remove_first p rows)).
Proof.
  induction rows as [|r rows IH]; intros Hnd; [exact Hnd|].
  cbn [map] in Hnd. inversion Hnd as [|? ? Hfresh Hnd']; subst.
  cbn. destruct (p r); [exact Hnd'|].
  cbn [map]. constructor; [|apply IH; exact Hnd'].
  intros Hin. apply Hfresh. clear -Hin.
  induction rows as [|x rows IHr]; [exact Hin|].
  cbn in Hin. destruct (p x); [right; exact Hin|].
  destruct Hin as [Hin|Hin]; [left; exact Hin | right; apply IHr; exact Hin].
Qed.

(** X20.  Working-hours ids stay a key: if no two stored entries share an
    id, none do after [create_working_hours], [update_working_hours] or
    [delete_working_hours], whatever the arguments and the outcome. *)
Theorem working_hours_ids_stay_a_key (db : Session) :
  entries_keyed db ->
  (forall doctor_id req current_user,
     entries_keyed (fst (create_working_hours doctor_id req current_user db)))
  /\ (forall doctor_id working_hours_id req current_user,
        entries_keyed
          (fst (update_working_hours doctor_id working_hours_id req current_user db)))
  /\ (forall doctor_id working_hours_id current_user,
        entries_keyed (fst (delete_working_hours doctor_id working_hours_id current_user db))).
Proof.
  unfold entries_keyed. intros Hkey. split; [|split].
  - intros doctor_id req current_user.
    destruct (create_working_hours doctor_id req current_user db) as [db1 [row|e]] eqn:Hrun.
    + destruct (create_working_hours_returns _ _ _ _ _ _ Hrun) as (_ & _ & _ & Hrow & ->).
      cbn [fst add_working_hours Db.working_hours]. rewrite map_app. cbn [map].
      apply NoDup_app; [exact Hkey | repeat constructor; intros [] |].
      intros i Hi [<-|[]]. apply in_map_iff in Hi. destruct Hi as (y & Hy & Hin).
      pose proof (next_id_fresh WorkingHours.id _ y Hin) as Hlt.
      rewrite Hrow in Hy. cbn [WorkingHours.id] in Hy. lia.
    + assert (db1 = db) as ->; [|exact Hkey].
      revert Hrun. unfold create_working_hours, and_then, raise, ret, lift, query, commit.
      destruct (negb (User.id current_user =? doctor_id)
                || negb (User.is_doctor current_user)); [intros H; inversion H; reflexivity|].
      destruct (c_end_time req <=? c_start_time req); [intros H; inversion H; reflexivity|].
      destruct (c_has_break req).
      * destruct (c_break_start req) as [bs|], (c_break_end req) as [be|];
          cbn [is_none orb ge_time]; try (intros H; inversion H; reflexivity).
        destruct (be <=? bs); intros H; inversion H; reflexivity.
      * intros H; inversion H.
  - intros doctor_id working_hours_id req current_user.
    unfold update_working_hours, and_then, query, commit, ret, raise.
    destruct (negb (User.id current_user =? doctor_id)
              || negb (User.is_doctor current_user)); [exact Hkey|].
    destruct (first _ (Db.working_hours db)); [|exact Hkey].
    cbn [fst with_working_hours Db.working_hours].
    rewrite map_id_update_first_entries by reflexivity. exact Hkey.
  - intros doctor_id working_hours_id current_user.
    unfold delete_working_hours, and_then, query, commit, ret, raise.
    destruct (negb (User.id current_user =? doctor_id)
              || negb (User.is_doctor current_user)); [exact Hkey|].
    destruct (first _ (Db.working_hours db)); [|exact Hkey].
    cbn [fst with_working_hours Db.working_hours].
    apply NoDup_remove_first. exact Hkey.
Qed.

Lemma working_hours_ids_stay_a_key_witness :
  entries_keyed (fst (create_working_hours 1 no_bounds dr db_plain)).
Proof.
  apply (working_hours_ids_stay_a_key db_plain).
  unfold entries_keyed. cbn. repeat constructor. intros [].
Defined.

(** ** Reminder ticks in sequence *)

Lemma tick_run (db : Session) (now_1 now_2 : datetime) :
  (forall a, In a (Db.appointments db) -> upcoming now_1 now_2 a = true ->
             user_by_id (Appointment.doctor_id a) db <> None) ->
  check_upcoming_appointments now_1 now_2 db
  = (add_notifications
       (map (reminder db) (filter (upcoming now_1 now_2) (Db.appointments db))) db,
     Returns tt).
Proof.
  intros Hdoc. unfold check_upcoming_appointments, and_then, query.
  apply for_each_reminders; [reflexivity|].
  intros a Ha. apply filter_In in Ha. destruct Ha as [Hin Hup].
  apply Hdoc; assumption.
Qed.

Lemma reminders_sent_app (a : Appointment.t) (l1 l2 : list Notification.t) :
  reminders_sent a (l1 ++ l2) = (reminders_sent a l1 + reminders_sent a l2)%nat.
Proof. unfold reminders_sent. rewrite filter_app. apply length_app. Qed.

(** X21.  Ticks do not remember what they sent: after two ticks in a row
    every appointment has received one reminder for each of the two ticks
    that selected it, so an appointment selected by both has two. *)
Theorem ticks_do_not_deduplicate (db : Session) (n1 n2 n3 n4 : datetime) :
  (forall a, In a (Db.appointments db) ->
             upcoming n1 n2 a = true \/ upcoming n3 n4 a = true ->
             user_by_id (Appointment.doctor_id a) db <> None) ->
  appointments_keyed db ->
  let first_tick := check_upcoming_appointments n1 n2 db in
  let second_tick := check_upcoming_appointments n3 n4 (fst first_tick) in
  snd second_tick = Returns tt
  /\ exists new,
       Db.notifications (fst second_tick) = Db.notifications db ++ new
       /\ forall a, In a (Db.appointments db) ->
            reminders_sent a new
            = ((if upcoming n1 n2 a then 1 else 0)
               + (if upcoming n3 n4 a then 1 else 0))%nat.
Proof.
  intros Hdoc Hkey first_tick second_tick.
  unfold second_tick, first_tick.
  rewrite (tick_run db n1 n2) by (intros a Hin Hup; apply Hdoc; auto).
  cbn [fst].
  set (new1 := map (reminder db) (filter (upcoming n1 n2) (Db.appointments db))).
  rewrite (tick_run (add_notifications new1 db) n3 n4)
    by (intros a Hin Hup; apply (Hdoc a); [exact Hin | right; exact Hup]).
  cbn [fst snd add_notifications Db.appointments Db.notifications].
  split; [reflexivity|].
  eexists. split; [rewrite <- app_assoc; reflexivity|].
  intros a Hin. rewrite reminders_sent_app. unfold new1.
  rewrite (reminders_sent_selected db _ a _ Hkey Hin).
  rewrite (reminders_sent_selected _ _ a _ Hkey Hin). reflexivity.
Qed.

Lemma ticks_do_not_deduplicate_witness :
  let second_tick :=
    check_upcoming_appointments (tick_time + hours 1) (tick_time + hours 1)
      (fst (check_upcoming_appointments tick_time tick_time db_reminders)) in
  reminders_sent (appt 1 10 0 SCHEDULED) (Db.notifications (fst second_tick)) = 2%nat.
Proof.
  cbv zeta.
  assert (Hdoc : forall a, In a (Db.appointments db_reminders) ->
                   upcoming tick_time tick_time a = true
                   \/ upcoming (tick_time + hours 1) (tick_time + hours 1) a = true ->
                   user_by_id (Appointment.doctor_id a) db_reminders <> None).
  { intros a [<-|[<-|[<-|[]]]] _; discriminate. }
  assert (Hkey : appointments_keyed db_reminders).
  { unfold appointments_keyed. cbn. repeat constructor; cbn; intuition discriminate. }
  destruct (ticks_do_not_deduplicate db_reminders tick_time tick_time
              (tick_time + hours 1) (tick_time + hours 1) Hdoc Hkey)
    as (_ & new & Hnew & Hcount).
  rewrite Hnew. cbn [Db.notifications db_reminders app].
  rewrite (Hcount (appt 1 10 0 SCHEDULED) (or_introl eq_refl)). reflexivity.
Defined.

(** The reminders a tick may write. *)
Lemma remind_or_raise (db0 : Session) (a : Appointment.t) :
  create_appointment_notification a "reminder" db0 = (db0, Raises AttributeError)
  \/ exists n, create_appointment_notification a "reminder" db0
               = (add_notification n db0, Returns tt)
               /\ Notification.title n = "Appointment Reminder"%string
               /\ Notification.is_read n = false
               /\ Notification.user_id n = Appointment.patient_id a
               /\ Notification.appointment_id n = Some (Appointment.id a).
Proof.
  unfold create_appointment_notification, and_then, query, lift, ret, commit.
  cbn [String.eqb Ascii.eqb Bool.eqb].
  destruct (user_by_id (Appointment.doctor_id a) db0) as [u|]; cbn [full_name_of].
  - right. eexists. split; [reflexivity|]. repeat split.
  - left. reflexivity.
Qed.

Lemma for_each_only_adds (selected : Appointment.t -> Prop) (l : list Appointment.t) :
  forall db0,
    Forall selected l ->
    let run := for_each l (fun a => create_appointment_notification a "reminder") db0 in
    Db.users (fst run) = Db.users db0
    /\ Db.appointments (fst run) = Db.appointments db0
    /\ Db.working_hours (fst run) = Db.working_hours db0
    /\ (snd run = Returns tt \/ snd run = Raises AttributeError)
    /\ exists new,
         Db.notifications (fst run) = Db.notifications db0 ++ new
         /\ Forall (fun n =>
                      Notification.title n = "Appointment Reminder"%string
                      /\ Notification.is_read n = false
                      /\ exists a, selected a
                                   /\ Notification.user_id n = Appointment.patient_id a
                                   /\ Notification.appointment_id n
                                      = Some (Appointment.id a)) new.
Proof.
  induction l as [|a l IH]; intros db0 Hsel.
  - cbn. repeat split; auto. exists []. rewrite app_nil_r. split; [reflexivity|constructor].
  - inversion Hsel as [|? ? Ha Hl]; subst. cbn [for_each]. unfold and_then.
    destruct (remind_or_raise db0 a) as [-> | (n & -> & Ht & Hr & Hu & Hi)].
    + cbn [fst snd]. repeat split; auto.
      exists []. rewrite app_nil_r. split; [reflexivity|constructor].
    + specialize (IH (add_notification n db0) Hl). cbv zeta in IH.
      destruct IH as (H1 & H2 & H3 & H4 & new & Hnew & Hall).
      cbv zeta. rewrite H1, H2, H3.
      split; [reflexivity|]. split; [reflexivity|]. split; [reflexivity|].
      split; [exact H4|].
      exists (n :: new). split.
      * rewrite Hnew. unfold add_notification. cbn [Db.notifications].
        rewrite <- app_assoc. reflexivity.
      * constructor; [|exact Hall].
        split; [exact Ht|]. split; [exact Hr|]. exists a. auto.
Qed.

(** X22.  Whatever the store holds and whether it returns or raises, a
    tick leaves users, appointments and working hours as they were and only
    appends notifications, each an unread reminder addressed to the patient
    of a stored appointment the tick selected; if it raises, the error is
    [AttributeError]. *)
Theorem tick_only_adds_reminders (db : Session) (now_1 now_2 : datetime) :
  let run := check_upcoming_appointments now_1 now_2 db in
  Db.users (fst run) = Db.users db
  /\ Db.appointments (fst run) = Db.appointments db
  /\ Db.working_hours (fst run) = Db.working_hours db
  /\ (snd run = Returns tt \/ snd run = Raises AttributeError)
  /\ exists new,
       Db.notifications (fst run) = Db.notifications db ++ new
       /\ Forall (fun n =>
                    Notification.title n = "Appointment Reminder"%string
                    /\ Notification.is_read n = false
                    /\ exists a, (In a (Db.appointments db)
                                  /\ upcoming now_1 now_2 a = true)
                                 /\ Notification.user_id n = Appointment.patient_id a
                                 /\ Notification.appointment_id n
                                    = Some (Appointment.id a)) new.
Proof.
  unfold check_upcoming_appointments, and_then, query.
  apply (for_each_only_adds
           (fun a => In a (Db.appointments db) /\ upcoming now_1 now_2 a = true)).
  apply Forall_forall. intros a Ha. apply filter_In. exact Ha.
Qed.

(** ** Booking seen from the read path *)

Lemma booked_slots_grow (db db' : Session) (doctor_id : Z) (target_date : date)
    (row : Appointment.t) (b : time * time) :
  Db.appointments db' = Db.appointments db ++ [row] ->
  In b (booked_slots db doctor_id target_date) ->
  In b (booked_slots db' doctor_id target_date).
Proof.
  intros Hrows Hb. apply booked_slots_In in Hb. apply booked_slots_In.
  destruct Hb as (a & Hin & Hrest). exists a. split; [|exact Hrest].
  rewrite Hrows. apply in_or_app. left. exact Hin.
Qed.

(** X23.  Booking only ever shrinks the slot list, and a booked hour
    leaves it: with valid times in the active entry, every slot listed for
    the doctor on a date after a run of [create_appointment] was listed
    before it, and when the run returned an appointment lying within that
    date, no listed slot overlaps its hour. *)
Theorem booked_hour_leaves_the_list (db : Session) (req : AppointmentCreate)
    (current_user : User.t) (target_date : date) :
  (forall w, active_working_hours db (a_doctor_id req) (weekday target_date) = Some w ->
             valid_time (WorkingHours.start_time w)
             /\ valid_time (WorkingHours.end_time w)) ->
  let s := a_start_time req in
  let db' := fst (create_appointment req current_user db) in
  (forall p, In p (slot_tuples db' (a_doctor_id req) target_date) ->
             In p (slot_tuples db (a_doctor_id req) target_date))
  /\ (forall a, snd (create_appointment req current_user db) = Returns a ->
        date_of s = target_date -> date_of (s + hours 1) = target_date ->
        forall p, In p (slot_tuples db' (a_doctor_id req) target_date) ->
                  ~ overlaps p (time_of s, time_of (s + hours 1))).
Proof.
  intros Hvalid s db'.
  destruct (create_appointment_effect db req current_user)
    as [[Hsame [e He]] | (_ & _ & _ & Hwh & row & Hrow & _ & Hrows & _)].
  { fold db' in Hsame. rewrite Hsame. split; [auto|]. intros a Ha. congruence. }
  fold db' in Hwh, Hrows.
  assert (Hact : active_working_hours db' (a_doctor_id req) (weekday target_date)
                 = active_working_hours db (a_doctor_id req) (weekday target_date))
    by (unfold active_working_hours; rewrite Hwh; reflexivity).
  destruct (active_working_hours db (a_doctor_id req) (weekday target_date))
    as [w|] eqn:Hw.
  2: { assert (Hnil : slot_tuples db' (a_doctor_id req) target_date = [])
         by (unfold slot_tuples; rewrite Hact; reflexivity).
       rewrite Hnil. split; [intros p []|]. intros a _ _ _ p []. }
  destruct (Hvalid w eq_refl) as [Hsv Hev].
  assert (Hkept : forall p, In p (slot_tuples db' (a_doctor_id req) target_date) ->
            stepped_from w (booked_slots db' (a_doctor_id req) target_date)
              (WorkingHours.end_time w) (WorkingHours.start_time w) p).
  { intros p Hp. apply (slot_tuples_In db' _ target_date w Hact Hsv Hev). exact Hp. }
  split.
  - intros p Hp. apply (slot_tuples_In db _ target_date w Hw Hsv Hev).
    destruct (Hkept p Hp) as (k & Hk & Hf & Hsn & Hle & Hkp).
    exists k. repeat split; try assumption.
    unfold kept in *. apply andb_true_iff in Hkp. destruct Hkp as [Hb Ho].
    apply andb_true_iff. split; [exact Hb|].
    apply negb_true_iff in Ho. apply negb_true_iff. apply overlap_false.
    intros b Hb'. apply (proj1 (overlap_false _ _) Ho).
    eapply booked_slots_grow; eassumption.
  - intros a _ Hds Hde p Hp.
    destruct (Hkept p Hp) as (_ & _ & _ & _ & _ & Hkp).
    unfold kept in Hkp. apply andb_true_iff in Hkp. destruct Hkp as [_ Ho].
    apply negb_true_iff in Ho. apply (proj1 (overlap_false _ _) Ho).
    apply booked_slots_In. exists row.
    destruct Hrow as (Hd & _ & Hst & Hen & _).
    split; [rewrite Hrows; apply in_or_app; right; left; reflexivity|].
    split; [exact Hd|].
    apply date_of_range in Hds, Hde. fold s in Hst.
    unfold combine, time_min, time_max, hours in *. pose proof HOUR_pos.
    rewrite Hen, Hst. unfold hours. repeat split; try lia.
Qed.

Lemma booked_hour_leaves_the_list_witness :
  ~ In (hm 10 0, hm 11 0)
       (slot_tuples (fst (create_appointment (book 10 0) pat db_booked)) 1 monday).
Proof.
  assert (H : forall w, active_working_hours db_booked 1 (weekday monday) = Some w ->
             valid_time (WorkingHours.start_time w)
             /\ valid_time (WorkingHours.end_time w)).
  { intros w Hw. vm_compute in Hw. inversion Hw; subst w.
    split; split; vm_compute; congruence. }
  destruct (booked_hour_leaves_the_list db_booked (book 10 0) pat monday H) as [_ Hgone].
  intros Hin.
  apply (Hgone (appt 2 10 0 SCHEDULED) eq_refl eq_refl eq_refl _ Hin).
  split; reflexivity.
Defined.
